(** * praw.models.reddit.live: LiveThread, LiveUpdate and their helpers

    A shallow embedding of [praw/models/reddit/live.py].  Python objects
    live in a heap indexed by location, instance [__dict__]s are finite maps
    from attribute names to values, and every method is a computation in a
    state-and-exception monad over a [World] that also carries the request
    log of the transport collaborator ([Reddit.get] / [Reddit.post]). *)

From Stdlib Require Import ZArith.
From stdpp Require Import gmap strings list.

Local Open Scope string_scope.
Local Open Scope list_scope.

(** ** Values and objects *)

Abbreviation loc := nat (only parsing).

(** The Python values the module handles.  [VReddit] is the [Reddit]
    session object every resource keeps in [_reddit]; [VRef] is a reference
    to a heap object, so that object identity is location equality. *)
Inductive Value : Type :=
| VNone
| VBool (b : bool)
| VStr (s : string)
| VReddit
| VRedditor (name : Value)
| VRef (l : loc).

#[global] Instance Value_eq_dec : EqDecision Value.
Proof. solve_decision. Defined.

(** A decoded payload, or a keyword dictionary: keys in insertion order. *)
Definition Payload := list (string * Value).

(** Python truthiness, as used by [bool(id)] and [if id:]. *)
Definition truthy (v : Value) : bool :=
  match v with
  | VNone => false
  | VBool b => b
  | VStr s => negb (bool_decide (s = ""))
  | VReddit | VRedditor _ | VRef _ => true
  end.

(** [bool(_data)]: [None] and the empty dictionary are both false. *)
Definition truthy_data (d : option Payload) : bool :=
  match d with
  | None | Some [] => false
  | Some (_ :: _) => true
  end.

Inductive Kind : Type := KThread | KUpdate.

#[global] Instance Kind_eq_dec : EqDecision Kind.
Proof. solve_decision. Defined.

(** [self.__class__.__name__] *)
Definition class_name (k : Kind) : string :=
  match k with KThread => "LiveThread" | KUpdate => "LiveUpdate" end.

Inductive Obj : Type :=
| Resource (k : Kind) (d : gmap string Value)
| LiveThreadContribution (thread : loc)
| LiveContributorRelationship (thread : loc)
| LiveUpdateContribution (update : loc).

(** ** The transport collaborator *)

(** [API_PATH[key].format(id=x)]: the table [praw.const.API_PATH] is not
    part of the module, so a formatted path is kept as the key together
    with the value substituted for [{id}]. *)
Record Path : Type := mkPath { endpoint : string; path_id : Value }.

#[global] Instance Path_eq_dec : EqDecision Path.
Proof. solve_decision. Defined.

Inductive Request : Type :=
| Get (p : Path) (params : Payload)
| Post (p : Path) (data : option Payload).

Record Listing : Type := mkListing { children : list Payload; after : option string }.

(** The exceptions that leave the module. *)
Inductive Exc : Type :=
| TypeError
| AttributeError
| StopIteration
| RecursionError
| TransportError   (* a request the server does not answer *)
| APIException     (* a conflict the server reports, as for a repeated invitation *)
| BadReference     (* a location that holds no object of the expected class *)
| NotModelled      (* a value or a behaviour that is decided by code outside the module *)
| OutOfFuel.       (* an iteration cut short by its bound *)

(** What the remote side answers.  For a read, [None] is a failed
    request.  A post can be refused after it was sent ("fails (surfaced to
    caller) if the invitation already exists -- this is a server-reported
    conflict", "the transport failed"): [srv_refuses] gives the exception
    the collaborator then raises, [None] when the post is accepted. *)
Record Server : Type := mkServer {
  srv_get : Path -> option Payload;
  srv_listing : Path -> Payload -> option Listing;
  srv_refuses : Path -> option Payload -> option Exc
}.

Record World : Type := mkWorld {
  heap : list Obj;
  log : list Request;
  srv : Server;
  srv_post : Path -> option Payload -> Server -> Server
}.

Definition set_heap (h : list Obj) (w : World) : World :=
  mkWorld h (log w) (srv w) (srv_post w).

Definition add_log (r : Request) (w : World) : World :=
  mkWorld (heap w) (log w ++ [r]) (srv w) (srv_post w).

Definition set_srv (s : Server) (w : World) : World :=
  mkWorld (heap w) (log w) s (srv_post w).

(** ** The monad *)

Inductive Res (A : Type) : Type :=
| OK (a : A)
| Raise (e : Exc).
Arguments OK {A} a.
Arguments Raise {A} e.

Definition M (A : Type) : Type := World -> Res A * World.

Definition ret {A} (a : A) : M A := fun w => (OK a, w).

Definition raise {A} (e : Exc) : M A := fun w => (Raise e, w).

Definition bind {A B} (m : M A) (k : A -> M B) : M B :=
  fun w => match m w with
           | (OK a, w') => k a w'
           | (Raise e, w') => (Raise e, w')
           end.

Notation "x <- c1 ;; c2" := (bind c1 (fun x => c2))
  (at level 100, c1 at next level, right associativity).
Notation "c1 ;; c2" := (bind c1 (fun _ => c2))
  (at level 100, right associativity).

(** ** Heap primitives *)

Definition alloc (o : Obj) : M loc :=
  fun w => (OK (length (heap w)), set_heap (heap w ++ [o]) w).

(** The class and [__dict__] of a resource instance. *)
Definition load (self : loc) : M (Kind * gmap string Value) :=
  fun w => match heap w !! self with
           | Some (Resource k d) => (OK (k, d), w)
           | _ => (Raise BadReference, w)
           end.

Definition store (self : loc) (k : Kind) (d : gmap string Value) : M unit :=
  fun w => (OK tt, set_heap (<[self := Resource k d]> (heap w)) w).

(** Modelled from the spec: the transport collaborator is outside the
    module; it offers "get(path) -> payload" and "post(path, data)".
    [reddit.get(path)] for a single resource: one request, answered with
    the payload or failing. *)
Definition reddit_get (reddit : Value) (p : Path) : M Payload :=
  match reddit with
  | VReddit => fun w =>
      match srv_get (srv w) p with
      | Some payload => (OK payload, add_log (Get p []) w)
      | None => (Raise TransportError, add_log (Get p []) w)
      end
  | _ => raise AttributeError
  end.

(** Modelled from the spec: [reddit.get(path, params=params)] for a
    listing, answered with "the next batch of raw items plus a
    continuation signal". *)
Definition reddit_get_listing (reddit : Value) (p : Path) (params : Payload) : M Listing :=
  match reddit with
  | VReddit => fun w =>
      match srv_listing (srv w) p params with
      | Some l => (OK l, add_log (Get p params) w)
      | None => (Raise TransportError, add_log (Get p params) w)
      end
  | _ => raise AttributeError
  end.

(** Modelled from the spec: [reddit.post(path, data=data)], "used for
    every mutating action".  The request is sent, and the server either
    accepts it, and what it then makes of it is the collaborator's
    business, kept as [srv_post], or refuses it: actions "surface a
    distinct conflict signal from generic transport failures", and the
    error reaches the caller after the request was made, with the server
    left as it was. *)
Definition reddit_post (reddit : Value) (p : Path) (data : option Payload) : M unit :=
  match reddit with
  | VReddit => fun w =>
      match srv_refuses (srv w) p data with
      | None => (OK tt, set_srv (srv_post w p data (srv w)) (add_log (Post p data) w))
      | Some e => (Raise e, add_log (Post p data) w)
      end
  | _ => raise AttributeError
  end.

(** ** RedditBase

    [praw/models/reddit/base.py] and [praw/models/base.py] are not part of
    the module; the definitions of this section follow the written
    specification of the shared base class. *)

(** Modelled from the spec: the [Redditor] class is missing.  "its raw
    string value is wrapped into a Redditor-like reference object before
    storage"; the reference keeps the value it was built from as its
    name. *)
Definition Redditor (reddit : Value) (name : Value) : Value := VRedditor name.

(** Modelled from the spec: the displayed name of a redditor reference
    ([Redditor.__str__]) is the name it was built from. *)
Definition Redditor_name (v : Value) : option Value :=
  match v with VRedditor n => Some n | _ => None end.

(** [attribute.startswith('_')] *)
Definition starts_with_underscore (s : string) : bool := String.prefix "_" s.

(** The properties the two classes define, none of which has a setter:
    [LiveThread.contrib], [LiveThread.contributor], [LiveUpdate.contrib]
    and [LiveUpdate.thread]. *)
Definition read_only (k : Kind) : list string :=
  match k with
  | KThread => ["contrib"; "contributor"]
  | KUpdate => ["contrib"; "thread"]
  end.

(** Modelled from the spec: the classes both resources inherit from
    ([RedditBase], [PRAWBase] and Python's [object]) are missing.  These
    are the names of theirs that the module relies on: the [fullname]
    property ("a globally-qualified resource identifier"), which
    [LiveUpdateContribution] reads; the methods behind attribute
    resolution and "reset attributes", [_fetch] and [_reset_attributes],
    the second of which [LiveThreadContribution.update] calls; and the
    special methods, whose names start with two underscores.  What
    reading or assigning such a name does is decided by the missing
    code. *)
Definition inherited (attribute : string) : bool :=
  bool_decide (attribute ∈ ["fullname"; "_fetch"; "_reset_attributes"])
  || String.prefix "__" attribute.

(** [object.__setattr__(self, attribute, value)], on the instance
    dictionary of an instance of class [k]: a property without a setter
    refuses the assignment with [AttributeError]; any other name the
    module defines (a method, a class attribute) is shadowed by the
    instance attribute. *)
Definition object_setattr (k : Kind) (d : gmap string Value) (attribute : string)
    (value : Value) : Res (gmap string Value) :=
  if bool_decide (attribute ∈ read_only k) then Raise AttributeError
  else if inherited attribute then Raise NotModelled
  else OK (<[attribute := value]> d).

(** The names an instance of class [k] can be given as attributes, and
    the payloads all of whose keys are such names. *)
Definition assignable (k : Kind) (attribute : string) : bool :=
  negb (bool_decide (attribute ∈ read_only k)) && negb (inherited attribute).

Definition assignable_keys (k : Kind) (items : Payload) : bool :=
  forallb (fun kv => assignable k (fst kv)) items.

(** [LiveUpdate.__setattr__], on the instance dictionary:
<<
    if attribute == 'author':
        value = Redditor(self._reddit, name=value)
    super(LiveUpdate, self).__setattr__(attribute, value)
>>
    [self._reddit] on an instance without that slot ends in
    [RedditBase.__getattr__], which raises for a name with a leading
    underscore. *)
Definition LiveUpdate_setattr_dict (d : gmap string Value) (attribute : string)
    (value : Value) : Res (gmap string Value) :=
  if bool_decide (attribute = "author") then
    match d !! "_reddit" with
    | Some reddit => object_setattr KUpdate d attribute (Redditor reddit value)
    | None => Raise AttributeError
    end
  else object_setattr KUpdate d attribute value.

(** [setattr(self, attribute, value)], dispatched on the class of [self]:
    [LiveThread] inherits [object.__setattr__], [LiveUpdate] overrides it. *)
Definition setattr_dict (k : Kind) (d : gmap string Value) (attribute : string)
    (value : Value) : Res (gmap string Value) :=
  match k with
  | KThread => object_setattr KThread d attribute value
  | KUpdate => LiveUpdate_setattr_dict d attribute value
  end.

Definition setattr (self : loc) (attribute : string) (value : Value) : M unit :=
  x <- load self ;;
  match setattr_dict (fst x) (snd x) attribute value with
  | OK d' => store self (fst x) d'
  | Raise e => raise e
  end.

(** [LiveUpdate.__setattr__] as a method on a heap object. *)
Definition LiveUpdate_setattr (self : loc) (attribute : string) (value : Value) : M unit :=
  x <- load self ;;
  match fst x with
  | KUpdate =>
      match LiveUpdate_setattr_dict (snd x) attribute value with
      | OK d' => store self KUpdate d'
      | Raise e => raise e
      end
  | KThread => raise BadReference
  end.

(** Modelled from the spec: the payload loop of the missing base
    constructor,
    [for attribute, value in _data.items(): setattr(self, attribute, value)]. *)
Fixpoint setattr_items (k : Kind) (d : gmap string Value) (items : Payload)
    : Res (gmap string Value) :=
  match items with
  | [] => OK d
  | (a, v) :: rest =>
      match setattr_dict k d a v with
      | OK d' => setattr_items k d' rest
      | Raise e => Raise e
      end
  end.

(** Modelled from the spec: [RedditBase.__init__(reddit, _data)] is
    missing.  A resource is born holding its session, the attributes of the
    payload when there is one ("attributes populated from a decoded payload
    at construction time", each through the attribute-set path), and is not
    yet marked as fetched. *)
Definition RedditBase_init (k : Kind) (reddit : Value) (_data : option Payload) : M loc :=
  self <- alloc (Resource k ∅) ;;
  setattr self "_reddit" reddit ;;
  x <- load self ;;
  match setattr_items k (snd x) (default [] _data) with
  | OK d' => store self k d' ;; setattr self "_fetched" (VBool false) ;; ret self
  | Raise e => raise e
  end.

(** Modelled from the spec: the info path of a kind without an
    [_info_path] of its own is missing; it is "a kind-specific info path
    built from the id", here the key [info]. *)
Definition info_endpoint (k : Kind) : string :=
  match k with KThread => "liveabout" | KUpdate => "info" end.

(** [LiveThread._info_path]: [API_PATH['liveabout'].format(id=self.id)].
    Reading [self.id] while it is absent re-enters the fetch that asked for
    the path, which Python ends with a [RecursionError]. *)
Definition _info_path (k : Kind) (d : gmap string Value) : Res Path :=
  match d !! "id" with
  | Some i => OK (mkPath (info_endpoint k) i)
  | None => Raise RecursionError
  end.

(** Modelled from the spec: [RedditBase._fetch] is missing.  "exactly one
    fetch call to the owning transport collaborator using a kind-specific
    info path built from the id; ... payload fields overwrite"; on failure
    "no partial state is left". *)
Definition _fetch (self : loc) : M unit :=
  x <- load self ;;
  match _info_path (fst x) (snd x), snd x !! "_reddit" with
  | Raise e, _ => raise e
  | OK _, None => raise AttributeError
  | OK p, Some reddit =>
      payload <- reddit_get reddit p ;;
      match setattr_items (fst x) (snd x) payload with
      | OK d' => store self (fst x) (<["_fetched" := VBool true]> d')
      | Raise e => raise e
      end
  end.

(** Modelled from the spec: [RedditBase.__getattr__] is missing.  An
    attribute present in the instance dictionary is returned; "accessing an
    attribute not yet present triggers exactly one fetch call", unless the
    object is already marked as fetched, in which case the attribute is
    not found.  Names with a leading underscore are slots of the object,
    not fields of the resource, and are never fetched. *)
Definition getattr (self : loc) (attribute : string) : M Value :=
  x <- load self ;;
  match snd x !! attribute with
  | Some v => ret v
  | None =>
      if starts_with_underscore attribute
         || match snd x !! "_fetched" with Some f => truthy f | None => true end
      then raise AttributeError
      else
        _fetch self ;;
        y <- load self ;;
        match snd y !! attribute with
        | Some v => ret v
        | None => raise AttributeError
        end
  end.

(** Modelled from the spec: [RedditBase._reset_attributes] is
    missing.  "removes named attributes from the object's populated set,
    demoting it back toward stub status for those names only, so the next
    access re-fetches". *)
Definition reset_dict (d : gmap string Value) (attributes : list string) : gmap string Value :=
  <["_fetched" := VBool false]> (foldl (fun m a => delete a m) d attributes).

(** Modelled from the spec: [_reset_attributes] on a heap object. *)
Definition _reset_attributes (self : loc) (attributes : list string) : M unit :=
  x <- load self ;;
  store self (fst x) (reset_dict (snd x) attributes).

(** [STR_FIELD = 'id'] in both classes. *)
Definition STR_FIELD (k : Kind) : string := "id".

(** Modelled from the spec: [RedditBase.__str__] is missing.  "str(self)
    is defined as the designated string field (id) for that kind"; Python
    requires the result to be a string. *)
Definition RedditBase_str (self : loc) : M string :=
  x <- load self ;;
  v <- getattr self (STR_FIELD (fst x)) ;;
  match v with
  | VStr s => ret s
  | _ => raise TypeError
  end.

(** [str(x)] for the values passed as [redditor]. *)
Definition py_str (v : Value) : M string :=
  match v with
  | VStr s => ret s
  | VNone => ret "None"
  | VBool true => ret "True"
  | VBool false => ret "False"
  | VRedditor (VStr s) => ret s
  | VRedditor _ => raise TypeError
  | VRef l => RedditBase_str l
  | VReddit => raise NotModelled
  end.

(** ** Dictionaries in insertion order *)

(** [d[k] = v] *)
Fixpoint dict_set (d : Payload) (k : string) (v : Value) : Payload :=
  match d with
  | [] => [(k, v)]
  | (k', v') :: rest =>
      if bool_decide (k' = k) then (k, v) :: rest else (k', v') :: dict_set rest k v
  end.

(** [d.update(other)] *)
Definition dict_update (d other : Payload) : Payload :=
  foldl (fun acc kv => dict_set acc (fst kv) (snd kv)) d other.

Definition is_none (v : Value) : bool :=
  match v with VNone => true | _ => false end.

Section Live.

(** The iteration order of a Python [set] built from the given elements,
    and the interpreter's string hash: both are fixed by the running
    interpreter, not by the module. *)
Variable set_iter : list string -> list string.
Variable py_hash : string -> Z.

(** ** LiveContributorRelationship *)

(** [self.thread] of either helper class. *)
Definition helper_thread (self : loc) : M loc :=
  fun w => match heap w !! self with
           | Some (LiveContributorRelationship t) | Some (LiveThreadContribution t) => (OK t, w)
           | _ => (Raise BadReference, w)
           end.

Definition _handle_permissions (permissions : option (list string)) : string :=
  let permissions :=
    match permissions with
    | None => set_iter ["all"]
    | Some l => set_iter l
    end in
  String.concat "," (map (fun x => "+" +:+ x) permissions).

Definition LiveContributorRelationship_invite (self : loc) (redditor : Value)
    (permissions : option (list string)) : M unit :=
  t <- helper_thread self ;;
  i <- getattr t "id" ;;
  let url := mkPath "live_invite" i in
  name <- py_str redditor ;;
  let data := [("name", VStr name);
               ("type", VStr "liveupdate_contributor_invite");
               ("permissions", VStr (_handle_permissions permissions))] in
  r <- getattr t "_reddit" ;;
  reddit_post r url (Some data).

Definition LiveContributorRelationship_update (self : loc) (redditor : Value)
    (permissions : option (list string)) : M unit :=
  t <- helper_thread self ;;
  i <- getattr t "id" ;;
  let url := mkPath "live_update_perms" i in
  name <- py_str redditor ;;
  let data := [("name", VStr name);
               ("type", VStr "liveupdate_contributor");
               ("permissions", VStr (_handle_permissions permissions))] in
  r <- getattr t "_reddit" ;;
  reddit_post r url (Some data).

(** ** LiveThread *)

Definition LiveThread_contrib (self : loc) : M Value :=
  c <- getattr self "_contrib" ;;
  (if is_none c
   then l <- alloc (LiveThreadContribution self) ;; setattr self "_contrib" (VRef l)
   else ret tt) ;;
  getattr self "_contrib".

Definition LiveThread_contributor (self : loc) : M Value :=
  c <- getattr self "_contributor" ;;
  (if is_none c
   then l <- alloc (LiveContributorRelationship self) ;; setattr self "_contributor" (VRef l)
   else ret tt) ;;
  getattr self "_contributor".

(** [isinstance(other, self.__class__)] *)
Definition isinstance (other : Value) (k : Kind) : M bool :=
  match other with
  | VRef l => fun w =>
      match heap w !! l with
      | Some (Resource k' _) => (OK (bool_decide (k' = k)), w)
      | _ => (OK false, w)
      end
  | _ => ret false
  end.

Definition LiveThread_eq (self : loc) (other : Value) : M bool :=
  match other with
  | VStr s => s' <- RedditBase_str self ;; ret (bool_decide (s = s'))
  | _ =>
      x <- load self ;;
      b <- isinstance other (fst x) ;;
      if b then
        a <- RedditBase_str self ;;
        c <- py_str other ;;
        ret (bool_decide (a = c))
      else ret false
  end.

Definition LiveThread_hash (self : loc) : M Z :=
  x <- load self ;;
  s <- RedditBase_str self ;;
  ret (Z.lxor (py_hash (class_name (fst x))) (py_hash s)).

Definition LiveThread_init (reddit : Value) (id : Value) (_data : option Payload) : M loc :=
  if Bool.eqb (truthy id) (truthy_data _data) then raise TypeError
  else
    self <- RedditBase_init KThread reddit _data ;;
    (if truthy id then setattr self "id" id else ret tt) ;;
    setattr self "_contrib" VNone ;;
    setattr self "_contributor" VNone ;;
    ret self.

(** ** LiveUpdate *)

Definition LiveUpdate_init (reddit : Value) (thread_id update_id : Value)
    (_data : option Payload) : M loc :=
  match _data with
  | Some data =>
      self <- RedditBase_init KUpdate reddit (Some data) ;;
      LiveUpdate_setattr self "_fetched" (VBool true) ;;
      ret self
  | None =>
      if truthy thread_id && truthy update_id then
        self <- RedditBase_init KUpdate reddit None ;;
        r <- getattr self "_reddit" ;;
        t <- LiveThread_init r thread_id None ;;
        LiveUpdate_setattr self "_thread" (VRef t) ;;
        LiveUpdate_setattr self "id" update_id ;;
        LiveUpdate_setattr self "_fetched" (VBool true) ;;
        LiveUpdate_setattr self "_contrib" VNone ;;
        ret self
      else raise TypeError
  end.

(** The [thread] property: [return self._thread]. *)
Definition LiveUpdate_thread (self : loc) : M Value := getattr self "_thread".

Definition LiveUpdate_contrib (self : loc) : M Value :=
  c <- getattr self "_contrib" ;;
  (if is_none c
   then l <- alloc (LiveUpdateContribution self) ;; setattr self "_contrib" (VRef l)
   else ret tt) ;;
  getattr self "_contrib".

(** The names the class [LiveUpdate] itself defines: its class
    attribute, its two properties and its two methods. *)
Definition LiveUpdate_class_names : list string :=
  ["STR_FIELD"; "contrib"; "thread"; "__init__"; "__setattr__"].

(** An attribute of the class that is no property: the instance attribute
    of the same name, if there is one, comes first. *)
Definition class_attribute (self : loc) (key : string) (from_class : M Value) : M Value :=
  x <- load self ;;
  match snd x !! key with
  | Some v => ret v
  | None => from_class
  end.

(** Attribute access [update.key].  The two properties come first; the
    class attribute [STR_FIELD] gives way to an instance attribute; a
    method of the class is a value the embedding has no constructor for,
    and a name of the missing base classes is theirs to answer; every
    other name is looked up in the instance, and ends in [__getattr__]
    when it is not there. *)
Definition LiveUpdate_getattr (self : loc) (key : string) : M Value :=
  if bool_decide (key = "thread") then LiveUpdate_thread self
  else if bool_decide (key = "contrib") then LiveUpdate_contrib self
  else if bool_decide (key = "STR_FIELD")
  then class_attribute self key (ret (VStr (STR_FIELD KUpdate)))
  else if bool_decide (key ∈ ["__init__"; "__setattr__"]) || inherited key
  then raise NotModelled
  else getattr self key.

Definition LiveThread_getitem (self : loc) (update_id : Value) : M loc :=
  r <- getattr self "_reddit" ;;
  i <- getattr self "id" ;;
  LiveUpdate_init r i update_id None.

(** ** ListingGenerator

    [praw/models/listing/generator.py] is not part of the module. *)

Record ListingGenerator : Type := mkGen {
  lg_reddit : Value;
  lg_url : Path;
  lg_limit : option nat;
  lg_params : Payload;
  lg_listing : option (list loc);
  lg_index : nat;
  lg_exhausted : bool;
  lg_yielded : nat
}.

(** Modelled from the spec: the [ListingGenerator] constructor is missing.
    Configuration "limit: int|None (cap on items, None = exhaust all
    pages), params: extra query parameters"; nothing is requested yet. *)
Definition ListingGenerator_init (reddit : Value) (url : Path) (limit : option nat)
    (params : Payload) : ListingGenerator :=
  mkGen reddit url limit params None 0 false 0.

(** Modelled from the spec: the decoding of a page is missing.  The
    sequence is one "of decoded resource objects": each raw child becomes
    a full [LiveUpdate] built from its payload. *)
Fixpoint decode_children (reddit : Value) (raw : list Payload) : M (list loc) :=
  match raw with
  | [] => ret []
  | p :: rest =>
      u <- LiveUpdate_init reddit VNone VNone (Some p) ;;
      us <- decode_children reddit rest ;;
      ret (u :: us)
  end.

(** Modelled from the spec: the page request of [ListingGenerator] is
    missing.  "give me the next batch of raw items plus a continuation
    signal": one request with the current parameters; the continuation
    token, when there is one, becomes the [after] parameter of the next
    request, and its absence ends the listing. *)
Definition ListingGenerator_next_batch (g : ListingGenerator) : M ListingGenerator :=
  if lg_exhausted g then raise StopIteration
  else
    l <- reddit_get_listing (lg_reddit g) (lg_url g) (lg_params g) ;;
    us <- decode_children (lg_reddit g) (children l) ;;
    match us with
    | [] => raise StopIteration
    | _ :: _ =>
        match after l with
        | Some a =>
            ret (mkGen (lg_reddit g) (lg_url g) (lg_limit g)
                       (dict_set (lg_params g) "after" (VStr a))
                       (Some us) 0 false (lg_yielded g))
        | None =>
            ret (mkGen (lg_reddit g) (lg_url g) (lg_limit g) (lg_params g)
                       (Some us) 0 true (lg_yielded g))
        end
    end.

Definition limit_reached (g : ListingGenerator) : bool :=
  match lg_limit g with
  | Some n => Nat.leb n (lg_yielded g)
  | None => false
  end.

Definition page_consumed (g : ListingGenerator) : bool :=
  match lg_listing g with
  | None => true
  | Some us => Nat.leb (length us) (lg_index g)
  end.

(** Modelled from the spec: [ListingGenerator.__next__] is missing.  "each
    call to the consuming iteration protocol may trigger zero or one
    network request"; "the next page is requested only once all items of
    the current page are consumed"; the sequence "yields individual items,
    not pages", at most [limit] of them. *)
Definition ListingGenerator_next (g : ListingGenerator) : M (loc * ListingGenerator) :=
  if limit_reached g then raise StopIteration
  else
    g1 <- (if page_consumed g then ListingGenerator_next_batch g else ret g) ;;
    match lg_listing g1 with
    | Some us =>
        match us !! lg_index g1 with
        | Some u =>
            ret (u, mkGen (lg_reddit g1) (lg_url g1) (lg_limit g1) (lg_params g1)
                          (lg_listing g1) (S (lg_index g1)) (lg_exhausted g1)
                          (S (lg_yielded g1)))
        | None => raise StopIteration
        end
    | None => raise StopIteration
    end.

(** ** LiveThread.updates

    A generator function: its body starts to run at the first [next]. *)
Inductive UpdatesGen : Type :=
| UpdatesStart (self : loc) (limit : option nat) (params : Payload)
| UpdatesLoop (self : loc) (g : ListingGenerator).

Definition LiveThread_updates (self : loc) (limit : option nat) (params : Payload)
    : UpdatesGen :=
  UpdatesStart self limit params.

(** One resumption of the generator, up to its next [yield]. *)
Definition LiveThread_updates_next (it : UpdatesGen) : M (loc * UpdatesGen) :=
  x <- match it with
       | UpdatesStart self limit params =>
           i <- getattr self "id" ;;
           let url := mkPath "live_updates" i in
           r <- getattr self "_reddit" ;;
           ret (self, ListingGenerator_init r url limit params)
       | UpdatesLoop self g => ret (self, g)
       end ;;
  y <- ListingGenerator_next (snd x) ;;
  setattr (fst y) "_thread" (VRef (fst x)) ;;
  ret (fst y, UpdatesLoop (fst x) (snd y)).

(** [list(it)]: pull until [StopIteration]. *)
Fixpoint iterate (fuel : nat) (it : UpdatesGen) : M (list loc) :=
  match fuel with
  | 0 => raise OutOfFuel
  | S fuel' => fun w =>
      match LiveThread_updates_next it w with
      | (OK y, w') => (us <- iterate fuel' (snd y) ;; ret (fst y :: us)) w'
      | (Raise StopIteration, w') => (OK [], w')
      | (Raise e, w') => (Raise e, w')
      end
  end.

(** ** LiveThreadContribution *)

(** The names the class [LiveThread] itself defines. *)
Definition LiveThread_class_names : list string :=
  ["STR_FIELD"; "contrib"; "contributor"; "__eq__"; "__getitem__"; "__hash__";
   "__init__"; "_info_path"; "updates"].

(** The built-in [getattr(thread, key)] on a [LiveThread], in the same
    order as for an update: the two properties; the class attribute and
    the two plain methods of the class, unless an instance attribute
    shadows them; the special methods and the names of the missing base
    classes; and then the instance attributes. *)
Definition LiveThread_getattr (self : loc) (key : string) : M Value :=
  if bool_decide (key = "contrib") then LiveThread_contrib self
  else if bool_decide (key = "contributor") then LiveThread_contributor self
  else if bool_decide (key = "STR_FIELD")
  then class_attribute self key (ret (VStr (STR_FIELD KThread)))
  else if bool_decide (key = "updates") || bool_decide (key = "_info_path")
  then class_attribute self key (raise NotModelled)
  else if bool_decide (key ∈ ["__eq__"; "__getitem__"; "__hash__"; "__init__"])
          || inherited key
  then raise NotModelled
  else getattr self key.

(** [{key: getattr(thread, key) if value is None else value
      for key, value in settings.items()}] *)
Fixpoint merge_settings (thread : loc) (settings : Payload) : M Payload :=
  match settings with
  | [] => ret []
  | (key, value) :: rest =>
      v <- (if is_none value then LiveThread_getattr thread key else ret value) ;;
      data <- merge_settings thread rest ;;
      ret ((key, v) :: data)
  end.

Definition LiveThreadContribution_update (self : loc)
    (title description nsfw resources : Value) (other_settings : Payload) : M unit :=
  let settings :=
    dict_update [("title", title); ("description", description);
                 ("nsfw", nsfw); ("resources", resources)] other_settings in
  if forallb is_none (map snd settings) then ret tt
  else
    t <- helper_thread self ;;
    r <- getattr t "_reddit" ;;
    i <- getattr t "id" ;;
    thread <- LiveThread_init r i None ;;
    data <- merge_settings thread settings ;;
    i' <- getattr t "id" ;;
    let url := mkPath "live_update_thread" i' in
    r' <- getattr t "_reddit" ;;
    reddit_post r' url (Some data) ;;
    _reset_attributes t (map fst data).

End Live.

(** ** Vocabulary of the statements *)

Definition is_OK {A} (r : Res A) : bool :=
  match r with OK _ => true | Raise _ => false end.

(** The value the attribute-set path of class [k] stores for [a := v]. *)
Definition stored_value (k : Kind) (a : string) (v : Value) : Value :=
  match k with
  | KThread => v
  | KUpdate => if bool_decide (a = "author") then VRedditor v else v
  end.

(** The dictionary after setting, in order, every item of a payload. *)
Definition overlay (k : Kind) (d : gmap string Value) (items : Payload) : gmap string Value :=
  foldl (fun m kv => <[fst kv := stored_value k (fst kv) (snd kv)]> m) d items.

(** The instance dictionary [RedditBase.__init__] leaves behind. *)
Definition base_dict (k : Kind) (reddit : Value) (_data : option Payload) : gmap string Value :=
  <["_fetched" := VBool false]> (overlay k (<["_reddit" := reddit]> ∅) (default [] _data)).

(** The instance dictionary of a freshly constructed [LiveThread]. *)
Definition thread_dict (reddit id : Value) (_data : option Payload) : gmap string Value :=
  <["_contributor" := VNone]>
    (<["_contrib" := VNone]>
       (let d := base_dict KThread reddit _data in
        if truthy id then <["id" := id]> d else d)).

(** The instance dictionary of a [LiveUpdate] built from a payload. *)
Definition full_update_dict (reddit : Value) (data : Payload) : gmap string Value :=
  <["_fetched" := VBool true]> (base_dict KUpdate reddit (Some data)).

(** The instance dictionary of a [LiveUpdate] built from two ids, whose
    thread stub lives at [t]. *)
Definition stub_update_dict (reddit update_id : Value) (t : loc) : gmap string Value :=
  <["_contrib" := VNone]>
    (<["_fetched" := VBool true]>
       (<["id" := update_id]>
          (<["_thread" := VRef t]> (base_dict KUpdate reddit None)))).

(** A concrete session used by the closed examples: one live thread,
    [abc], whose settings the server knows, and no listing. *)
Definition example_settings : Payload :=
  [("title", VStr "old title"); ("description", VStr "d");
   ("nsfw", VBool false); ("resources", VStr "r")].

Definition example_server : Server :=
  mkServer
    (fun p => if bool_decide (p = mkPath "liveabout" (VStr "abc"))
              then Some example_settings else None)
    (fun _ _ => None)
    (fun _ _ => None).

Definition example_world : World :=
  mkWorld [] [] example_server (fun _ _ s => s).

(** The two memoized helper properties of a thread, their private slot
    and the helper object each one creates. *)
Inductive Helper : Type := Contrib | Contributor.

Definition LiveThread_helper (p : Helper) : loc -> M Value :=
  match p with
  | Contrib => LiveThread_contrib
  | Contributor => LiveThread_contributor
  end.

Definition helper_slot (p : Helper) : string :=
  match p with Contrib => "_contrib" | Contributor => "_contributor" end.

Definition helper_obj (p : Helper) (self : loc) : Obj :=
  match p with
  | Contrib => LiveThreadContribution self
  | Contributor => LiveContributorRelationship self
  end.

(** The instance dictionaries an update can reach: the one its base class
    starts from, and any dictionary [LiveUpdate.__setattr__] makes of a
    reachable one. *)
Inductive assigned (reddit : Value) : gmap string Value -> Prop :=
| assigned_new : assigned reddit (<["_reddit" := reddit]> ∅)
| assigned_set d a v d' :
    assigned reddit d ->
    LiveUpdate_setattr_dict d a v = OK d' ->
    assigned reddit d'.

(** Whatever sits in the [author] slot is a redditor reference. *)
Definition author_is_reference (d : gmap string Value) : Prop :=
  forall x, d !! "author" = Some x -> exists v, x = VRedditor v.

(** The value a payload gives to a key: its last binding. *)
Definition last_binding (a : string) (items : Payload) : option Value :=
  foldl (fun acc kv => if bool_decide (fst kv = a) then Some (snd kv) else acc)
        None items.

(** Every author a payload names is a truthy value.  What the missing
    [Redditor] constructor makes of a name that is not is outside the
    embedding. *)
Definition named_authors (items : Payload) : bool :=
  forallb (fun kv => negb (bool_decide (fst kv = "author")) || truthy (snd kv)) items.

(** The instance attributes of an update made by item access: its
    session, its flag, and the scoping fields. *)
Definition stub_slots : list string :=
  ["_reddit"; "_fetched"; "_thread"; "id"; "_contrib"].

(** The cached value of attribute [a] on the resource at [l]: what its
    instance dictionary holds, without any fetch. *)
Definition cached (w : World) (l : loc) (a : string) : option Value :=
  match heap w !! l with
  | Some (Resource _ d) => d !! a
  | _ => None
  end.

(** The keys of the settings dictionary of [LiveThreadContribution.update]. *)
Definition settings_keys : list string := ["title"; "description"; "nsfw"; "resources"].

(** The example session after the thread [abc] was created (at location
    0), a description was cached on it, and its [contrib] helper (at
    location 1) was taken. *)
Definition example_thread_world : World :=
  snd ((t <- LiveThread_init VReddit (VStr "abc") None ;;
        setattr t "description" (VStr "cached") ;;
        LiveThread_contrib t) example_world).

(** A listing item as decoded from its payload, and the same item once
    [LiveThread.updates] has stamped it with the requesting thread. *)
Definition decoded_update (reddit : Value) (p : Payload) : Obj :=
  Resource KUpdate (full_update_dict reddit p).

Definition listed_update (reddit : Value) (thread : loc) (p : Payload) : Obj :=
  Resource KUpdate (<["_thread" := VRef thread]> (full_update_dict reddit p)).

(** The generator state after [n] more items of the loaded page. *)
Definition advance (n : nat) (g : ListingGenerator) : ListingGenerator :=
  mkGen (lg_reddit g) (lg_url g) (lg_limit g) (lg_params g) (lg_listing g)
        (n + lg_index g) (lg_exhausted g) (n + lg_yielded g).

(** The generator state right after a page was received. *)
Definition refilled (g : ListingGenerator) (l : Listing) (first : loc) : ListingGenerator :=
  mkGen (lg_reddit g) (lg_url g) (lg_limit g)
        (match after l with
         | Some a => dict_set (lg_params g) "after" (VStr a)
         | None => lg_params g
         end)
        (Some (seq first (length (children l)))) 0
        (match after l with Some _ => false | None => true end)
        (lg_yielded g).

(** Items yielded before the rest of an iteration. *)
Definition prepend (xs : list loc) (r : Res (list loc) * World) : Res (list loc) * World :=
  match r with
  | (OK us, w) => (OK (xs ++ us), w)
  | (Raise e, w) => (Raise e, w)
  end.

(** A session whose server lists the updates of the thread [abc] in two
    pages, of 100 and of 37 items. *)
Definition paged_server : Server :=
  mkServer
    (fun _ => None)
    (fun p params =>
       if bool_decide (p = mkPath "live_updates" (VStr "abc")) then
         if bool_decide (params = [])
         then Some (mkListing (replicate 100 [("body", VStr "first page")]) (Some "t1"))
         else if bool_decide (params = [("after", VStr "t1")])
         then Some (mkListing (replicate 37 [("body", VStr "second page")]) None)
         else None
       else None)
    (fun _ _ => None).

Definition paged_world : World :=
  snd (LiveThread_init VReddit (VStr "abc") None
         (mkWorld [] [] paged_server (fun _ _ s => s))).

(** ** The one-shot actions of the helpers *)

(** [isinstance(redditor, Redditor)] *)
Definition is_Redditor (v : Value) : bool :=
  match v with VRedditor _ => true | _ => false end.

(** [self.update] of a [LiveUpdateContribution]. *)
Definition helper_update (self : loc) : M loc :=
  fun w => match heap w !! self with
           | Some (LiveUpdateContribution u) => (OK u, w)
           | _ => (Raise BadReference, w)
           end.

(** Attribute access [v.a] on a value that should be a resource. *)
Definition value_getattr (v : Value) (a : string) : M Value :=
  match v with
  | VRef l => getattr l a
  | _ => raise AttributeError
  end.

Section Actions.

(** Modelled from the spec: the [fullname] property of [Redditor] and of
    the resources is missing.  A fullname is "a globally-qualified
    resource identifier (kind prefix + id)"; how it is computed is left to
    these two parameters. *)
Variable Redditor_fullname : Value -> M Value.
Variable RedditBase_fullname : loc -> M Value.

Definition LiveContributorRelationship_accept_invite (self : loc) : M unit :=
  t <- helper_thread self ;;
  i <- getattr t "id" ;;
  let url := mkPath "live_accept_invite" i in
  r <- getattr t "_reddit" ;;
  reddit_post r url None.

Definition LiveContributorRelationship_leave (self : loc) : M unit :=
  t <- helper_thread self ;;
  i <- getattr t "id" ;;
  let url := mkPath "live_leave" i in
  r <- getattr t "_reddit" ;;
  reddit_post r url None.

Definition LiveContributorRelationship_remove (self : loc) (redditor : Value) : M unit :=
  fullname <- (if is_Redditor redditor then Redditor_fullname redditor
               else ret redditor) ;;
  let data := [("id", fullname)] in
  t <- helper_thread self ;;
  i <- getattr t "id" ;;
  let url := mkPath "live_remove_contrib" i in
  r <- getattr t "_reddit" ;;
  reddit_post r url (Some data).

Definition LiveContributorRelationship_remove_invite (self : loc) (redditor : Value)
    : M unit :=
  fullname <- (if is_Redditor redditor then Redditor_fullname redditor
               else ret redditor) ;;
  let data := [("id", fullname)] in
  t <- helper_thread self ;;
  i <- getattr t "id" ;;
  let url := mkPath "live_remove_invite" i in
  r <- getattr t "_reddit" ;;
  reddit_post r url (Some data).

Definition LiveThreadContribution_add (self : loc) (body : Value) : M unit :=
  t <- helper_thread self ;;
  i <- getattr t "id" ;;
  let url := mkPath "live_add_update" i in
  r <- getattr t "_reddit" ;;
  reddit_post r url (Some [("body", body)]).

Definition LiveThreadContribution_close (self : loc) : M unit :=
  t <- helper_thread self ;;
  i <- getattr t "id" ;;
  let url := mkPath "live_close" i in
  r <- getattr t "_reddit" ;;
  reddit_post r url None.

(** [LiveUpdateContribution.remove] and [strike] differ in the endpoint
    only:
<<
    url = API_PATH[key].format(id=self.update.thread.id)
    data = {'id': self.update.fullname}
    self.update.thread._reddit.post(url, data=data)
>> *)
Definition LiveUpdateContribution_post (key : string) (self : loc) : M unit :=
  u <- helper_update self ;;
  th <- LiveUpdate_thread u ;;
  i <- value_getattr th "id" ;;
  let url := mkPath key i in
  f <- RedditBase_fullname u ;;
  let data := [("id", f)] in
  th' <- LiveUpdate_thread u ;;
  r <- value_getattr th' "_reddit" ;;
  reddit_post r url (Some data).

Definition LiveUpdateContribution_remove : loc -> M unit :=
  LiveUpdateContribution_post "live_remove_update".

Definition LiveUpdateContribution_strike : loc -> M unit :=
  LiveUpdateContribution_post "live_strike".

End Actions.

(** The actions a thread offers through its two helpers, for statements
    that hold of all of them. *)
Inductive ThreadAction : Type :=
| AcceptInvite
| Leave
| Invite (name : string) (permissions : option (list string))
| UpdatePermissions (name : string) (permissions : option (list string))
| Remove (fullname : Value)
| RemoveInvite (fullname : Value)
| Add (body : Value)
| Close.

(** The helper property an action is reached through. *)
Definition action_helper (a : ThreadAction) : Helper :=
  match a with
  | Add _ | Close => Contrib
  | _ => Contributor
  end.

Definition run_action (set_iter : list string -> list string)
    (Redditor_fullname : Value -> M Value) (a : ThreadAction) (self : loc) : M unit :=
  match a with
  | AcceptInvite => LiveContributorRelationship_accept_invite self
  | Leave => LiveContributorRelationship_leave self
  | Invite name permissions =>
      LiveContributorRelationship_invite set_iter self (VStr name) permissions
  | UpdatePermissions name permissions =>
      LiveContributorRelationship_update set_iter self (VStr name) permissions
  | Remove fullname => LiveContributorRelationship_remove Redditor_fullname self fullname
  | RemoveInvite fullname =>
      LiveContributorRelationship_remove_invite Redditor_fullname self fullname
  | Add body => LiveThreadContribution_add self body
  | Close => LiveThreadContribution_close self
  end.

(** The endpoint and the form data of the one request of an action. *)
Definition action_endpoint (a : ThreadAction) : string :=
  match a with
  | AcceptInvite => "live_accept_invite"
  | Leave => "live_leave"
  | Invite _ _ => "live_invite"
  | UpdatePermissions _ _ => "live_update_perms"
  | Remove _ => "live_remove_contrib"
  | RemoveInvite _ => "live_remove_invite"
  | Add _ => "live_add_update"
  | Close => "live_close"
  end.

Definition action_data (set_iter : list string -> list string) (a : ThreadAction)
    : option Payload :=
  match a with
  | AcceptInvite | Leave | Close => None
  | Invite name permissions =>
      Some [("name", VStr name);
            ("type", VStr "liveupdate_contributor_invite");
            ("permissions", VStr (_handle_permissions set_iter permissions))]
  | UpdatePermissions name permissions =>
      Some [("name", VStr name);
            ("type", VStr "liveupdate_contributor");
            ("permissions", VStr (_handle_permissions set_iter permissions))]
  | Remove fullname | RemoveInvite fullname => Some [("id", fullname)]
  | Add body => Some [("body", body)]
  end.

(** A comma occurs in the string. *)
Fixpoint has_comma (s : string) : bool :=
  match s with
  | EmptyString => false
  | String c rest => bool_decide (String c EmptyString = ",") || has_comma rest
  end.

(** A request that only reads. *)
Definition is_get (r : Request) : bool :=
  match r with Get _ _ => true | Post _ _ => false end.

(** The resource at [l] is marked as fetched. *)
Definition fetched (l : loc) (w : World) : Prop :=
  exists k d, heap w !! l = Some (Resource k d) /\ d !! "_fetched" = Some (VBool true).

(** A method call [h.f()] on the value a helper property returned. *)
Definition on_helper (h : Value) (f : loc -> M unit) : M unit :=
  match h with
  | VRef l => f l
  | _ => raise AttributeError
  end.

(** [reddit.live(X).helper.action()]: a thread made from its id alone,
    one of its helpers taken, one action called. *)
Definition stub_thread_action (set_iter : list string -> list string)
    (Redditor_fullname : Value -> M Value) (X : string) (a : ThreadAction) : M unit :=
  t <- LiveThread_init VReddit (VStr X) None ;;
  h <- LiveThread_helper (action_helper a) t ;;
  on_helper h (run_action set_iter Redditor_fullname a).

(** The argument of [remove] and [remove_invite] is a raw value, not a
    [Redditor] instance. *)
Definition raw_argument (a : ThreadAction) : bool :=
  match a with
  | Remove f | RemoveInvite f => negb (is_Redditor f)
  | _ => true
  end.

(** What attribute reads on the resource at [n] may do to the world: the
    server and the objects below [n] stay as they are, the heap does not
    shrink, and the log gains at most one request, a fetch, after which
    the resource is marked as fetched when the read returned ([ok]); once
    it is so marked, nothing more is requested. *)
Definition read_effect (n : loc) (ok : bool) (w w' : World) : Prop :=
  srv w' = srv w
  /\ srv_post w' = srv_post w
  /\ length (heap w) <= length (heap w')
  /\ (forall l, l < n -> heap w' !! l = heap w !! l)
  /\ (fetched n w -> log w' = log w /\ fetched n w')
  /\ (log w' = log w
      \/ exists p, log w' = log w ++ [Get p []] /\ (ok = true -> fetched n w')).

(** The settings dictionary [LiveThreadContribution.update] starts from. *)
Definition update_settings (title description nsfw resources : Value)
    (other_settings : Payload) : Payload :=
  dict_update [("title", title); ("description", description);
               ("nsfw", nsfw); ("resources", resources)] other_settings.

(** ** Running the primitives *)

Lemma bind_OK {A B} (m : M A) (k : A -> M B) w a w' :
  m w = (OK a, w') -> bind m k w = k a w'.
Proof. intros H. unfold bind. by rewrite H. Qed.

Lemma bind_Raise {A B} (m : M A) (k : A -> M B) w e w' :
  m w = (Raise e, w') -> bind m k w = (Raise e, w').
Proof. intros H. unfold bind. by rewrite H. Qed.

Lemma lookup_fresh (h : list Obj) o rest : (h ++ o :: rest) !! length h = Some o.
Proof. by rewrite list_lookup_middle. Qed.

Lemma insert_fresh (h : list Obj) o o' rest :
  <[length h := o']> (h ++ o :: rest) = h ++ o' :: rest.
Proof.
  rewrite insert_app_r_alt by lia. by rewrite Nat.sub_diag.
Qed.

Lemma lookup_fresh_S (h : list Obj) o o1 rest :
  (h ++ o :: o1 :: rest) !! S (length h) = Some o1.
Proof.
  rewrite lookup_app_r by lia. by replace (S (length h) - length h) with 1 by lia.
Qed.

Lemma insert_fresh_S (h : list Obj) o o1 o' rest :
  <[S (length h) := o']> (h ++ o :: o1 :: rest) = h ++ o :: o' :: rest.
Proof.
  rewrite insert_app_r_alt by lia.
  by replace (S (length h) - length h) with 1 by lia.
Qed.

Lemma lookup_old (h : list Obj) rest l o :
  h !! l = Some o -> (h ++ rest) !! l = Some o.
Proof. apply lookup_app_l_Some. Qed.

Lemma insert_old (h : list Obj) rest l o :
  l < length h -> <[l := o]> (h ++ rest) = <[l := o]> h ++ rest.
Proof. intros. by rewrite insert_app_l. Qed.

Lemma load_run w self k d :
  heap w !! self = Some (Resource k d) -> load self w = (OK (k, d), w).
Proof. intros H. unfold load. by rewrite H. Qed.

Lemma object_setattr_ok k d a v :
  assignable k a = true -> object_setattr k d a v = OK (<[a := v]> d).
Proof.
  unfold assignable, object_setattr. intros [H1 H2]%andb_true_iff.
  apply negb_true_iff in H1, H2. by rewrite H1, H2.
Qed.

Lemma setattr_dict_ok k d a v :
  is_Some (d !! "_reddit") ->
  assignable k a = true ->
  setattr_dict k d a v = OK (<[a := stored_value k a v]> d).
Proof.
  intros [r Hr] Ha. destruct k; cbn [setattr_dict stored_value].
  - by apply object_setattr_ok.
  - unfold LiveUpdate_setattr_dict. case_bool_decide.
    + rewrite Hr. by apply object_setattr_ok.
    + by apply object_setattr_ok.
Qed.

(** An assignment that is refused leaves no trace, and the only
    exceptions are those of the refusal. *)
Lemma setattr_dict_inv k d a v :
  match setattr_dict k d a v with
  | OK d' => d' = <[a := stored_value k a v]> d /\ assignable k a = true
  | Raise e => e = AttributeError \/ e = NotModelled
  end.
Proof.
  assert (Hobj : forall k0 x,
            match object_setattr k0 d a x with
            | OK d' => d' = <[a := x]> d /\ assignable k0 a = true
            | Raise e => e = AttributeError \/ e = NotModelled
            end).
  { intros k0 x. unfold object_setattr, assignable.
    destruct (bool_decide (a ∈ read_only k0)); [by left |].
    destruct (inherited a); [by right | done]. }
  destruct k; cbn [setattr_dict stored_value]; [apply Hobj |].
  unfold LiveUpdate_setattr_dict. case_bool_decide; [| apply Hobj].
  destruct (d !! "_reddit"); [apply Hobj | by left].
Qed.

Lemma overlay_keeps_reddit k d items :
  is_Some (d !! "_reddit") -> is_Some (overlay k d items !! "_reddit").
Proof.
  revert d. induction items as [| [a v] items IH]; intros d Hd; simpl; [done |].
  apply IH. destruct (decide (a = "_reddit")) as [-> | Hne].
  - rewrite lookup_insert_eq. eauto.
  - by rewrite lookup_insert_ne.
Qed.

Lemma setattr_items_ok k d items :
  is_Some (d !! "_reddit") ->
  assignable_keys k items = true ->
  setattr_items k d items = OK (overlay k d items).
Proof.
  revert d. induction items as [| [a v] items IH]; intros d Hd Hk; [done |].
  cbn [assignable_keys forallb fst] in Hk. apply andb_true_iff in Hk as [Ha Hk].
  cbn [setattr_items]. rewrite setattr_dict_ok by done. apply IH; [| exact Hk].
  apply (overlay_keeps_reddit k d [(a, v)] Hd).
Qed.

(** The payload loop succeeds exactly on the payloads of assignable
    names, as long as the session slot is there. *)
Lemma setattr_items_inv k d items :
  is_Some (d !! "_reddit") ->
  match setattr_items k d items with
  | OK d' => d' = overlay k d items /\ assignable_keys k items = true
  | Raise e => (e = AttributeError \/ e = NotModelled)
               /\ assignable_keys k items = false
  end.
Proof.
  revert d. induction items as [| [a v] items IH]; intros d Hd; [done |].
  cbn [setattr_items assignable_keys forallb fst].
  pose proof (setattr_dict_inv k d a v) as Hs.
  destruct (setattr_dict k d a v) as [d1 | e] eqn:Hset.
  - destruct Hs as [-> Ha]. rewrite Ha. cbn [andb].
    apply (IH (<[a := stored_value k a v]> d)).
    apply (overlay_keeps_reddit k d [(a, v)] Hd).
  - split; [exact Hs |].
    destruct (assignable k a) eqn:Ha; [| done].
    rewrite setattr_dict_ok in Hset by done. discriminate.
Qed.

Lemma setattr_run w self k d a v :
  heap w !! self = Some (Resource k d) ->
  is_Some (d !! "_reddit") ->
  assignable k a = true ->
  setattr self a v w
  = (OK tt, set_heap (<[self := Resource k (<[a := stored_value k a v]> d)]> (heap w)) w).
Proof.
  intros H Hr Ha. unfold setattr. rewrite (bind_OK _ _ _ _ _ (load_run _ _ _ _ H)).
  simpl. by rewrite setattr_dict_ok.
Qed.

Ltac wsimpl :=
  cbn [heap log srv srv_post set_heap add_log set_srv fst snd];
  rewrite <- ?app_assoc, ?length_app; cbn [app length];
  rewrite ?Nat.add_1_r, ?insert_fresh, ?lookup_fresh, ?insert_fresh_S, ?lookup_fresh_S.

Lemma setattr_plain_run w self k d a v :
  heap w !! self = Some (Resource k d) ->
  a <> "author" ->
  assignable k a = true ->
  setattr self a v w
  = (OK tt, set_heap (<[self := Resource k (<[a := v]> d)]> (heap w)) w).
Proof.
  intros H Ha Hk. unfold setattr. rewrite (bind_OK _ _ _ _ _ (load_run _ _ _ _ H)).
  cbn [fst snd]. destruct k; cbn [setattr_dict].
  - by rewrite object_setattr_ok.
  - unfold LiveUpdate_setattr_dict. rewrite bool_decide_eq_false_2 by done.
    by rewrite object_setattr_ok.
Qed.

Lemma store_run w self k d :
  store self k d w = (OK tt, set_heap (<[self := Resource k d]> (heap w)) w).
Proof. done. Qed.

(** A post the server accepts, and one it refuses. *)
Lemma reddit_post_run p data w :
  srv_refuses (srv w) p data = None ->
  reddit_post VReddit p data w
  = (OK tt, set_srv (srv_post w p data (srv w)) (add_log (Post p data) w)).
Proof. intros H. unfold reddit_post. by rewrite H. Qed.

Lemma reddit_post_refused p data e w :
  srv_refuses (srv w) p data = Some e ->
  reddit_post VReddit p data w = (Raise e, add_log (Post p data) w).
Proof. intros H. unfold reddit_post. by rewrite H. Qed.

Lemma alloc_run w o :
  alloc o w = (OK (length (heap w)), set_heap (heap w ++ [o]) w).
Proof. done. Qed.

(** One step of a computation whose first action is known to succeed. *)
Ltac step L := erewrite bind_OK; [| L]; wsimpl.

Lemma assignable_private k a :
  a ∈ ["_reddit"; "_fetched"; "_thread"; "_contrib"; "_contributor"; "id"] ->
  assignable k a = true.
Proof.
  rewrite !elem_of_cons, elem_of_nil.
  intros [-> | [-> | [-> | [-> | [-> | [-> | []]]]]]]; by destruct k.
Qed.

Ltac private_name :=
  apply assignable_private;
  repeat first [apply list_elem_of_here | apply list_elem_of_further].

Lemma RedditBase_init_run k reddit _data w :
  assignable_keys k (default [] _data) = true ->
  RedditBase_init k reddit _data w
  = (OK (length (heap w)),
     set_heap (heap w ++ [Resource k (base_dict k reddit _data)]) w).
Proof.
  intros Hk. unfold RedditBase_init.
  step ltac:(apply alloc_run).
  step ltac:(apply setattr_plain_run with (k := k) (d := ∅);
             [apply lookup_fresh | done | private_name]).
  step ltac:(apply load_run; wsimpl; reflexivity).
  rewrite setattr_items_ok by (first [rewrite lookup_insert_eq; eauto | exact Hk]).
  step ltac:(apply store_run).
  step ltac:(eapply setattr_plain_run; [wsimpl; reflexivity | done | private_name]).
  reflexivity.
Qed.

(** What the base constructor does in general: it allocates the instance
    with its session, then either completes it or stops at the first key
    of the payload that cannot be assigned.  It sends nothing. *)
Lemma RedditBase_init_inv k reddit _data w :
  match RedditBase_init k reddit _data w with
  | (OK l, w') =>
      assignable_keys k (default [] _data) = true
      /\ l = length (heap w)
      /\ w' = set_heap (heap w ++ [Resource k (base_dict k reddit _data)]) w
  | (Raise e, w') =>
      assignable_keys k (default [] _data) = false
      /\ (e = AttributeError \/ e = NotModelled)
      /\ w' = set_heap (heap w ++ [Resource k (<["_reddit" := reddit]> ∅)]) w
  end.
Proof.
  destruct (assignable_keys k (default [] _data)) eqn:Hk.
  - by rewrite RedditBase_init_run.
  - unfold RedditBase_init.
    step ltac:(apply alloc_run).
    step ltac:(apply setattr_plain_run with (k := k) (d := ∅);
               [apply lookup_fresh | done | private_name]).
    step ltac:(apply load_run; wsimpl; reflexivity).
    assert (Hr : is_Some ((<["_reddit" := reddit]> ∅ : gmap string Value) !! "_reddit"))
      by (rewrite lookup_insert_eq; eauto).
    pose proof (setattr_items_inv k _ (default [] _data) Hr) as Hs.
    destruct (setattr_items k (<["_reddit" := reddit]> ∅) (default [] _data)) as [d' | e].
    + destruct Hs as [_ Hs]. exfalso. rewrite Hk in Hs. discriminate.
    + destruct Hs as [He _]. wsimpl. done.
Qed.

Lemma LiveThread_init_run reddit id _data w :
  truthy id <> truthy_data _data ->
  assignable_keys KThread (default [] _data) = true ->
  LiveThread_init reddit id _data w
  = (OK (length (heap w)),
     set_heap (heap w ++ [Resource KThread (thread_dict reddit id _data)]) w).
Proof.
  intros Hne Hk. unfold LiveThread_init.
  rewrite (proj2 (Bool.eqb_false_iff _ _) Hne).
  step ltac:(apply RedditBase_init_run; exact Hk).
  unfold thread_dict. destruct (truthy id).
  - step ltac:(eapply setattr_plain_run; [wsimpl; reflexivity | done | private_name]).
    step ltac:(eapply setattr_plain_run; [wsimpl; reflexivity | done | private_name]).
    step ltac:(eapply setattr_plain_run; [wsimpl; reflexivity | done | private_name]).
    reflexivity.
  - step ltac:(reflexivity).
    step ltac:(eapply setattr_plain_run; [wsimpl; reflexivity | done | private_name]).
    step ltac:(eapply setattr_plain_run; [wsimpl; reflexivity | done | private_name]).
    reflexivity.
Qed.

(** A thread made from its id alone. *)
Lemma LiveThread_init_id_run reddit id w :
  truthy id = true ->
  LiveThread_init reddit id None w
  = (OK (length (heap w)),
     set_heap (heap w ++ [Resource KThread (thread_dict reddit id None)]) w).
Proof. intros Ht. apply LiveThread_init_run; [by rewrite Ht | done]. Qed.

Lemma LiveThread_init_raise reddit id _data w :
  truthy id = truthy_data _data ->
  LiveThread_init reddit id _data w = (Raise TypeError, w).
Proof.
  intros Heq. unfold LiveThread_init.
  by rewrite (proj2 (Bool.eqb_true_iff _ _) Heq).
Qed.

Lemma LiveUpdate_setattr_run w self d a v :
  heap w !! self = Some (Resource KUpdate d) ->
  is_Some (d !! "_reddit") ->
  assignable KUpdate a = true ->
  LiveUpdate_setattr self a v w
  = (OK tt,
     set_heap (<[self := Resource KUpdate (<[a := stored_value KUpdate a v]> d)]> (heap w)) w).
Proof.
  intros H Hr Ha. unfold LiveUpdate_setattr.
  rewrite (bind_OK _ _ _ _ _ (load_run _ _ _ _ H)). cbn [fst snd].
  pose proof (setattr_dict_ok KUpdate d a v Hr Ha) as Hs. cbn [setattr_dict] in Hs.
  by rewrite Hs.
Qed.

Lemma base_dict_reddit k reddit _data :
  is_Some (base_dict k reddit _data !! "_reddit").
Proof.
  unfold base_dict. rewrite lookup_insert_ne by done.
  apply overlay_keeps_reddit. rewrite lookup_insert_eq. eauto.
Qed.

Lemma LiveUpdate_init_full_run reddit thread_id update_id data w :
  assignable_keys KUpdate data = true ->
  LiveUpdate_init reddit thread_id update_id (Some data) w
  = (OK (length (heap w)),
     set_heap (heap w ++ [Resource KUpdate (full_update_dict reddit data)]) w).
Proof.
  intros Hk. unfold LiveUpdate_init.
  step ltac:(apply RedditBase_init_run; exact Hk).
  step ltac:(eapply LiveUpdate_setattr_run;
             [wsimpl; reflexivity | apply base_dict_reddit | private_name]).
  reflexivity.
Qed.

(** A payload with a key that cannot be assigned stops the constructor,
    whatever the ids. *)
Lemma LiveUpdate_init_full_raise reddit thread_id update_id data w :
  assignable_keys KUpdate data = false ->
  exists e,
    (e = AttributeError \/ e = NotModelled)
    /\ LiveUpdate_init reddit thread_id update_id (Some data) w
       = (Raise e, set_heap (heap w ++ [Resource KUpdate (<["_reddit" := reddit]> ∅)]) w).
Proof.
  intros Hk. unfold LiveUpdate_init.
  pose proof (RedditBase_init_inv KUpdate reddit (Some data) w) as Hb.
  destruct (RedditBase_init KUpdate reddit (Some data) w) as [[l | e] w1] eqn:Hinit.
  - destruct Hb as [Hb _]. change (assignable_keys KUpdate data = true) in Hb.
    exfalso. rewrite Hk in Hb. discriminate.
  - destruct Hb as (_ & He & ->). exists e. split; [exact He |].
    unfold bind. by rewrite Hinit.
Qed.

Lemma getattr_present w self k d a v :
  heap w !! self = Some (Resource k d) ->
  d !! a = Some v ->
  getattr self a w = (OK v, w).
Proof.
  intros H Ha. unfold getattr. rewrite (bind_OK _ _ _ _ _ (load_run _ _ _ _ H)).
  cbn [snd]. by rewrite Ha.
Qed.

Lemma getattr_absent w self k d a :
  heap w !! self = Some (Resource k d) ->
  d !! a = None ->
  starts_with_underscore a
  || match d !! "_fetched" with Some f => truthy f | None => true end = true ->
  getattr self a w = (Raise AttributeError, w).
Proof.
  intros H Ha Hf. unfold getattr. rewrite (bind_OK _ _ _ _ _ (load_run _ _ _ _ H)).
  cbn [snd]. by rewrite Ha, Hf.
Qed.

Lemma base_dict_None_reddit k reddit :
  base_dict k reddit None !! "_reddit" = Some reddit.
Proof.
  unfold base_dict. cbn [default overlay foldl].
  rewrite lookup_insert_ne by done. apply lookup_insert_eq.
Qed.

Ltac set_update :=
  eapply LiveUpdate_setattr_run;
  [wsimpl; reflexivity
  | repeat (rewrite lookup_insert_ne by done); apply base_dict_reddit
  | private_name].

Lemma LiveUpdate_init_stub_run reddit thread_id update_id w :
  truthy thread_id = true ->
  truthy update_id = true ->
  LiveUpdate_init reddit thread_id update_id None w
  = (OK (length (heap w)),
     set_heap (heap w ++ [Resource KUpdate
                            (stub_update_dict reddit update_id (S (length (heap w))));
                          Resource KThread (thread_dict reddit thread_id None)]) w).
Proof.
  intros Ht Hu. unfold LiveUpdate_init. rewrite Ht, Hu. cbn [andb].
  step ltac:(apply RedditBase_init_run; reflexivity).
  step ltac:(eapply getattr_present;
             [wsimpl; reflexivity | apply base_dict_None_reddit]).
  step ltac:(apply LiveThread_init_id_run; exact Ht).
  step ltac:(set_update).
  step ltac:(set_update).
  step ltac:(set_update).
  step ltac:(set_update).
  reflexivity.
Qed.

(** ** Construction errors *)

(** C10: the both-or-neither check of the [LiveThread] constructor goes by
    truthiness.  With the empty string as id and no payload it raises
    [TypeError] and leaves the world as it was, and the id-only path
    succeeds exactly for the non-empty id strings, so no thread with an
    empty-string id comes out of it. *)
Theorem LiveThread_init_empty_id (reddit : Value) (w : World) :
  LiveThread_init reddit (VStr "") None w = (Raise TypeError, w)
  /\ forall X : string,
       is_OK (fst (LiveThread_init reddit (VStr X) None w))
       = negb (bool_decide (X = "")).
Proof.
  split; [reflexivity |].
  intros X. case_bool_decide as HX.
  - subst X. reflexivity.
  - rewrite LiveThread_init_id_run; [reflexivity |].
    cbn [truthy]. by rewrite bool_decide_eq_false_2.
Qed.

(** Past its check, the thread constructor stops at a payload with a key
    that cannot be assigned, leaving the unfinished instance behind. *)
Lemma LiveThread_init_data_raise reddit id _data w :
  truthy id <> truthy_data _data ->
  assignable_keys KThread (default [] _data) = false ->
  exists e,
    (e = AttributeError \/ e = NotModelled)
    /\ LiveThread_init reddit id _data w
       = (Raise e, set_heap (heap w ++ [Resource KThread (<["_reddit" := reddit]> ∅)]) w).
Proof.
  intros Hne Hk. unfold LiveThread_init.
  rewrite (proj2 (Bool.eqb_false_iff _ _) Hne).
  pose proof (RedditBase_init_inv KThread reddit _data w) as Hb.
  destruct (RedditBase_init KThread reddit _data w) as [[l | e] w1] eqn:Hinit.
  - destruct Hb as [Hb _]. exfalso. rewrite Hk in Hb. discriminate.
  - destruct Hb as (_ & He & ->). exists e. split; [exact He |].
    unfold bind. by rewrite Hinit.
Qed.

Lemma LiveThread_init_log reddit id _data w :
  log (snd (LiveThread_init reddit id _data w)) = log w.
Proof.
  destruct (decide (truthy id = truthy_data _data)) as [Heq | Hne].
  - by rewrite LiveThread_init_raise.
  - destruct (assignable_keys KThread (default [] _data)) eqn:Hk.
    + by rewrite LiveThread_init_run.
    + destruct (LiveThread_init_data_raise reddit id _data w Hne Hk) as (e & _ & ->).
      reflexivity.
Qed.

Lemma LiveUpdate_init_log reddit thread_id update_id _data w :
  log (snd (LiveUpdate_init reddit thread_id update_id _data w)) = log w.
Proof.
  destruct _data as [data |].
  - destruct (assignable_keys KUpdate data) eqn:Hk.
    + by rewrite LiveUpdate_init_full_run.
    + destruct (LiveUpdate_init_full_raise reddit thread_id update_id data w Hk)
        as (e & _ & ->).
      reflexivity.
  - destruct (truthy thread_id) eqn:Ht, (truthy update_id) eqn:Hu;
      first [by rewrite LiveUpdate_init_stub_run
            | unfold LiveUpdate_init; by rewrite Ht, Hu].
Qed.

(** The payload loop stops with [AttributeError] at the first key that
    names a property. *)
Lemma setattr_items_read_only k d pre a v post :
  is_Some (d !! "_reddit") ->
  assignable_keys k pre = true ->
  a ∈ read_only k ->
  setattr_items k d (pre ++ (a, v) :: post) = Raise AttributeError.
Proof.
  intros Hd Hpre Ha. revert d Hd.
  induction pre as [| [b x] pre IH]; intros d Hd.
  - cbn [app setattr_items].
    assert (Hobj : forall y, object_setattr k d a y = Raise AttributeError).
    { intros y. unfold object_setattr. by rewrite bool_decide_eq_true_2. }
    destruct k; cbn [setattr_dict]; [by rewrite Hobj |].
    unfold LiveUpdate_setattr_dict. case_bool_decide as Hau.
    + subst a. exfalso. cbn [read_only] in Ha.
      rewrite !elem_of_cons, elem_of_nil in Ha.
      destruct Ha as [? | [? | []]]; discriminate.
    + by rewrite Hobj.
  - cbn [assignable_keys forallb fst] in Hpre.
    apply andb_true_iff in Hpre as [Hb Hpre].
    cbn [app setattr_items]. rewrite setattr_dict_ok by done.
    apply IH; [exact Hpre |].
    apply (overlay_keeps_reddit k d [(b, x)] Hd).
Qed.

(** C2, as the code has it.  [LiveThread] raises [TypeError] at once,
    the world untouched, when the id and the payload are both truthy or
    both falsy, and otherwise builds the thread from any payload whose
    keys can be assigned.  [LiveUpdate] raises [TypeError] at once exactly
    when there is no payload and one of the two ids is falsy.  With a
    payload the check of [LiveUpdate] is not reached: the ids are ignored,
    and a payload whose keys can be assigned and whose authors are named
    builds the full update also when ids come with it, while a payload
    with a key that names a property of the class ([thread], [contrib])
    ends in [AttributeError].  No constructor call adds a request to the
    log. *)
Theorem constructor_usage_errors (reddit : Value) (w : World) :
  (forall id _data,
      truthy id = truthy_data _data ->
      LiveThread_init reddit id _data w = (Raise TypeError, w))
  /\ (forall id _data,
         truthy id <> truthy_data _data ->
         assignable_keys KThread (default [] _data) = true ->
         LiveThread_init reddit id _data w
         = (OK (length (heap w)),
            set_heap (heap w ++ [Resource KThread (thread_dict reddit id _data)]) w))
  /\ (forall thread_id update_id,
         LiveUpdate_init reddit thread_id update_id None w = (Raise TypeError, w)
         <-> truthy thread_id && truthy update_id = false)
  /\ (forall thread_id update_id data,
         LiveUpdate_init reddit thread_id update_id (Some data) w
         = LiveUpdate_init reddit VNone VNone (Some data) w)
  /\ (forall thread_id update_id data,
         assignable_keys KUpdate data = true ->
         named_authors data = true ->
         LiveUpdate_init reddit thread_id update_id (Some data) w
         = (OK (length (heap w)),
            set_heap (heap w ++ [Resource KUpdate (full_update_dict reddit data)]) w))
  /\ (forall thread_id update_id pre a v post,
         assignable_keys KUpdate pre = true ->
         named_authors pre = true ->
         a ∈ read_only KUpdate ->
         fst (LiveUpdate_init reddit thread_id update_id (Some (pre ++ (a, v) :: post)) w)
         = Raise AttributeError)
  /\ (forall id _data, log (snd (LiveThread_init reddit id _data w)) = log w)
  /\ (forall thread_id update_id _data,
         log (snd (LiveUpdate_init reddit thread_id update_id _data w)) = log w).
Proof.
  split; [| split; [| split; [| split; [| split; [| split; [| split]]]]]].
  - intros id _data. apply LiveThread_init_raise.
  - intros id _data. apply LiveThread_init_run.
  - intros thread_id update_id. split.
    + intros H. destruct (truthy thread_id) eqn:Ht, (truthy update_id) eqn:Hu; try done.
      rewrite LiveUpdate_init_stub_run in H by done. discriminate.
    + intros H. unfold LiveUpdate_init. by rewrite H.
  - reflexivity.
  - intros thread_id update_id data Hk _. by apply LiveUpdate_init_full_run.
  - intros thread_id update_id pre a v post Hpre _ Ha.
    assert (Hb : fst (RedditBase_init KUpdate reddit (Some (pre ++ (a, v) :: post)) w)
                 = Raise AttributeError).
    { unfold RedditBase_init.
      step ltac:(apply alloc_run).
      step ltac:(apply setattr_plain_run with (k := KUpdate) (d := ∅);
                 [apply lookup_fresh | done | private_name]).
      step ltac:(apply load_run; wsimpl; reflexivity).
      change (default [] (Some (pre ++ (a, v) :: post))) with (pre ++ (a, v) :: post).
      rewrite setattr_items_read_only; [reflexivity | | exact Hpre | exact Ha].
      rewrite lookup_insert_eq. eauto. }
    destruct (RedditBase_init KUpdate reddit (Some (pre ++ (a, v) :: post)) w)
      as [[l | e] w1] eqn:Hinit; cbn [fst] in Hb; [discriminate |].
    injection Hb as ->. unfold LiveUpdate_init.
    by rewrite (bind_Raise _ _ _ _ _ Hinit).
  - intros. apply LiveThread_init_log.
  - intros. apply LiveUpdate_init_log.
Qed.

(** A payload with an author and a body, given together with two ids, and
    the same payload with a [thread] key. *)
Lemma constructor_usage_errors_witness :
  fst (LiveUpdate_init VReddit (VStr "abc") (VStr "u1")
         (Some [("author", VStr "spez"); ("body", VStr "hello")]) example_world)
  = OK 0
  /\ fst (LiveUpdate_init VReddit (VStr "abc") (VStr "u1")
            (Some ([("author", VStr "spez"); ("body", VStr "hello")]
                   ++ ("thread", VStr "abc") :: [])) example_world)
     = Raise AttributeError.
Proof.
  destruct (constructor_usage_errors VReddit example_world)
    as (_ & _ & _ & _ & Hfull & Hprop & _).
  split.
  - refine (f_equal fst (Hfull (VStr "abc") (VStr "u1")
                           [("author", VStr "spez"); ("body", VStr "hello")] _ _));
      vm_compute; reflexivity.
  - apply (Hprop (VStr "abc") (VStr "u1")
             [("author", VStr "spez"); ("body", VStr "hello")] "thread" (VStr "abc") []);
      [vm_compute; reflexivity | vm_compute; reflexivity
      | apply list_elem_of_further, list_elem_of_here].
Defined.

(** C2 as stated fails for [LiveUpdate]: given both ids and a payload the
    constructor returns the new update instead of raising. *)
Lemma LiveUpdate_init_both_accepted :
  fst (LiveUpdate_init VReddit (VStr "abc") (VStr "u1")
         (Some [("body", VStr "hello")]) example_world) = OK 0
  /\ fst (LiveUpdate_init VReddit (VStr "abc") (VStr "u1")
            (Some [("body", VStr "hello")]) example_world) <> Raise TypeError.
Proof. split; [vm_compute; reflexivity | vm_compute; discriminate]. Qed.

(** ** Permissions *)

Section Permissions.

Variable set_iter : list string -> list string.

(** A set iterates over its distinct elements, in an order of its own. *)
Hypothesis set_iter_perm : forall l, set_iter l ≡ₚ remove_dups l.

Lemma set_iter_singleton x : set_iter [x] = [x].
Proof.
  apply Permutation_singleton_r. rewrite set_iter_perm.
  reflexivity.
Qed.

Lemma set_iter_nil : set_iter [] = [].
Proof. apply Permutation_nil_r. by rewrite set_iter_perm. Qed.

Lemma set_iter_pair x y :
  x <> y -> set_iter [x; y] = [x; y] \/ set_iter [x; y] = [y; x].
Proof.
  intros Hne. apply Permutation_length_2_inv. rewrite set_iter_perm.
  cbn [remove_dups].
  destruct (decide_rel elem_of x [y]) as [Hin | Hnin]; [| reflexivity].
  apply list_elem_of_singleton in Hin. contradiction.
Qed.

Lemma invite_run self t k d i name permissions w :
  heap w !! self = Some (LiveContributorRelationship t) ->
  heap w !! t = Some (Resource k d) ->
  d !! "id" = Some i ->
  d !! "_reddit" = Some VReddit ->
  LiveContributorRelationship_invite set_iter self (VStr name) permissions w
  = reddit_post VReddit (mkPath "live_invite" i)
      (Some [("name", VStr name);
             ("type", VStr "liveupdate_contributor_invite");
             ("permissions", VStr (_handle_permissions set_iter permissions))]) w.
Proof.
  intros Hs Ht Hi Hr. unfold LiveContributorRelationship_invite.
  step ltac:(unfold helper_thread; rewrite Hs; reflexivity).
  step ltac:(eapply getattr_present; eassumption).
  step ltac:(reflexivity).
  step ltac:(eapply getattr_present; eassumption).
  reflexivity.
Qed.

Lemma contributor_update_run self t k d i name permissions w :
  heap w !! self = Some (LiveContributorRelationship t) ->
  heap w !! t = Some (Resource k d) ->
  d !! "id" = Some i ->
  d !! "_reddit" = Some VReddit ->
  LiveContributorRelationship_update set_iter self (VStr name) permissions w
  = reddit_post VReddit (mkPath "live_update_perms" i)
      (Some [("name", VStr name);
             ("type", VStr "liveupdate_contributor");
             ("permissions", VStr (_handle_permissions set_iter permissions))]) w.
Proof.
  intros Hs Ht Hi Hr. unfold LiveContributorRelationship_update.
  step ltac:(unfold helper_thread; rewrite Hs; reflexivity).
  step ltac:(eapply getattr_present; eassumption).
  step ltac:(reflexivity).
  step ltac:(eapply getattr_present; eassumption).
  reflexivity.
Qed.

(** C4: the permission encoding of [invite] and [update].  [None] encodes
    as [+all], the empty list as the empty string, and the list
    [manage, settings] as [+manage,+settings] in one of its two orders;
    in general the encoding is the comma-joined [+name] tokens of the
    distinct names in the order the set yields them. *)
Theorem handle_permissions_encoding :
  _handle_permissions set_iter None = "+all"
  /\ _handle_permissions set_iter (Some []) = ""
  /\ (_handle_permissions set_iter (Some ["manage"; "settings"]) = "+manage,+settings"
      \/ _handle_permissions set_iter (Some ["manage"; "settings"]) = "+settings,+manage")
  /\ forall l,
       exists order,
         order ≡ₚ remove_dups l
         /\ _handle_permissions set_iter (Some l)
            = String.concat "," (map (fun x => "+" +:+ x) order).
Proof.
  unfold _handle_permissions. repeat split.
  - by rewrite set_iter_singleton.
  - by rewrite set_iter_nil.
  - destruct (set_iter_pair "manage" "settings") as [-> | ->]; [done | by left | by right].
  - intros l. exists (set_iter l). split; [apply set_iter_perm | done].
Qed.

End Permissions.

(** The encoding under the iteration order that keeps first occurrences. *)
Lemma handle_permissions_encoding_witness :
  _handle_permissions remove_dups None = "+all"
  /\ _handle_permissions remove_dups (Some []) = ""
  /\ (_handle_permissions remove_dups (Some ["manage"; "settings"]) = "+manage,+settings"
      \/ _handle_permissions remove_dups (Some ["manage"; "settings"]) = "+settings,+manage")
  /\ forall l,
       exists order,
         order ≡ₚ remove_dups l
         /\ _handle_permissions remove_dups (Some l)
            = String.concat "," (map (fun x => "+" +:+ x) order).
Proof.
  apply (handle_permissions_encoding remove_dups). intros l. reflexivity.
Defined.

(** ** Settings update without settings *)

Lemma dict_set_all_none d k :
  forallb is_none (map snd d) = true ->
  forallb is_none (map snd (dict_set d k VNone)) = true.
Proof.
  induction d as [| [k' v'] d IH]; intros Hd; [done |].
  cbn [dict_set]. cbn [map snd forallb] in Hd.
  apply andb_prop in Hd as [Hv Hd].
  case_bool_decide; cbn [map snd forallb]; [done |].
  by rewrite Hv, IH.
Qed.

Lemma dict_update_all_none d other :
  forallb is_none (map snd d) = true ->
  forallb is_none (map snd other) = true ->
  forallb is_none (map snd (dict_update d other)) = true.
Proof.
  unfold dict_update. revert d.
  induction other as [| [k v] other IH]; intros d Hd Ho; [done |].
  cbn [map snd forallb] in Ho. apply andb_prop in Ho as [Hv Ho].
  cbn [foldl fst snd]. apply IH; [| done].
  destruct v; try discriminate. by apply dict_set_all_none.
Qed.

(** Extra settings that are all [None] change nothing: the call is still
    a no-op. *)
Lemma update_all_none_is_noop self other_settings w :
  forallb is_none (map snd other_settings) = true ->
  LiveThreadContribution_update self VNone VNone VNone VNone other_settings w
  = (OK tt, w).
Proof.
  intros Ho. unfold LiveThreadContribution_update.
  by rewrite dict_update_all_none.
Qed.

(** C5: [update()] with title, description, nsfw and resources all [None]
    and no extra settings returns at once: no request is made and nothing
    in the world, the owning thread included, changes. *)
Theorem update_without_settings_is_noop (self : loc) (w : World) :
  LiveThreadContribution_update self VNone VNone VNone VNone [] w = (OK tt, w).
Proof. reflexivity. Qed.

(** ** Equality and hashing of threads *)

Lemma RedditBase_str_run w self k d s :
  heap w !! self = Some (Resource k d) ->
  d !! "id" = Some (VStr s) ->
  RedditBase_str self w = (OK s, w).
Proof.
  intros H Hid. unfold RedditBase_str.
  step ltac:(apply load_run; eassumption).
  step ltac:(eapply getattr_present; eassumption).
  reflexivity.
Qed.

(** Reading the id never fetches: an id that is absent cannot be
    resolved, since the info path itself is built from the id. *)
Lemma getattr_id_inv w self v w' :
  getattr self "id" w = (OK v, w') ->
  w' = w /\ exists k d, heap w !! self = Some (Resource k d) /\ d !! "id" = Some v.
Proof.
  unfold getattr, bind, load.
  destruct (heap w !! self) as [[k d | | |] |] eqn:Hl; try discriminate.
  cbn [snd]. destruct (d !! "id") as [v0 |] eqn:Hid.
  - unfold ret. intros [= <- <-]. eauto.
  - destruct (starts_with_underscore "id" || _); [discriminate |].
    unfold _fetch, bind, load. rewrite Hl. cbn [fst snd].
    unfold _info_path. rewrite Hid. discriminate.
Qed.

Lemma RedditBase_str_inv w self s w' :
  RedditBase_str self w = (OK s, w') ->
  w' = w /\ exists k d, heap w !! self = Some (Resource k d) /\ d !! "id" = Some (VStr s).
Proof.
  unfold RedditBase_str, bind, load.
  destruct (heap w !! self) as [[k d | | |] |] eqn:Hl; try discriminate.
  cbn [fst]. unfold STR_FIELD.
  destruct (getattr self "id" w) as [[v | e] w1] eqn:Hg; [| discriminate].
  apply getattr_id_inv in Hg as (-> & k' & d' & Hl' & Hid).
  unfold ret, raise. destruct v; try discriminate. intros [= <- <-].
  rewrite Hl in Hl'. injection Hl' as <- <-. eauto.
Qed.

Lemma isinstance_run w l k d :
  heap w !! l = Some (Resource k d) -> isinstance (VRef l) k w = (OK true, w).
Proof.
  intros H. unfold isinstance. rewrite H. by rewrite bool_decide_eq_true_2.
Qed.

Section Hashing.

Variable py_hash : string -> Z.

Lemma LiveThread_hash_run w self k d s :
  heap w !! self = Some (Resource k d) ->
  d !! "id" = Some (VStr s) ->
  LiveThread_hash py_hash self w
  = (OK (Z.lxor (py_hash (class_name k)) (py_hash s)), w).
Proof.
  intros H Hid. unfold LiveThread_hash.
  step ltac:(apply load_run; eassumption).
  step ltac:(eapply RedditBase_str_run; eassumption).
  reflexivity.
Qed.

(** When [a == b] holds: a raw string equal to [str(a)], or an instance
    of the class of [a] with the same string form. *)
Lemma LiveThread_eq_iff w self k d s other :
  heap w !! self = Some (Resource k d) ->
  d !! "id" = Some (VStr s) ->
  fst (LiveThread_eq self other w) = OK true
  <-> other = VStr s
      \/ exists l d', other = VRef l
                      /\ heap w !! l = Some (Resource k d')
                      /\ RedditBase_str l w = (OK s, w).
Proof.
  intros H Hid.
  assert (Hstr : RedditBase_str self w = (OK s, w))
    by (eapply RedditBase_str_run; eassumption).
  assert (Hobj : forall l,
    fst (LiveThread_eq self (VRef l) w) = OK true
    <-> exists d', heap w !! l = Some (Resource k d')
                   /\ RedditBase_str l w = (OK s, w)).
  { intros l. unfold LiveThread_eq.
    rewrite (bind_OK _ _ _ _ _ (load_run _ _ _ _ H)). cbn [fst].
    unfold isinstance, bind at 1.
    destruct (heap w !! l) as [[k' d' | | |] |] eqn:Hl;
      try (split; [discriminate | intros (? & ? & _); discriminate]).
    case_bool_decide as Hk; cbv beta iota.
    - subst k'. erewrite bind_OK; [| exact Hstr]. cbn [py_str]. unfold bind.
      destruct (RedditBase_str l w) as [[c | e] w'] eqn:Hc.
      + apply RedditBase_str_inv in Hc as Hc'. destruct Hc' as [-> _].
        unfold ret. cbn [fst]. split.
        * intros [= Hb]. apply bool_decide_eq_true_1 in Hb. subst c. eauto.
        * intros (d2 & _ & [= ->]). by rewrite bool_decide_eq_true_2.
      + split; [discriminate | intros (? & _ & ?); discriminate].
    - split; [discriminate |]. intros (d2 & [= -> _] & _). done. }
  destruct other as [| b | s0 | | n | l].
  3:{ unfold LiveThread_eq. erewrite bind_OK; [| exact Hstr]. unfold ret. cbn [fst].
      split.
      - intros [= Hb]. apply bool_decide_eq_true_1 in Hb. subst. by left.
      - intros [[= ->] | (? & ? & ? & _)]; [| discriminate].
        by rewrite bool_decide_eq_true_2. }
  5:{ rewrite Hobj. split.
      - intros (d' & ? & ?). right. eauto.
      - intros [? | (l' & d' & [= <-] & ? & ?)]; [discriminate | eauto]. }
  all: unfold LiveThread_eq;
    rewrite (bind_OK _ _ _ _ _ (load_run _ _ _ _ H)); cbn [fst isinstance];
    unfold ret, bind; cbn [fst];
    (split; [discriminate | intros [? | (? & ? & ? & _)]; discriminate]).
Qed.

(** Two threads that compare equal hash equal. *)
Lemma LiveThread_eq_hash w self k d s l :
  heap w !! self = Some (Resource k d) ->
  d !! "id" = Some (VStr s) ->
  fst (LiveThread_eq self (VRef l) w) = OK true ->
  LiveThread_hash py_hash self w = LiveThread_hash py_hash l w.
Proof.
  intros H Hid Heq.
  apply (LiveThread_eq_iff w self k d s (VRef l) H Hid) in Heq.
  destruct Heq as [? | (l' & d' & [= <-] & Hl & Hs)]; [discriminate |].
  apply RedditBase_str_inv in Hs as (_ & k2 & d2 & Hl2 & Hid2).
  rewrite Hl in Hl2. injection Hl2 as <- <-.
  rewrite (LiveThread_hash_run w self k d s H Hid).
  by rewrite (LiveThread_hash_run w l k d' s Hl Hid2).
Qed.

(** A thread also equals its raw id string, which Python hashes by
    itself: the two hashes coincide only if the class name hashes to
    zero. *)
Lemma LiveThread_hash_raw_string w self k d s :
  heap w !! self = Some (Resource k d) ->
  d !! "id" = Some (VStr s) ->
  fst (LiveThread_hash py_hash self w) = OK (py_hash s)
  <-> py_hash (class_name k) = 0%Z.
Proof.
  intros H Hid. rewrite (LiveThread_hash_run w self k d s H Hid). cbn [fst].
  split.
  - intros [= Hx].
    assert (Ha : py_hash (class_name k)
                 = Z.lxor (Z.lxor (py_hash (class_name k)) (py_hash s)) (py_hash s))
      by (by rewrite Z.lxor_assoc, Z.lxor_nilpotent, Z.lxor_0_r).
    rewrite Hx, Z.lxor_nilpotent in Ha. exact Ha.
  - intros ->. by rewrite Z.lxor_0_l.
Qed.

End Hashing.

Lemma thread_dict_id reddit id _data :
  truthy id = true -> thread_dict reddit id _data !! "id" = Some id.
Proof.
  intros Ht. unfold thread_dict. rewrite Ht.
  rewrite !lookup_insert_ne by done. apply lookup_insert_eq.
Qed.

Lemma LiveThread_eq_str_run w self k d s :
  heap w !! self = Some (Resource k d) ->
  d !! "id" = Some (VStr s) ->
  LiveThread_eq self (VStr s) w = (OK true, w).
Proof.
  intros H Hid. unfold LiveThread_eq.
  step ltac:(eapply RedditBase_str_run; eassumption).
  unfold ret. by rewrite bool_decide_eq_true_2.
Qed.

Lemma LiveThread_eq_ref_run w self l k d d' s :
  heap w !! self = Some (Resource k d) ->
  d !! "id" = Some (VStr s) ->
  heap w !! l = Some (Resource k d') ->
  d' !! "id" = Some (VStr s) ->
  LiveThread_eq self (VRef l) w = (OK true, w).
Proof.
  intros H Hid Hl Hid'. unfold LiveThread_eq.
  step ltac:(apply load_run; eassumption).
  step ltac:(unfold isinstance; rewrite Hl; reflexivity).
  rewrite bool_decide_eq_true_2 by done.
  step ltac:(eapply RedditBase_str_run; eassumption).
  step ltac:(cbn [py_str]; eapply RedditBase_str_run; eassumption).
  unfold ret. by rewrite bool_decide_eq_true_2.
Qed.

(** C3, as the code has it: for an id string [X], two threads built from
    [X] compare equal, a thread built from [X] equals the raw string [X],
    and the two threads hash alike.  A thread equals exactly the raw
    strings equal to its string form and the [LiveThread] instances with
    the same string form.  A thread it equals has the same hash; the raw
    string it equals, which Python hashes by itself, has the same hash
    only if the class name hashes to zero. *)
Theorem LiveThread_equality (py_hash : string -> Z) (reddit : Value) (X : string)
    (w w1 w2 : World) (t1 t2 : loc) :
  LiveThread_init reddit (VStr X) None w = (OK t1, w1) ->
  LiveThread_init reddit (VStr X) None w1 = (OK t2, w2) ->
  LiveThread_eq t1 (VRef t2) w2 = (OK true, w2)
  /\ LiveThread_eq t1 (VStr X) w2 = (OK true, w2)
  /\ LiveThread_hash py_hash t1 w2
     = (OK (Z.lxor (py_hash "LiveThread") (py_hash X)), w2)
  /\ LiveThread_hash py_hash t2 w2 = LiveThread_hash py_hash t1 w2
  /\ (forall other,
        fst (LiveThread_eq t1 other w2) = OK true
        <-> other = VStr X
            \/ exists l d', other = VRef l
                            /\ heap w2 !! l = Some (Resource KThread d')
                            /\ RedditBase_str l w2 = (OK X, w2))
  /\ (forall l,
        fst (LiveThread_eq t1 (VRef l) w2) = OK true ->
        LiveThread_hash py_hash t1 w2 = LiveThread_hash py_hash l w2)
  /\ (fst (LiveThread_hash py_hash t1 w2) = OK (py_hash X)
      <-> py_hash "LiveThread" = 0%Z).
Proof.
  intros H1 H2.
  destruct (decide (X = "")) as [-> | HX]; [discriminate |].
  assert (Ht : truthy (VStr X) = true)
    by (cbn [truthy]; by rewrite bool_decide_eq_false_2).
  rewrite LiveThread_init_id_run in H1 by exact Ht.
  injection H1 as <- <-.
  rewrite LiveThread_init_id_run in H2 by exact Ht.
  injection H2 as <- <-. revert Ht. wsimpl. intros Ht.
  set (h := heap w).
  set (T := Resource KThread (thread_dict reddit (VStr X) None)).
  match goal with |- LiveThread_eq _ _ ?W = _ /\ _ => set (w2 := W) end.
  assert (Hl1 : heap w2 !! length h = Some T) by apply lookup_fresh.
  assert (Hl2 : heap w2 !! S (length h) = Some T) by apply lookup_fresh_S.
  pose proof (thread_dict_id reddit (VStr X) None Ht) as Hid.
  split; [| split; [| split; [| split; [| split; [| split]]]]].
  - eapply LiveThread_eq_ref_run; eassumption.
  - eapply LiveThread_eq_str_run; eassumption.
  - apply (LiveThread_hash_run py_hash w2 _ KThread _ X Hl1 Hid).
  - rewrite (LiveThread_hash_run py_hash w2 _ KThread _ X Hl1 Hid).
    apply (LiveThread_hash_run py_hash w2 _ KThread _ X Hl2 Hid).
  - intros other. apply (LiveThread_eq_iff w2 _ KThread _ X other Hl1 Hid).
  - intros l Heq. eapply LiveThread_eq_hash; eassumption.
  - apply (LiveThread_hash_raw_string py_hash w2 _ KThread _ X Hl1 Hid).
Qed.

(** The premises of [LiveThread_equality] hold for the id [abc]. *)
Lemma LiveThread_equality_witness :
  let w1 := snd (LiveThread_init VReddit (VStr "abc") None example_world) in
  let w2 := snd (LiveThread_init VReddit (VStr "abc") None w1) in
  LiveThread_eq 0 (VRef 1) w2 = (OK true, w2)
  /\ LiveThread_eq 0 (VStr "abc") w2 = (OK true, w2)
  /\ LiveThread_hash (fun s => Z.of_nat (String.length s)) 0 w2
     = (OK (Z.lxor 10 3), w2).
Proof.
  intros w1 w2.
  pose proof (LiveThread_equality (fun s => Z.of_nat (String.length s))
                VReddit "abc" example_world w1 w2 0 1) as H.
  destruct H as (Ha & Hb & Hc & _);
    [vm_compute; reflexivity | vm_compute; reflexivity |].
  repeat split; assumption.
Defined.

(** C3 as stated fails: the thread [abc] equals the raw string [abc], and
    with a string hash that gives the class name anything but zero, here
    the length of the string, the two hashes differ. *)
Lemma LiveThread_raw_string_hash_differs :
  fst (LiveThread_eq 0 (VStr "abc")
         (snd (LiveThread_init VReddit (VStr "abc") None example_world)))
  = OK true
  /\ fst (LiveThread_hash (fun s => Z.of_nat (String.length s)) 0
            (snd (LiveThread_init VReddit (VStr "abc") None example_world)))
     = OK 9%Z
  /\ Z.of_nat (String.length "abc") = 3%Z.
Proof. vm_compute. repeat split. Qed.

(** ** Memoized helpers *)

(** A private name is never fetched: it is found in the instance
    dictionary or not at all. *)
Lemma getattr_private_inv w self a v w' :
  starts_with_underscore a = true ->
  getattr self a w = (OK v, w') ->
  w' = w /\ exists k d, heap w !! self = Some (Resource k d) /\ d !! a = Some v.
Proof.
  intros Ha. unfold getattr, bind, load.
  destruct (heap w !! self) as [[k d | | |] |] eqn:Hl; try discriminate.
  cbn [snd]. destruct (d !! a) as [v0 |] eqn:Hd.
  - unfold ret. intros [= <- <-]. eauto.
  - rewrite Ha. discriminate.
Qed.

Lemma LiveThread_helper_unfold p self :
  LiveThread_helper p self
  = (c <- getattr self (helper_slot p) ;;
     (if is_none c
      then l <- alloc (helper_obj p self) ;; setattr self (helper_slot p) (VRef l)
      else ret tt) ;;
     getattr self (helper_slot p)).
Proof. by destruct p. Qed.

Lemma helper_slot_not_author p : helper_slot p <> "author".
Proof. by destruct p. Qed.

(** What an access to a helper property does, by the content of its
    slot. *)
Lemma LiveThread_helper_run p self k d c w :
  heap w !! self = Some (Resource k d) ->
  d !! helper_slot p = Some c ->
  LiveThread_helper p self w
  = if is_none c
    then (OK (VRef (length (heap w))),
          set_heap (<[self := Resource k (<[helper_slot p := VRef (length (heap w))]> d)]>
                      (heap w ++ [helper_obj p self])) w)
    else (OK c, w).
Proof.
  intros H Hc. rewrite LiveThread_helper_unfold.
  step ltac:(eapply getattr_present; eassumption).
  destruct (is_none c).
  - erewrite bind_OK.
    2:{ step ltac:(apply alloc_run).
        eapply setattr_plain_run;
          [wsimpl; apply lookup_old; eassumption | apply helper_slot_not_author
          | destruct p; private_name]. }
    wsimpl. eapply getattr_present.
    + wsimpl. apply list_lookup_insert_eq. rewrite length_app.
      apply lookup_lt_Some in H. lia.
    + apply lookup_insert_eq.
  - step ltac:(reflexivity). eapply getattr_present; eassumption.
Qed.

(** C9: on a thread whose helper slot exists, as it does from the
    constructor on, an access to [contrib] or to [contributor] returns,
    and the next access returns the identical value and changes nothing.
    The value is never [None]: the helper instance is created when the
    slot still holds [None], at a location that was free, and is taken
    from the slot otherwise. *)
Theorem helper_memoized (p : Helper) (self : loc) (k : Kind)
    (d : gmap string Value) (c : Value) (w : World) :
  heap w !! self = Some (Resource k d) ->
  d !! helper_slot p = Some c ->
  exists v w1,
    LiveThread_helper p self w = (OK v, w1)
    /\ LiveThread_helper p self w1 = (OK v, w1)
    /\ getattr self (helper_slot p) w1 = (OK v, w1)
    /\ v <> VNone
    /\ (c = VNone ->
        v = VRef (length (heap w))
        /\ heap w !! length (heap w) = None
        /\ heap w1 !! length (heap w) = Some (helper_obj p self))
    /\ (c <> VNone -> v = c /\ w1 = w).
Proof.
  intros Hl Hc.
  rewrite (LiveThread_helper_run p self k d c w Hl Hc).
  destruct (is_none c) eqn:Hn.
  - assert (Hlt : self < length (heap w)) by (eapply lookup_lt_Some; eassumption).
    assert (Hl1 : heap (set_heap
                          (<[self := Resource k (<[helper_slot p := VRef (length (heap w))]> d)]>
                             (heap w ++ [helper_obj p self])) w) !! self
                  = Some (Resource k (<[helper_slot p := VRef (length (heap w))]> d))).
    { wsimpl. apply list_lookup_insert_eq. rewrite length_app. lia. }
    eexists _, _. split; [reflexivity |]. split; [| split; [| split; [| split]]].
    + erewrite LiveThread_helper_run; [| exact Hl1 | apply lookup_insert_eq].
      reflexivity.
    + eapply getattr_present; [exact Hl1 | apply lookup_insert_eq].
    + discriminate.
    + intros _. split; [done |]. split; [apply lookup_ge_None; lia |].
      wsimpl. rewrite list_lookup_insert_ne by lia. apply lookup_fresh.
    + intros Hc0. by destruct c.
  - eexists _, _. split; [reflexivity |]. split; [| split; [| split; [| split]]].
    + erewrite LiveThread_helper_run by eassumption. by rewrite Hn.
    + eapply getattr_present; eassumption.
    + intros ->. discriminate.
    + intros ->. discriminate.
    + done.
Qed.

(** On the thread [abc] of the example session both accesses to [contrib]
    give the helper at location 1. *)
Lemma helper_memoized_witness :
  let w := snd (LiveThread_init VReddit (VStr "abc") None example_world) in
  exists w1,
    LiveThread_contrib 0 w = (OK (VRef 1), w1)
    /\ LiveThread_contrib 0 w1 = (OK (VRef 1), w1)
    /\ heap w1 !! 1 = Some (LiveThreadContribution 0).
Proof.
  intros w.
  destruct (helper_memoized Contrib 0 KThread
              (thread_dict VReddit (VStr "abc") None) VNone w)
    as (v & w1 & H1 & H2 & _ & _ & H5 & _);
    try (vm_compute; reflexivity).
  destruct (H5 eq_refl) as (-> & _ & H6).
  exists w1. split; [exact H1 |]. split; [exact H2 | exact H6].
Defined.

(** On a thread that has just been constructed the first access to either
    property succeeds and creates the helper. *)
Lemma fresh_thread_helper p reddit id _data w :
  truthy id <> truthy_data _data ->
  LiveThread_helper p (length (heap w))
    (set_heap (heap w ++ [Resource KThread (thread_dict reddit id _data)]) w)
  = (OK (VRef (S (length (heap w)))),
     set_heap (heap w ++ [Resource KThread
                            (<[helper_slot p := VRef (S (length (heap w)))]>
                               (thread_dict reddit id _data));
                          helper_obj p (length (heap w))]) w).
Proof.
  intros Hne.
  erewrite (LiveThread_helper_run p _ KThread (thread_dict reddit id _data) VNone).
  - cbn [is_none]. wsimpl. reflexivity.
  - wsimpl. reflexivity.
  - unfold thread_dict. destruct p; cbn [helper_slot].
    + rewrite lookup_insert_ne by done. apply lookup_insert_eq.
    + apply lookup_insert_eq.
Qed.

(** ** The author of an update *)

Lemma assigned_set_inv d a v d' :
  LiveUpdate_setattr_dict d a v = OK d' ->
  d' = <[a := stored_value KUpdate a v]> d /\ assignable KUpdate a = true.
Proof.
  intros Hset. pose proof (setattr_dict_inv KUpdate d a v) as Hs.
  cbn [setattr_dict] in Hs. by rewrite Hset in Hs.
Qed.

Lemma assigned_reddit reddit d : assigned reddit d -> is_Some (d !! "_reddit").
Proof.
  induction 1 as [| d a v d' Hd IH Hset].
  - rewrite lookup_insert_eq. eauto.
  - apply assigned_set_inv in Hset as [-> _].
    destruct (decide (a = "_reddit")) as [-> | Hne].
    + rewrite lookup_insert_eq. eauto.
    + by rewrite lookup_insert_ne.
Qed.

Lemma assigned_insert reddit d a v :
  assignable KUpdate a = true ->
  assigned reddit d -> assigned reddit (<[a := stored_value KUpdate a v]> d).
Proof.
  intros Ha Hd. apply (assigned_set reddit d a v); [done |].
  apply (setattr_dict_ok KUpdate); [by apply (assigned_reddit reddit) | exact Ha].
Qed.

Lemma assigned_overlay reddit d items :
  assignable_keys KUpdate items = true ->
  assigned reddit d -> assigned reddit (overlay KUpdate d items).
Proof.
  revert d. induction items as [| [a v] items IH]; intros d Hk Hd; [done |].
  cbn [assignable_keys forallb fst] in Hk. apply andb_true_iff in Hk as [Ha Hk].
  apply IH; [exact Hk |]. by apply assigned_insert.
Qed.

Lemma assigned_full_update reddit data :
  assignable_keys KUpdate data = true ->
  assigned reddit (full_update_dict reddit data).
Proof.
  intros Hk. unfold full_update_dict, base_dict.
  apply (assigned_insert reddit _ "_fetched" (VBool true)); [done |].
  apply (assigned_insert reddit _ "_fetched" (VBool false)); [done |].
  apply assigned_overlay; [exact Hk | constructor].
Qed.

Lemma assigned_stub_update reddit update_id t :
  assigned reddit (stub_update_dict reddit update_id t).
Proof.
  unfold stub_update_dict, base_dict.
  apply (assigned_insert reddit _ "_contrib" VNone); [done |].
  apply (assigned_insert reddit _ "_fetched" (VBool true)); [done |].
  apply (assigned_insert reddit _ "id" update_id); [done |].
  apply (assigned_insert reddit _ "_thread" (VRef t)); [done |].
  apply (assigned_insert reddit _ "_fetched" (VBool false)); [done |].
  constructor.
Qed.

(** The invariant of the attribute-set path. *)
Lemma assigned_author reddit d : assigned reddit d -> author_is_reference d.
Proof.
  induction 1 as [| d a v d' Hd IH Hset]; intros x Hx.
  - rewrite lookup_insert_ne in Hx by done. by rewrite lookup_empty in Hx.
  - apply assigned_set_inv in Hset as [-> _].
    destruct (decide (a = "author")) as [-> | Ha].
    + rewrite lookup_insert_eq in Hx. injection Hx as <-.
      by exists v.
    + rewrite lookup_insert_ne in Hx by done. by apply IH.
Qed.

Lemma overlay_lookup k d items a :
  overlay k d items !! a
  = match last_binding a items with
    | Some v => Some (stored_value k a v)
    | None => d !! a
    end.
Proof.
  unfold overlay, last_binding.
  assert (Hgen : forall (acc : option Value) (d0 : gmap string Value),
    d0 !! a = match acc with Some v => Some (stored_value k a v) | None => d !! a end ->
    foldl (fun m kv => <[fst kv := stored_value k (fst kv) (snd kv)]> m) d0 items !! a
    = match foldl (fun acc kv => if bool_decide (fst kv = a) then Some (snd kv) else acc)
                  acc items with
      | Some v => Some (stored_value k a v)
      | None => d !! a
      end).
  { induction items as [| [b v] items IH]; intros acc d0 H0; [done |].
    cbn [foldl fst snd]. apply IH. case_bool_decide as Hb.
    - subst b. apply lookup_insert_eq.
    - by rewrite lookup_insert_ne. }
  by apply Hgen.
Qed.

Lemma VRedditor_not_raw v : VRedditor v <> v.
Proof. induction v; try discriminate. intros [= H]. contradiction. Qed.

Lemma full_update_author reddit data x :
  last_binding "author" data = Some x ->
  full_update_dict reddit data !! "author" = Some (VRedditor x).
Proof.
  intros Hx. unfold full_update_dict, base_dict.
  rewrite !lookup_insert_ne by done.
  change (default [] (Some data)) with data.
  rewrite overlay_lookup, Hx. reflexivity.
Qed.

(** C7: on an update reachable by construction and assignments alone, the
    [author] slot only ever holds redditor references.  Assigning a value
    to [author], through [setattr] or through the method itself, succeeds
    and stores the reference built from that value, whose displayed name is
    the value and which is not the value itself; the update stays
    reachable.  An update constructed from a payload, the keys of which
    can all be assigned, is reachable and its author is the reference
    built from the payload's author. *)
Theorem author_coercion (reddit : Value) (w : World) (self : loc)
    (d : gmap string Value) (v : Value) :
  heap w !! self = Some (Resource KUpdate d) ->
  assigned reddit d ->
  author_is_reference d
  /\ (exists w' d',
        LiveUpdate_setattr self "author" v w = (OK tt, w')
        /\ setattr self "author" v w = (OK tt, w')
        /\ heap w' !! self = Some (Resource KUpdate d')
        /\ assigned reddit d'
        /\ getattr self "author" w' = (OK (Redditor reddit v), w')
        /\ Redditor_name (Redditor reddit v) = Some v
        /\ Redditor reddit v <> v)
  /\ (forall thread_id update_id data w0,
        assignable_keys KUpdate data = true ->
        assigned reddit (full_update_dict reddit data)
        /\ heap (snd (LiveUpdate_init reddit thread_id update_id (Some data) w0))
             !! length (heap w0)
           = Some (Resource KUpdate (full_update_dict reddit data))
        /\ forall x,
             last_binding "author" data = Some x ->
             getattr (length (heap w0)) "author"
               (snd (LiveUpdate_init reddit thread_id update_id (Some data) w0))
             = (OK (Redditor reddit x),
                snd (LiveUpdate_init reddit thread_id update_id (Some data) w0))).
Proof.
  intros Hl Hd. split; [by apply (assigned_author reddit) | split].
  - pose proof (assigned_reddit reddit d Hd) as Hr.
    assert (Hlt : self < length (heap w)) by (eapply lookup_lt_Some; eassumption).
    exists (set_heap (<[self := Resource KUpdate
                                    (<["author" := stored_value KUpdate "author" v]> d)]>
                         (heap w)) w),
           (<["author" := stored_value KUpdate "author" v]> d).
    assert (Hl' : heap (set_heap
                          (<[self := Resource KUpdate
                                       (<["author" := stored_value KUpdate "author" v]> d)]>
                             (heap w)) w) !! self
                  = Some (Resource KUpdate
                            (<["author" := stored_value KUpdate "author" v]> d))).
    { wsimpl. by apply list_lookup_insert_eq. }
    split; [by apply LiveUpdate_setattr_run |].
    split; [by apply setattr_run |].
    split; [exact Hl' |].
    split; [by apply assigned_insert |].
    split; [eapply getattr_present; [exact Hl' | apply lookup_insert_eq] |].
    split; [reflexivity | apply VRedditor_not_raw].
  - intros thread_id update_id data w0 Hk.
    rewrite LiveUpdate_init_full_run by exact Hk.
    split; [by apply assigned_full_update |].
    split; [wsimpl; reflexivity |].
    intros x Hx. eapply getattr_present; [wsimpl; reflexivity |].
    by apply full_update_author.
Qed.

(** Assigning the string [spez] to the author of an update that came from
    a payload stores a reference named [spez]. *)
Lemma author_coercion_witness :
  let w := snd (LiveUpdate_init VReddit VNone VNone
                  (Some [("body", VStr "hi")]) example_world) in
  exists w',
    setattr 0 "author" (VStr "spez") w = (OK tt, w')
    /\ getattr 0 "author" w' = (OK (VRedditor (VStr "spez")), w')
    /\ Redditor_name (VRedditor (VStr "spez")) = Some (VStr "spez")
    /\ VRedditor (VStr "spez") <> VStr "spez".
Proof.
  intros w.
  destruct (author_coercion VReddit w 0
              (full_update_dict VReddit [("body", VStr "hi")]) (VStr "spez"))
    as (_ & (w' & d' & _ & Hset & _ & _ & Hget & Hname & Hraw) & _).
  - vm_compute; reflexivity.
  - by apply assigned_full_update.
  - exists w'. repeat split; assumption.
Defined.

(** ** Updates made by item access *)

Ltac not_in_list :=
  match goal with
  | |- ?P => apply (bool_decide_unpack P); vm_compute; exact I
  end.

Lemma stub_update_dict_absent reddit update_id t a :
  a ∉ stub_slots -> stub_update_dict reddit update_id t !! a = None.
Proof.
  unfold stub_slots. rewrite !not_elem_of_cons.
  intros (H1 & H2 & H3 & H4 & H5 & _).
  unfold stub_update_dict, base_dict. cbn [default overlay foldl].
  rewrite !lookup_insert_ne by done. apply lookup_empty.
Qed.

Lemma stub_update_dict_fetched reddit update_id t :
  stub_update_dict reddit update_id t !! "_fetched" = Some (VBool true).
Proof.
  unfold stub_update_dict. rewrite lookup_insert_ne by done. apply lookup_insert_eq.
Qed.

Lemma LiveUpdate_getattr_instance self a :
  a ∉ LiveUpdate_class_names -> inherited a = false ->
  LiveUpdate_getattr self a = getattr self a.
Proof.
  unfold LiveUpdate_class_names. rewrite !not_elem_of_cons.
  intros (H1 & H2 & H3 & H4 & H5 & _) Hi. unfold LiveUpdate_getattr.
  rewrite Hi.
  rewrite (bool_decide_eq_false_2 (a = "thread")) by done.
  rewrite (bool_decide_eq_false_2 (a = "contrib")) by done.
  rewrite (bool_decide_eq_false_2 (a = "STR_FIELD")) by done.
  rewrite (bool_decide_eq_false_2 (a ∈ ["__init__"; "__setattr__"])); [done |].
  rewrite !elem_of_cons, elem_of_nil. tauto.
Qed.

(** An attribute of an instance that can be assigned is read from the
    instance. *)
Lemma LiveUpdate_getattr_assigned w self d a v :
  heap w !! self = Some (Resource KUpdate d) ->
  assignable KUpdate a = true ->
  d !! a = Some v ->
  LiveUpdate_getattr self a w = (OK v, w).
Proof.
  intros Hl Ha Hv. unfold assignable in Ha.
  apply andb_true_iff in Ha as [Hro Hi]. apply negb_true_iff in Hro, Hi.
  apply bool_decide_eq_false in Hro. cbn [read_only] in Hro.
  rewrite !not_elem_of_cons in Hro. destruct Hro as (Hc & Ht & _).
  unfold LiveUpdate_getattr. rewrite Hi.
  rewrite (bool_decide_eq_false_2 (a = "thread")) by done.
  rewrite (bool_decide_eq_false_2 (a = "contrib")) by done.
  assert (Hm : bool_decide (a ∈ ["__init__"; "__setattr__"]) = false).
  { apply bool_decide_eq_false_2. rewrite !elem_of_cons, elem_of_nil.
    unfold inherited in Hi. apply orb_false_iff in Hi as [_ Hi].
    intros [-> | [-> | []]]; discriminate. }
  rewrite Hm. cbn [orb]. destruct (bool_decide (a = "STR_FIELD")).
  - unfold class_attribute. erewrite bind_OK; [| apply load_run; exact Hl].
    cbn [snd]. by rewrite Hv.
  - eapply getattr_present; eassumption.
Qed.

Lemma assignable_keys_elem k items a :
  assignable_keys k items = true -> a ∈ map fst items -> assignable k a = true.
Proof.
  unfold assignable_keys. rewrite forallb_forall. intros Hall Hin.
  apply list_elem_of_fmap in Hin as ([b v] & -> & Hin).
  apply (Hall (b, v)). by apply list_elem_of_In.
Qed.

Lemma last_binding_in a items :
  a ∈ map fst items -> is_Some (last_binding a items).
Proof.
  unfold last_binding.
  assert (Hgen : forall acc : option Value,
    is_Some acc \/ a ∈ map fst items ->
    is_Some (foldl (fun acc kv => if bool_decide (fst kv = a) then Some (snd kv) else acc)
                   acc items)).
  { induction items as [| [b v] items IH]; intros acc Hacc.
    - destruct Hacc as [? | Hin]; [done |]. by apply elem_of_nil in Hin.
    - cbn [foldl fst snd]. apply IH. case_bool_decide as Hb; [left; eauto |].
      destruct Hacc as [? | Hin]; [by left |]. right.
      cbn [map fst] in Hin. apply elem_of_cons in Hin as [-> | ?]; done. }
  intros Hin. apply Hgen. by right.
Qed.

Lemma full_update_dict_payload reddit data a :
  a ∈ map fst data -> is_Some (full_update_dict reddit data !! a).
Proof.
  intros Hin. unfold full_update_dict.
  destruct (decide (a = "_fetched")) as [-> | Hne].
  { rewrite lookup_insert_eq. eauto. }
  unfold base_dict. rewrite !lookup_insert_ne by done.
  change (default [] (Some data)) with data. rewrite overlay_lookup.
  destruct (last_binding_in a data Hin) as [x ->]. eauto.
Qed.

(** Item access on a thread with an id returns for every update id that
    is truthy. *)
Lemma LiveThread_getitem_run self k d r i update_id w :
  heap w !! self = Some (Resource k d) ->
  d !! "_reddit" = Some r ->
  d !! "id" = Some i ->
  truthy i = true ->
  truthy update_id = true ->
  LiveThread_getitem self update_id w
  = (OK (length (heap w)),
     set_heap (heap w ++ [Resource KUpdate
                            (stub_update_dict r update_id (S (length (heap w))));
                          Resource KThread (thread_dict r i None)]) w).
Proof.
  intros Hl Hr Hi Hti Htu. unfold LiveThread_getitem.
  step ltac:(eapply getattr_present; eassumption).
  step ltac:(eapply getattr_present; eassumption).
  by apply LiveUpdate_init_stub_run.
Qed.

(** C8: an update obtained by item access comes without any request.  It
    carries the given id and a reference to a thread stub with the id of
    the thread it was taken from, and every other attribute that neither
    the instance, nor the class, nor the classes it inherits from define
    raises [AttributeError], again without a request.  An update built
    from a listing payload answers every attribute of its payload
    instead. *)
Theorem getitem_stub (self : loc) (update_id : Value) (w w' : World) (u : loc) :
  LiveThread_getitem self update_id w = (OK u, w') ->
  log w' = log w
  /\ LiveUpdate_getattr u "id" w' = (OK update_id, w')
  /\ (exists t i,
        LiveUpdate_getattr u "thread" w' = (OK (VRef t), w')
        /\ getattr self "id" w = (OK i, w)
        /\ getattr t "id" w' = (OK i, w')
        /\ isinstance (VRef t) KThread w' = (OK true, w'))
  /\ (forall a,
        a ∉ stub_slots -> a ∉ LiveUpdate_class_names -> inherited a = false ->
        LiveUpdate_getattr u a w' = (Raise AttributeError, w'))
  /\ (forall reddit data a w0,
        assignable_keys KUpdate data = true ->
        a ∈ map fst data ->
        exists x,
          LiveUpdate_getattr (length (heap w0)) a
            (snd (LiveUpdate_init reddit VNone VNone (Some data) w0))
          = (OK x, snd (LiveUpdate_init reddit VNone VNone (Some data) w0))).
Proof.
  intros Hrun. unfold LiveThread_getitem in Hrun. unfold bind at 1 in Hrun.
  destruct (getattr self "_reddit" w) as [[r | e] w0] eqn:Hr; [| discriminate].
  apply getattr_private_inv in Hr as (-> & k & d & Hl & Hdr); [| done].
  unfold bind at 1 in Hrun.
  destruct (getattr self "id" w) as [[i | e] w0] eqn:Hi; [| discriminate].
  pose proof Hi as Hi'. apply getattr_id_inv in Hi' as (-> & _ & _ & _ & _).
  destruct (truthy i) eqn:Hti, (truthy update_id) eqn:Htu;
    try (unfold LiveUpdate_init in Hrun; rewrite Hti, Htu in Hrun; discriminate).
  rewrite LiveUpdate_init_stub_run in Hrun by done. injection Hrun as <- <-.
  set (h := heap w).
  set (U := Resource KUpdate (stub_update_dict r update_id (S (length h)))).
  set (T := Resource KThread (thread_dict r i None)).
  assert (HU : heap (set_heap (h ++ [U; T]) w) !! length h = Some U)
    by apply lookup_fresh.
  assert (HT : heap (set_heap (h ++ [U; T]) w) !! S (length h) = Some T)
    by apply lookup_fresh_S.
  split; [reflexivity |]. split; [| split; [| split]].
  - rewrite LiveUpdate_getattr_instance
      by first [unfold LiveUpdate_class_names; not_in_list | reflexivity].
    eapply getattr_present; [exact HU |].
    unfold stub_update_dict. rewrite !lookup_insert_ne by done. apply lookup_insert_eq.
  - exists (S (length h)), i. split; [| split; [| split]].
    + unfold LiveUpdate_getattr. cbn [bool_decide]. unfold LiveUpdate_thread.
      eapply getattr_present; [exact HU |].
      unfold stub_update_dict. rewrite !lookup_insert_ne by done. apply lookup_insert_eq.
    + reflexivity.
    + eapply getattr_present; [exact HT | by apply thread_dict_id].
    + eapply isinstance_run. exact HT.
  - intros a Ha Hc Hi0. rewrite LiveUpdate_getattr_instance by done.
    eapply getattr_absent; [exact HU | by apply stub_update_dict_absent |].
    rewrite stub_update_dict_fetched. cbn [truthy]. apply orb_true_r.
  - intros reddit data a w0 Hk Ha. rewrite LiveUpdate_init_full_run by exact Hk.
    destruct (full_update_dict_payload reddit data a Ha) as [x Hx].
    exists x. eapply LiveUpdate_getattr_assigned; [wsimpl; reflexivity | | exact Hx].
    by apply (assignable_keys_elem KUpdate data).
Qed.

(** On the thread [abc] of the example session. *)
Lemma getitem_stub_witness :
  let w := snd (LiveThread_init VReddit (VStr "abc") None example_world) in
  let w' := snd (LiveThread_getitem 0 (VStr "u1") w) in
  log w' = []
  /\ LiveUpdate_getattr 1 "id" w' = (OK (VStr "u1"), w')
  /\ LiveUpdate_getattr 1 "stricken" w' = (Raise AttributeError, w').
Proof.
  intros w w'.
  destruct (getitem_stub 0 (VStr "u1") w w' 1) as (Hlog & Hid & _ & Hattr & _);
    [vm_compute; reflexivity |].
  split; [exact Hlog |]. split; [exact Hid |].
  assert (H1 : "stricken" ∉ stub_slots) by (unfold stub_slots; not_in_list).
  assert (H2 : "stricken" ∉ LiveUpdate_class_names)
    by (unfold LiveUpdate_class_names; not_in_list).
  exact (Hattr "stricken" H1 H2 eq_refl).
Defined.

(** ** Settings update *)

(** An attribute that is absent from a resource not yet fetched is
    resolved by one request, after which the payload is part of the
    instance dictionary. *)
Lemma getattr_fetch_run w self k d a i payload v :
  heap w !! self = Some (Resource k d) ->
  d !! a = None ->
  starts_with_underscore a = false ->
  d !! "_fetched" = Some (VBool false) ->
  d !! "id" = Some i ->
  d !! "_reddit" = Some VReddit ->
  srv_get (srv w) (mkPath (info_endpoint k) i) = Some payload ->
  assignable_keys k payload = true ->
  overlay k d payload !! a = Some v ->
  a <> "_fetched" ->
  getattr self a w
  = (OK v,
     add_log (Get (mkPath (info_endpoint k) i) [])
       (set_heap (<[self := Resource k (<["_fetched" := VBool true]> (overlay k d payload))]>
                    (heap w)) w)).
Proof.
  intros Hl Ha Hp Hf Hi Hr Hsrv Hk Hv Hne.
  assert (Hlt : self < length (heap w)) by (eapply lookup_lt_Some; eassumption).
  unfold getattr.
  step ltac:(apply load_run; eassumption).
  rewrite Ha, Hp, Hf. cbn [truthy orb].
  erewrite bind_OK.
  2:{ unfold _fetch.
      step ltac:(apply load_run; eassumption).
      unfold _info_path. rewrite Hi, Hr.
      erewrite bind_OK; [| unfold reddit_get; rewrite Hsrv; reflexivity].
      rewrite setattr_items_ok by first [rewrite Hr; eauto | exact Hk].
      apply store_run. }
  wsimpl.
  step ltac:(apply load_run; wsimpl; apply list_lookup_insert_eq; exact Hlt).
  rewrite lookup_insert_ne by done. rewrite Hv. reflexivity.
Qed.

Lemma LiveThread_getattr_instance self a :
  a ∉ LiveThread_class_names -> inherited a = false ->
  LiveThread_getattr self a = getattr self a.
Proof.
  unfold LiveThread_class_names. rewrite !not_elem_of_cons.
  intros (H1 & H2 & H3 & H4 & H5 & H6 & H7 & H8 & H9 & _) Hi.
  unfold LiveThread_getattr. rewrite Hi.
  rewrite (bool_decide_eq_false_2 (a = "contrib")) by done.
  rewrite (bool_decide_eq_false_2 (a = "contributor")) by done.
  rewrite (bool_decide_eq_false_2 (a = "STR_FIELD")) by done.
  rewrite (bool_decide_eq_false_2 (a = "updates")) by done.
  rewrite (bool_decide_eq_false_2 (a = "_info_path")) by done.
  rewrite (bool_decide_eq_false_2
             (a ∈ ["__eq__"; "__getitem__"; "__hash__"; "__init__"])); [done |].
  rewrite !elem_of_cons, elem_of_nil. tauto.
Qed.

(** The four standard settings are plain attributes of a thread. *)
Lemma LiveThread_getattr_setting self a :
  a ∈ ["title"; "description"; "nsfw"; "resources"] ->
  LiveThread_getattr self a = getattr self a.
Proof.
  rewrite !elem_of_cons, elem_of_nil.
  intros [-> | [-> | [-> | [-> | []]]]]; reflexivity.
Qed.

Lemma thread_dict_stub_lookup reddit id a :
  a ∉ ["_contributor"; "_contrib"; "id"; "_fetched"; "_reddit"] ->
  thread_dict reddit id None !! a = None.
Proof.
  rewrite !not_elem_of_cons. intros (H1 & H2 & H3 & H4 & H5 & _).
  unfold thread_dict, base_dict. cbn [default overlay foldl].
  rewrite !lookup_insert_ne by done.
  destruct (truthy id); rewrite !lookup_insert_ne by done; apply lookup_empty.
Qed.

Lemma thread_dict_stub_fetched reddit id :
  thread_dict reddit id None !! "_fetched" = Some (VBool false).
Proof.
  unfold thread_dict, base_dict. cbn [default overlay foldl].
  rewrite !lookup_insert_ne by done.
  destruct (truthy id); rewrite ?lookup_insert_ne by done; apply lookup_insert_eq.
Qed.

Lemma thread_dict_stub_reddit reddit id :
  thread_dict reddit id None !! "_reddit" = Some reddit.
Proof.
  unfold thread_dict, base_dict. cbn [default overlay foldl].
  rewrite !lookup_insert_ne by done.
  destruct (truthy id); rewrite !lookup_insert_ne by done; apply lookup_insert_eq.
Qed.

Lemma reset_dict_lookup d attributes a :
  reset_dict d attributes !! a
  = if bool_decide (a = "_fetched") then Some (VBool false)
    else if bool_decide (a ∈ attributes) then None
    else d !! a.
Proof.
  unfold reset_dict. case_bool_decide as Hf.
  { subst a. apply lookup_insert_eq. }
  rewrite lookup_insert_ne by done.
  revert d. induction attributes as [| b attributes IH]; intros d.
  { cbn [foldl]. by rewrite bool_decide_eq_false_2 by apply not_elem_of_nil. }
  cbn [foldl]. rewrite IH.
  destruct (decide (a = b)) as [-> | Hne].
  - rewrite (bool_decide_eq_true_2 (b ∈ b :: attributes)) by apply list_elem_of_here.
    case_bool_decide; [done | apply lookup_delete_eq].
  - rewrite lookup_delete_ne by done.
    case_bool_decide as Hin.
    + rewrite bool_decide_eq_true_2; [done | by apply list_elem_of_further].
    + rewrite bool_decide_eq_false_2; [done |].
      rewrite not_elem_of_cons. done.
Qed.

(** Filling the [None] settings from a thread whose attributes are all
    loaded needs no request. *)
Lemma merge_settings_cached w thread k d settings :
  heap w !! thread = Some (Resource k d) ->
  (forall kv, kv ∈ settings -> is_none (snd kv) = true ->
     LiveThread_getattr thread (fst kv) = getattr thread (fst kv)
     /\ is_Some (d !! fst kv)) ->
  merge_settings thread settings w
  = (OK (map (fun kv => (fst kv,
                         if is_none (snd kv) then default VNone (d !! fst kv)
                         else snd kv)) settings), w).
Proof.
  intros Hl. induction settings as [| [key value] settings IH]; intros Hall; [done |].
  cbn [merge_settings map fst snd].
  assert (Hrest : merge_settings thread settings w
                  = (OK (map (fun kv => (fst kv,
                                         if is_none (snd kv)
                                         then default VNone (d !! fst kv)
                                         else snd kv)) settings), w)).
  { apply IH. intros kv Hin. apply Hall. by apply list_elem_of_further. }
  destruct (is_none value) eqn:Hv.
  - destruct (Hall (key, value) (list_elem_of_here _ _) Hv) as [Hc [x Hx]].
    cbn [fst] in Hc, Hx.
    rewrite Hc.
    step ltac:(eapply getattr_present; eassumption).
    step ltac:(exact Hrest).
    by rewrite Hx.
  - step ltac:(reflexivity). step ltac:(exact Hrest). reflexivity.
Qed.

Lemma merge_settings_cons thread key value rest :
  merge_settings thread ((key, value) :: rest)
  = bind (if is_none value then LiveThread_getattr thread key else ret value)
         (fun v => bind (merge_settings thread rest)
                        (fun data => ret ((key, v) :: data))).
Proof. reflexivity. Qed.

(** C1, as the code has it: [update(title=T)] with every other setting
    [None] makes one fetch of the thread's settings through a fresh
    thread object and one post of the merged dictionary, then, the post
    being accepted, resets on the in-memory thread every key of the
    posted dictionary: title, description, nsfw and resources.  Nothing
    else cached on the thread changes, apart from the fetched flag, and
    no other object of the heap changes.  The server answers the fetch
    with a payload whose keys can be assigned to a thread and which tells
    the three settings. *)
Theorem update_title_only (self t : loc) (d : gmap string Value)
    (i title dv nv rv : Value) (payload : Payload) (w : World) :
  heap w !! self = Some (LiveThreadContribution t) ->
  heap w !! t = Some (Resource KThread d) ->
  d !! "_reddit" = Some VReddit ->
  d !! "id" = Some i ->
  truthy i = true ->
  is_none title = false ->
  srv_get (srv w) (mkPath "liveabout" i) = Some payload ->
  assignable_keys KThread payload = true ->
  last_binding "description" payload = Some dv ->
  last_binding "nsfw" payload = Some nv ->
  last_binding "resources" payload = Some rv ->
  srv_refuses (srv w) (mkPath "live_update_thread" i)
    (Some [("title", title); ("description", dv); ("nsfw", nv); ("resources", rv)])
  = None ->
  exists w',
    LiveThreadContribution_update self title VNone VNone VNone [] w = (OK tt, w')
    /\ log w'
       = log w ++ [Get (mkPath "liveabout" i) [];
                   Post (mkPath "live_update_thread" i)
                     (Some [("title", title); ("description", dv);
                            ("nsfw", nv); ("resources", rv)])]
    /\ (forall a, a ∈ settings_keys -> cached w' t a = None)
    /\ cached w' t "_fetched" = Some (VBool false)
    /\ (forall a, a ∉ settings_keys -> a <> "_fetched" -> cached w' t a = cached w t a)
    /\ (forall l, l < length (heap w) -> l <> t -> heap w' !! l = heap w !! l).
Proof.
  intros Hs Ht Hr Hi Hti Htitle Hsrv Hk Hdv Hnv Hrv Hacc.
  assert (Htl : t < length (heap w)) by (eapply lookup_lt_Some; eassumption).
  set (n := length (heap w)).
  set (stub := thread_dict VReddit i None).
  set (full := <["_fetched" := VBool true]> (overlay KThread stub payload)).
  assert (Hfull : forall a x, a <> "_fetched" -> last_binding a payload = Some x ->
                              full !! a = Some x).
  { intros a x Ha Hx. unfold full. rewrite lookup_insert_ne by done.
    by rewrite overlay_lookup, Hx. }
  eexists. split.
  - unfold LiveThreadContribution_update.
    cbn [dict_update foldl map snd forallb]. rewrite Htitle. cbn [andb].
    step ltac:(unfold helper_thread; rewrite Hs; reflexivity).
    step ltac:(eapply getattr_present; eassumption).
    step ltac:(eapply getattr_present; eassumption).
    step ltac:(apply LiveThread_init_id_run; exact Hti).
    erewrite bind_OK.
    2:{ rewrite merge_settings_cons, Htitle.
        step ltac:(reflexivity).
        erewrite bind_OK.
        2:{ rewrite merge_settings_cons. cbn [is_none].
            rewrite LiveThread_getattr_setting by not_in_list.
            erewrite bind_OK.
            2:{ eapply (getattr_fetch_run _ _ KThread stub "description" i payload dv).
                - wsimpl. reflexivity.
                - apply thread_dict_stub_lookup. not_in_list.
                - reflexivity.
                - apply thread_dict_stub_fetched.
                - by apply thread_dict_id.
                - apply thread_dict_stub_reddit.
                - exact Hsrv.
                - exact Hk.
                - by rewrite overlay_lookup, Hdv.
                - done. }
            wsimpl.
            erewrite bind_OK.
            2:{ eapply (merge_settings_cached _ _ KThread full).
                - wsimpl. reflexivity.
                - intros kv Hin _. rewrite !elem_of_cons in Hin.
                  destruct Hin as [-> | [-> | Hin]]; cbn [fst].
                  + split; [reflexivity |]. erewrite Hfull; eauto.
                  + split; [reflexivity |]. erewrite Hfull; eauto.
                  + by apply elem_of_nil in Hin. }
            cbn [map fst snd is_none].
            rewrite (Hfull "nsfw" nv) by done.
            rewrite (Hfull "resources" rv) by done.
            reflexivity. }
        reflexivity. }
    step ltac:(eapply getattr_present; [wsimpl; apply lookup_old; eassumption | eassumption]).
    step ltac:(eapply getattr_present; [wsimpl; apply lookup_old; eassumption | eassumption]).
    step ltac:(apply reddit_post_run; exact Hacc).
    unfold _reset_attributes.
    step ltac:(apply load_run; wsimpl; apply lookup_old; eassumption).
    cbn [map fst]. apply store_run.
  - wsimpl. rewrite insert_old by done.
    assert (Hnew : forall o rest, (<[t := o]> (heap w) ++ rest) !! t = Some o).
    { intros o rest. apply lookup_old. by apply list_lookup_insert_eq. }
    split; [reflexivity |].
    unfold cached. cbn [heap set_heap set_srv add_log]. rewrite Hnew, Ht.
    split; [| split; [| split]].
    + intros a Ha. rewrite reset_dict_lookup.
      rewrite bool_decide_eq_false_2.
      * by rewrite bool_decide_eq_true_2.
      * intros ->. revert Ha. not_in_list.
    + rewrite reset_dict_lookup. by rewrite bool_decide_eq_true_2.
    + intros a Ha Hf. rewrite reset_dict_lookup.
      rewrite bool_decide_eq_false_2 by done.
      by rewrite bool_decide_eq_false_2.
    + intros l Hl Hne. rewrite lookup_app_l by (rewrite length_insert; lia).
      by rewrite list_lookup_insert_ne.
Qed.

(** The premises of [update_title_only] hold in the example session. *)
Lemma update_title_only_witness :
  exists w',
    LiveThreadContribution_update 1 (VStr "T") VNone VNone VNone []
      example_thread_world = (OK tt, w')
    /\ log w'
       = [Get (mkPath "liveabout" (VStr "abc")) [];
          Post (mkPath "live_update_thread" (VStr "abc"))
            (Some [("title", VStr "T"); ("description", VStr "d");
                   ("nsfw", VBool false); ("resources", VStr "r")])]
    /\ (forall a, a ∈ settings_keys -> cached w' 0 a = None).
Proof.
  destruct (update_title_only 1 0
              (<["_contrib" := VRef 1]>
                 (<["description" := VStr "cached"]>
                    (thread_dict VReddit (VStr "abc") None)))
              (VStr "abc") (VStr "T") (VStr "d") (VBool false) (VStr "r")
              example_settings example_thread_world)
    as (w' & Hrun & Hlog & Hreset & _);
    try (vm_compute; reflexivity).
  exists w'. split; [exact Hrun |]. split; [exact Hlog | exact Hreset].
Defined.

(** C1 as stated fails: a description cached on the thread before
    [update(title=T)] is gone afterwards, although only the title was
    given. *)
Lemma update_title_drops_cached_description :
  cached example_thread_world 0 "description" = Some (VStr "cached")
  /\ fst (LiveThreadContribution_update 1 (VStr "T") VNone VNone VNone []
            example_thread_world) = OK tt
  /\ cached (snd (LiveThreadContribution_update 1 (VStr "T") VNone VNone VNone []
                    example_thread_world)) 0 "description" = None.
Proof. vm_compute. repeat split. Qed.

(** ** The updates listing *)

Lemma decode_children_run reddit raw w :
  forallb (assignable_keys KUpdate) raw = true ->
  decode_children reddit raw w
  = (OK (seq (length (heap w)) (length raw)),
     set_heap (heap w ++ map (decoded_update reddit) raw) w).
Proof.
  revert w. induction raw as [| p raw IH]; intros w Hk.
  - cbn [decode_children length seq map]. rewrite app_nil_r.
    by destruct w.
  - cbn [forallb] in Hk. apply andb_true_iff in Hk as [Hp Hk].
    cbn [decode_children].
    step ltac:(apply LiveUpdate_init_full_run; exact Hp).
    step ltac:(apply IH; exact Hk).
    wsimpl. cbn [map seq length]. reflexivity.
Qed.

Lemma full_update_dict_reddit reddit p :
  is_Some (full_update_dict reddit p !! "_reddit").
Proof.
  unfold full_update_dict. rewrite lookup_insert_ne by done. apply base_dict_reddit.
Qed.

(** A pull inside a loaded page: the next item is stamped and yielded,
    and nothing is requested. *)
Lemma updates_next_loaded reddit tl g w us pre p post :
  limit_reached g = false ->
  lg_listing g = Some us ->
  us !! lg_index g = Some (length pre) ->
  heap w = pre ++ decoded_update reddit p :: post ->
  LiveThread_updates_next (UpdatesLoop tl g) w
  = (OK (length pre, UpdatesLoop tl (advance 1 g)),
     set_heap (pre ++ listed_update reddit tl p :: post) w).
Proof.
  intros Hlim Hus Hidx Hheap. unfold LiveThread_updates_next.
  step ltac:(reflexivity).
  erewrite bind_OK.
  2:{ unfold ListingGenerator_next. rewrite Hlim.
      assert (Hpc : page_consumed g = false).
      { unfold page_consumed. rewrite Hus. apply Nat.leb_gt.
        eapply lookup_lt_Some. eassumption. }
      rewrite Hpc.
      step ltac:(reflexivity).
      rewrite Hus, Hidx. reflexivity. }
  cbn [fst snd].
  step ltac:(eapply setattr_run;
             [rewrite Hheap; apply lookup_fresh | apply full_update_dict_reddit
             | private_name]).
  rewrite Hheap, insert_fresh. unfold advance. rewrite Hus. reflexivity.
Qed.

Lemma prepend_nil r : prepend [] r = r.
Proof. by destruct r as [[us | e] w]. Qed.

Lemma prepend_cons x xs r :
  prepend (x :: xs) r
  = match prepend xs r with
    | (OK us, w) => (OK (x :: us), w)
    | (Raise e, w) => (Raise e, w)
    end.
Proof. by destruct r as [[us | e] w]. Qed.

Lemma iterate_step fuel it w y w1 :
  LiveThread_updates_next it w = (OK y, w1) ->
  iterate (S fuel) it w = prepend [fst y] (iterate fuel (snd y) w1).
Proof.
  intros H. cbn [iterate]. rewrite H. unfold bind, ret.
  by destruct (iterate fuel (snd y) w1) as [[us | e] w2].
Qed.

Lemma advance_advance n m g : advance n (advance m g) = advance (n + m) g.
Proof. unfold advance. cbn. f_equal; lia. Qed.

(** Pulling the [n] items left of a loaded page: each is stamped in turn,
    in the order of the page, and nothing is requested. *)
Lemma drain_page reddit tl page H n :
  forall j g w fuel,
    n + j = length page ->
    lg_listing g = Some (seq (length H) (length page)) ->
    lg_index g = j ->
    lg_limit g = None ->
    heap w = H ++ map (listed_update reddit tl) (take j page)
               ++ map (decoded_update reddit) (drop j page) ->
    iterate (n + fuel) (UpdatesLoop tl g) w
    = prepend (seq (length H + j) n)
        (iterate fuel (UpdatesLoop tl (advance n g))
           (set_heap (H ++ map (listed_update reddit tl) page) w)).
Proof.
  induction n as [| n IH]; intros j g w fuel Hn Hus Hidx Hlim Hheap.
  - cbn [seq Nat.add]. rewrite prepend_nil.
    assert (Hj : j = length page) by lia. subst j.
    rewrite Hj, firstn_all, drop_all in Hheap. cbn [map] in Hheap.
    rewrite app_nil_r in Hheap. rewrite <- Hheap.
    replace (advance 0 g) with g by (by destruct g).
    by destruct w.
  - assert (Hlt : j < length page) by lia.
    destruct (lookup_lt_is_Some_2 page j Hlt) as [p Hp].
    rewrite (drop_S _ _ _ Hp) in Hheap. cbn [map] in Hheap.
    rewrite app_assoc in Hheap.
    set (pre := H ++ map (listed_update reddit tl) (take j page)) in *.
    assert (Hpre : length pre = length H + j).
    { unfold pre. rewrite length_app, length_map, length_take. lia. }
    cbn [Nat.add].
    erewrite iterate_step.
    2:{ eapply (updates_next_loaded reddit tl g w _ pre p).
        - unfold limit_reached. by rewrite Hlim.
        - exact Hus.
        - rewrite Hidx, Hpre. apply lookup_seq_lt. exact Hlt.
        - exact Hheap. }
    cbn [fst snd]. rewrite Hpre.
    rewrite (IH (S j) (advance 1 g) _ fuel).
    + cbn [seq]. rewrite prepend_cons.
      replace (length H + S j) with (S (length H + j)) by lia.
      rewrite advance_advance. replace (n + 1) with (S n) by lia.
      cbn [set_heap heap log srv srv_post].
      by destruct (iterate fuel _ _) as [[us | e] w2].
    + lia.
    + exact Hus.
    + unfold advance. cbn. by rewrite Hidx.
    + exact Hlim.
    + cbn [heap set_heap]. unfold pre.
      rewrite (take_S_r _ _ _ Hp), map_app. cbn [map].
      rewrite <- !app_assoc. reflexivity.
Qed.

(** A page request: one entry in the log, and the decoded items of the
    page appended to the heap in the order the server sent them. *)
Lemma next_batch_run g w l :
  lg_exhausted g = false ->
  lg_reddit g = VReddit ->
  srv_listing (srv w) (lg_url g) (lg_params g) = Some l ->
  children l <> [] ->
  forallb (assignable_keys KUpdate) (children l) = true ->
  ListingGenerator_next_batch g w
  = (OK (refilled g l (length (heap w))),
     add_log (Get (lg_url g) (lg_params g))
       (set_heap (heap w ++ map (decoded_update VReddit) (children l)) w)).
Proof.
  intros Hex Hr Hsrv Hne Hk. unfold ListingGenerator_next_batch. rewrite Hex, Hr.
  erewrite bind_OK; [| unfold reddit_get_listing; rewrite Hsrv; reflexivity].
  step ltac:(apply decode_children_run; exact Hk).
  unfold refilled. rewrite Hr.
  destruct (children l) as [| c cs]; [done |].
  cbn [length seq]. by destruct (after l).
Qed.

(** A pull at a page boundary continues as a pull inside the page that
    the request brings. *)
Lemma updates_next_refill tl g w g1 w1 :
  limit_reached g = false ->
  page_consumed g = true ->
  ListingGenerator_next_batch g w = (OK g1, w1) ->
  limit_reached g1 = false ->
  page_consumed g1 = false ->
  LiveThread_updates_next (UpdatesLoop tl g) w
  = LiveThread_updates_next (UpdatesLoop tl g1) w1.
Proof.
  intros Hlim Hpc Hb Hlim1 Hpc1. unfold LiveThread_updates_next.
  rewrite !(bind_OK (ret _) _ _ _ _ eq_refl). cbn [fst snd].
  unfold ListingGenerator_next. rewrite Hlim, Hpc, Hlim1, Hpc1.
  unfold bind at 2. unfold bind at 1. rewrite Hb.
  unfold bind at 4. unfold bind at 3. reflexivity.
Qed.

Lemma updates_next_start tl k d i limit params w :
  heap w !! tl = Some (Resource k d) ->
  d !! "id" = Some i ->
  d !! "_reddit" = Some VReddit ->
  LiveThread_updates_next (LiveThread_updates tl limit params) w
  = LiveThread_updates_next
      (UpdatesLoop tl (ListingGenerator_init VReddit (mkPath "live_updates" i) limit params))
      w.
Proof.
  intros Hl Hi Hr. unfold LiveThread_updates_next, LiveThread_updates.
  erewrite bind_OK.
  2:{ step ltac:(eapply getattr_present; eassumption).
      step ltac:(eapply getattr_present; eassumption).
      reflexivity. }
  by rewrite (bind_OK (ret _) _ _ _ _ eq_refl).
Qed.

(** A pull after the last page: the iteration ends without a request. *)
Lemma updates_next_exhausted tl g w us :
  limit_reached g = false ->
  lg_listing g = Some us ->
  lg_index g = length us ->
  lg_exhausted g = true ->
  LiveThread_updates_next (UpdatesLoop tl g) w = (Raise StopIteration, w).
Proof.
  intros Hlim Hus Hidx Hex. unfold LiveThread_updates_next.
  step ltac:(reflexivity).
  apply bind_Raise. unfold ListingGenerator_next. rewrite Hlim.
  unfold page_consumed. rewrite Hus, Hidx, Nat.leb_refl.
  apply bind_Raise. unfold ListingGenerator_next_batch. by rewrite Hex.
Qed.

Lemma iterate_refill fuel tl g w g1 w1 :
  fuel <> 0 ->
  limit_reached g = false ->
  page_consumed g = true ->
  ListingGenerator_next_batch g w = (OK g1, w1) ->
  limit_reached g1 = false ->
  page_consumed g1 = false ->
  iterate fuel (UpdatesLoop tl g) w = iterate fuel (UpdatesLoop tl g1) w1.
Proof.
  intros Hf Hlim Hpc Hb Hlim1 Hpc1. destruct fuel as [| fuel]; [done |].
  cbn [iterate]. by rewrite (updates_next_refill tl g w g1 w1).
Qed.

Lemma iterate_start fuel tl k d i limit params w :
  heap w !! tl = Some (Resource k d) ->
  d !! "id" = Some i ->
  d !! "_reddit" = Some VReddit ->
  iterate fuel (LiveThread_updates tl limit params) w
  = iterate fuel
      (UpdatesLoop tl (ListingGenerator_init VReddit (mkPath "live_updates" i) limit params))
      w.
Proof.
  intros Hl Hi Hr. destruct fuel as [| fuel]; [done |].
  cbn [iterate]. by rewrite (updates_next_start tl k d i limit params w).
Qed.

(** A listing of two pages that are not empty, with fuel left for every
    item and for the pull that ends the iteration. *)
Lemma iterate_two_pages tl k d i params p1 p2 tok w extra :
  heap w !! tl = Some (Resource k d) ->
  d !! "id" = Some i ->
  d !! "_reddit" = Some VReddit ->
  srv_listing (srv w) (mkPath "live_updates" i) params
  = Some (mkListing p1 (Some tok)) ->
  srv_listing (srv w) (mkPath "live_updates" i) (dict_set params "after" (VStr tok))
  = Some (mkListing p2 None) ->
  p1 <> [] ->
  p2 <> [] ->
  forallb (assignable_keys KUpdate) p1 = true ->
  forallb (assignable_keys KUpdate) p2 = true ->
  iterate (length p1 + (length p2 + S extra)) (LiveThread_updates tl None params) w
  = (OK (seq (length (heap w)) (length p1 + length p2)),
     mkWorld (heap w ++ map (listed_update VReddit tl) (p1 ++ p2))
             (log w ++ [Get (mkPath "live_updates" i) params;
                        Get (mkPath "live_updates" i)
                            (dict_set params "after" (VStr tok))])
             (srv w) (srv_post w)).
Proof.
  intros Hl Hi Hr Hs1 Hs2 Hne1 Hne2 Hk1 Hk2.
  set (url := mkPath "live_updates" i) in *.
  set (h := heap w).
  set (g0 := ListingGenerator_init VReddit url None params).
  set (l1 := mkListing p1 (Some tok)) in *.
  set (l2 := mkListing p2 None) in *.
  assert (Hn1 : length p1 <> 0) by (by destruct p1).
  assert (Hn2 : length p2 <> 0) by (by destruct p2).
  rewrite (iterate_start _ tl k d i None params w Hl Hi Hr). fold url. fold g0.
  (* first page *)
  set (g1 := refilled g0 l1 (length h)).
  set (w1 := add_log (Get url params)
               (set_heap (h ++ map (decoded_update VReddit) p1) w)).
  rewrite (iterate_refill _ tl g0 w g1 w1); try reflexivity; try lia.
  2:{ apply (next_batch_run g0 w l1); try reflexivity; assumption. }
  2:{ unfold page_consumed, g1, refilled. cbn. rewrite length_seq.
      apply Nat.leb_gt. lia. }
  rewrite (drain_page VReddit tl p1 h (length p1) 0 g1 w1);
    try reflexivity; try lia.
  rewrite Nat.add_0_r.
  (* second page *)
  set (h1 := h ++ map (listed_update VReddit tl) p1).
  set (w1' := set_heap h1 w1).
  set (g1' := advance (length p1) g1).
  set (g2 := refilled g1' l2 (length h1)).
  set (w2 := add_log (Get url (dict_set params "after" (VStr tok)))
               (set_heap (h1 ++ map (decoded_update VReddit) p2) w1')).
  rewrite (iterate_refill _ tl g1' w1' g2 w2); try reflexivity; try lia.
  2:{ unfold page_consumed, g1', advance, g1, refilled. cbn.
      rewrite length_seq, Nat.add_0_r. apply Nat.leb_refl. }
  2:{ apply (next_batch_run g1' w1' l2); try reflexivity; assumption. }
  2:{ unfold page_consumed, g2, refilled. cbn. rewrite length_seq.
      apply Nat.leb_gt. lia. }
  rewrite (drain_page VReddit tl p2 h1 (length p2) 0 g2 w2);
    try reflexivity; try lia.
  rewrite Nat.add_0_r.
  (* the pull that ends the iteration *)
  cbn [iterate].
  rewrite (updates_next_exhausted tl (advance (length p2) g2) _
             (seq (length h1) (length p2))); try reflexivity.
  2:{ unfold advance, g2, refilled. cbn. by rewrite length_seq, Nat.add_0_r. }
  cbn [prepend]. rewrite app_nil_r.
  replace (length h1) with (length h + length p1)
    by (unfold h1; by rewrite length_app, length_map).
  rewrite <- seq_app.
  unfold w2, w1', w1, h1, set_heap, add_log. cbn [heap log srv srv_post].
  rewrite map_app, <- !app_assoc. reflexivity.
Qed.

Lemma lookup_map_Some {A B} (f : A -> B) (l : list A) j x :
  l !! j = Some x -> map f l !! j = Some (f x).
Proof.
  revert j. induction l as [| a l IH]; intros [| j] H; try discriminate.
  - by injection H as ->.
  - cbn. by apply IH.
Qed.

Lemma listed_update_thread w l reddit tl p :
  heap w !! l = Some (listed_update reddit tl p) ->
  LiveUpdate_getattr l "thread" w = (OK (VRef tl), w).
Proof.
  intros H. unfold LiveUpdate_getattr. cbn [bool_decide]. unfold LiveUpdate_thread.
  eapply getattr_present; [exact H | apply lookup_insert_eq].
Qed.

(** C6: over a listing that the server sends as a page of 100 items with a
    continuation token and a page of 37 items without one, the keys of
    every item being names that can be assigned to an update, iterating
    [thread.updates(limit=None)] to its end yields 137 updates, the j-th of
    them decoded from the j-th item the server sent, pages in order; the
    log gains exactly the two page requests; and every yielded update
    answers [thread] with the requesting thread itself.  The first update
    is already stamped when the first pull hands it over, at which point
    only the first page has been requested. *)
Theorem updates_two_pages (tl : loc) (d : gmap string Value) (i : Value)
    (params : Payload) (p1 p2 : list Payload) (tok : string) (w : World) (fuel : nat) :
  heap w !! tl = Some (Resource KThread d) ->
  d !! "id" = Some i ->
  d !! "_reddit" = Some VReddit ->
  srv_listing (srv w) (mkPath "live_updates" i) params
  = Some (mkListing p1 (Some tok)) ->
  srv_listing (srv w) (mkPath "live_updates" i) (dict_set params "after" (VStr tok))
  = Some (mkListing p2 None) ->
  length p1 = 100 ->
  length p2 = 37 ->
  forallb (assignable_keys KUpdate) (p1 ++ p2) = true ->
  138 <= fuel ->
  exists w',
    iterate fuel (LiveThread_updates tl None params) w
    = (OK (seq (length (heap w)) 137), w')
    /\ heap w' = heap w ++ map (listed_update VReddit tl) (p1 ++ p2)
    /\ log w' = log w ++ [Get (mkPath "live_updates" i) params;
                          Get (mkPath "live_updates" i)
                              (dict_set params "after" (VStr tok))]
    /\ (forall j p,
          (p1 ++ p2) !! j = Some p ->
          seq (length (heap w)) 137 !! j = Some (length (heap w) + j)
          /\ heap w' !! (length (heap w) + j) = Some (listed_update VReddit tl p)
          /\ LiveUpdate_getattr (length (heap w) + j) "thread" w' = (OK (VRef tl), w'))
    /\ (exists it w1,
          LiveThread_updates_next (LiveThread_updates tl None params) w
          = (OK (length (heap w), it), w1)
          /\ log w1 = log w ++ [Get (mkPath "live_updates" i) params]
          /\ LiveUpdate_getattr (length (heap w)) "thread" w1 = (OK (VRef tl), w1)).
Proof.
  intros Hl Hi Hr Hs1 Hs2 Hlen1 Hlen2 Hk Hfuel.
  assert (Hne1 : p1 <> []) by (intros ->; discriminate).
  assert (Hne2 : p2 <> []) by (intros ->; discriminate).
  rewrite forallb_app in Hk. apply andb_true_iff in Hk as [Hk1 Hk2].
  eexists. split.
  { replace fuel with (length p1 + (length p2 + S (fuel - 138))) by lia.
    rewrite (iterate_two_pages tl KThread d i params p1 p2 tok w _
               Hl Hi Hr Hs1 Hs2 Hne1 Hne2 Hk1 Hk2).
    rewrite Hlen1, Hlen2. reflexivity. }
  cbn [heap log]. split; [reflexivity |]. split; [reflexivity |]. split.
  - intros j p Hp.
    assert (Hj : j < 137).
    { apply lookup_lt_Some in Hp. rewrite length_app in Hp. lia. }
    assert (Hobj : (heap w ++ map (listed_update VReddit tl) (p1 ++ p2))
                     !! (length (heap w) + j)
                   = Some (listed_update VReddit tl p)).
    { rewrite lookup_app_r by lia.
      replace (length (heap w) + j - length (heap w)) with j by lia.
      by apply lookup_map_Some. }
    split; [by apply lookup_seq_lt |]. split; [exact Hobj |].
    eapply listed_update_thread. exact Hobj.
  - destruct p1 as [| c cs]; [done |].
    set (g0 := ListingGenerator_init VReddit (mkPath "live_updates" i) None params).
    set (l1 := mkListing (c :: cs) (Some tok)).
    eexists _, _.
    rewrite (updates_next_start tl KThread d i None params w Hl Hi Hr). fold g0.
    erewrite (updates_next_refill tl g0 w); try reflexivity.
    2:{ apply (next_batch_run g0 w l1); try reflexivity; [exact Hs1 | done | exact Hk1]. }
    erewrite (updates_next_loaded VReddit tl _ _ _ (heap w) c
                (map (decoded_update VReddit) cs)); try reflexivity.
    split; [reflexivity |]. split; [reflexivity |].
    eapply listed_update_thread. cbn [heap set_heap add_log]. apply lookup_fresh.
    all: reflexivity.
Qed.

(** The premises of [updates_two_pages] hold in the paged session. *)
Lemma updates_two_pages_witness :
  exists w',
    iterate 138 (LiveThread_updates 0 None []) paged_world = (OK (seq 1 137), w')
    /\ log w' = [Get (mkPath "live_updates" (VStr "abc")) [];
                 Get (mkPath "live_updates" (VStr "abc")) [("after", VStr "t1")]].
Proof.
  destruct (updates_two_pages 0 (thread_dict VReddit (VStr "abc") None) (VStr "abc") []
              (replicate 100 [("body", VStr "first page")])
              (replicate 37 [("body", VStr "second page")])
              "t1" paged_world 138)
    as (w' & Hrun & _ & Hlog & _);
    try (vm_compute; reflexivity).
  exists w'. split; [exact Hrun | exact Hlog].
Defined.

(** * Further properties of the module *)

(** ** One-shot actions *)

Lemma helper_thread_run w self t :
  heap w !! self = Some (LiveThreadContribution t)
  \/ heap w !! self = Some (LiveContributorRelationship t) ->
  helper_thread self w = (OK t, w).
Proof. unfold helper_thread. by intros [-> | ->]. Qed.

(** An action on a thread whose id and session are in its instance
    dictionary comes down to its one post. *)
Lemma run_action_run (set_iter : list string -> list string)
    (Redditor_fullname : Value -> M Value) (a : ThreadAction)
    (self t : loc) (k : Kind) (d : gmap string Value) (i : Value) (w : World) :
  helper_thread self w = (OK t, w) ->
  heap w !! t = Some (Resource k d) ->
  d !! "id" = Some i ->
  d !! "_reddit" = Some VReddit ->
  raw_argument a = true ->
  run_action set_iter Redditor_fullname a self w
  = reddit_post VReddit (mkPath (action_endpoint a) i) (action_data set_iter a) w.
Proof.
  intros Hs Ht Hi Hr Hraw.
  assert (Hid : getattr t "id" w = (OK i, w)) by (eapply getattr_present; eassumption).
  assert (Hse : getattr t "_reddit" w = (OK VReddit, w))
    by (eapply getattr_present; eassumption).
  destruct a as [| | name perms | name perms | f | f | body |];
    cbn [run_action action_endpoint action_data raw_argument] in *.
  - unfold LiveContributorRelationship_accept_invite.
    step ltac:(exact Hs). step ltac:(exact Hid). step ltac:(exact Hse). reflexivity.
  - unfold LiveContributorRelationship_leave.
    step ltac:(exact Hs). step ltac:(exact Hid). step ltac:(exact Hse). reflexivity.
  - unfold LiveContributorRelationship_invite.
    step ltac:(exact Hs). step ltac:(exact Hid). step ltac:(reflexivity).
    step ltac:(exact Hse). reflexivity.
  - unfold LiveContributorRelationship_update.
    step ltac:(exact Hs). step ltac:(exact Hid). step ltac:(reflexivity).
    step ltac:(exact Hse). reflexivity.
  - unfold LiveContributorRelationship_remove.
    apply negb_true_iff in Hraw. rewrite Hraw.
    step ltac:(reflexivity).
    step ltac:(exact Hs). step ltac:(exact Hid). step ltac:(exact Hse). reflexivity.
  - unfold LiveContributorRelationship_remove_invite.
    apply negb_true_iff in Hraw. rewrite Hraw.
    step ltac:(reflexivity).
    step ltac:(exact Hs). step ltac:(exact Hid). step ltac:(exact Hse). reflexivity.
  - unfold LiveThreadContribution_add.
    step ltac:(exact Hs). step ltac:(exact Hid). step ltac:(exact Hse). reflexivity.
  - unfold LiveThreadContribution_close.
    step ltac:(exact Hs). step ltac:(exact Hid). step ltac:(exact Hse). reflexivity.
Qed.

(** X1: every action of a thread's helpers, on a thread whose id and
    session are in its instance dictionary, makes exactly one request, a
    post to the action's endpoint under the thread's id, and nothing else:
    no fetch, and no object of the heap changes, so nothing cached on the
    thread is invalidated.  When the server accepts the post the action
    returns; when the server refuses it the action raises what the
    collaborator raises, the post made and the server as it was.  The
    redditor given to [remove] and [remove_invite] is a raw value here,
    not a [Redditor] instance. *)
Theorem action_is_one_post (set_iter : list string -> list string)
    (Redditor_fullname : Value -> M Value) (a : ThreadAction)
    (self t : loc) (k : Kind) (d : gmap string Value) (i : Value) (w : World) :
  helper_thread self w = (OK t, w) ->
  heap w !! t = Some (Resource k d) ->
  d !! "id" = Some i ->
  d !! "_reddit" = Some VReddit ->
  raw_argument a = true ->
  (srv_refuses (srv w) (mkPath (action_endpoint a) i) (action_data set_iter a) = None ->
   run_action set_iter Redditor_fullname a self w
   = (OK tt,
      mkWorld (heap w)
              (log w ++ [Post (mkPath (action_endpoint a) i) (action_data set_iter a)])
              (srv_post w (mkPath (action_endpoint a) i) (action_data set_iter a) (srv w))
              (srv_post w)))
  /\ (forall e,
        srv_refuses (srv w) (mkPath (action_endpoint a) i) (action_data set_iter a)
        = Some e ->
        run_action set_iter Redditor_fullname a self w
        = (Raise e,
           mkWorld (heap w)
                   (log w ++ [Post (mkPath (action_endpoint a) i)
                                (action_data set_iter a)])
                   (srv w) (srv_post w))).
Proof.
  intros Hs Ht Hi Hr Hraw.
  rewrite (run_action_run set_iter Redditor_fullname a self t k d i w Hs Ht Hi Hr Hraw).
  split.
  - intros Hacc. by rewrite reddit_post_run.
  - intros e Hre. by rewrite (reddit_post_refused _ _ e).
Qed.

(** Closing the thread [abc] of the example session, through the helper
    at location 1. *)
Lemma action_is_one_post_witness :
  run_action remove_dups (fun v => ret v) Close 1 example_thread_world
  = (OK tt,
     mkWorld (heap example_thread_world)
             [Post (mkPath "live_close" (VStr "abc")) None]
             example_server (fun _ _ s => s)).
Proof.
  assert (H1 : helper_thread 1 example_thread_world = (OK 0, example_thread_world))
    by (vm_compute; reflexivity).
  assert (H2 : heap example_thread_world !! 0
               = Some (Resource KThread
                         (<["_contrib" := VRef 1]>
                            (<["description" := VStr "cached"]>
                               (thread_dict VReddit (VStr "abc") None)))))
    by (vm_compute; reflexivity).
  destruct (action_is_one_post remove_dups (fun v => ret v) Close 1 0 KThread _
              (VStr "abc") example_thread_world H1 H2 eq_refl eq_refl eq_refl)
    as [Hok _].
  exact (Hok eq_refl).
Defined.

(** X2: a thread made from a non-empty id alone carries out any action
    without ever fetching: the only request is the post of the action,
    addressed by the id the thread was made from, and the heap gains the
    thread and the one helper.  This is so when the server accepts the
    post and when it refuses it, in which case the action raises. *)
Theorem stub_thread_action_no_fetch (set_iter : list string -> list string)
    (Redditor_fullname : Value -> M Value) (X : string) (a : ThreadAction) (w : World) :
  X <> "" ->
  raw_argument a = true ->
  (srv_refuses (srv w) (mkPath (action_endpoint a) (VStr X)) (action_data set_iter a)
   = None ->
   stub_thread_action set_iter Redditor_fullname X a w
   = (OK tt,
      mkWorld (heap w ++ [Resource KThread
                            (<[helper_slot (action_helper a) := VRef (S (length (heap w)))]>
                               (thread_dict VReddit (VStr X) None));
                          helper_obj (action_helper a) (length (heap w))])
              (log w ++ [Post (mkPath (action_endpoint a) (VStr X))
                           (action_data set_iter a)])
              (srv_post w (mkPath (action_endpoint a) (VStr X)) (action_data set_iter a)
                 (srv w))
              (srv_post w)))
  /\ (forall e,
        srv_refuses (srv w) (mkPath (action_endpoint a) (VStr X)) (action_data set_iter a)
        = Some e ->
        stub_thread_action set_iter Redditor_fullname X a w
        = (Raise e,
           mkWorld (heap w ++ [Resource KThread
                                 (<[helper_slot (action_helper a)
                                      := VRef (S (length (heap w)))]>
                                    (thread_dict VReddit (VStr X) None));
                               helper_obj (action_helper a) (length (heap w))])
                   (log w ++ [Post (mkPath (action_endpoint a) (VStr X))
                                (action_data set_iter a)])
                   (srv w) (srv_post w))).
Proof.
  intros HX Hraw.
  assert (Ht : truthy (VStr X) = true)
    by (cbn [truthy]; by rewrite bool_decide_eq_false_2).
  set (w2 := set_heap
               (heap w ++ [Resource KThread
                             (<[helper_slot (action_helper a) := VRef (S (length (heap w)))]>
                                (thread_dict VReddit (VStr X) None));
                           helper_obj (action_helper a) (length (heap w))]) w).
  assert (Hrun : stub_thread_action set_iter Redditor_fullname X a w
                 = reddit_post VReddit (mkPath (action_endpoint a) (VStr X))
                     (action_data set_iter a) w2).
  { unfold w2, stub_thread_action.
    step ltac:(apply LiveThread_init_id_run; exact Ht).
    step ltac:(apply (fresh_thread_helper (action_helper a) VReddit (VStr X) None w);
               rewrite Ht; done).
    cbn [on_helper].
    apply (run_action_run set_iter Redditor_fullname a (S (length (heap w)))
             (length (heap w)) KThread
             (<[helper_slot (action_helper a) := VRef (S (length (heap w)))]>
                (thread_dict VReddit (VStr X) None)) (VStr X)).
    - apply helper_thread_run. cbn [heap set_heap]. rewrite lookup_fresh_S.
      destruct a; cbn; auto.
    - cbn [heap set_heap]. apply lookup_fresh.
    - rewrite lookup_insert_ne by (by destruct a). by apply thread_dict_id.
    - rewrite lookup_insert_ne by (by destruct a). apply thread_dict_stub_reddit.
    - exact Hraw. }
  rewrite Hrun. split.
  - intros Hacc. by rewrite reddit_post_run.
  - intros e Hre. by rewrite (reddit_post_refused _ _ e).
Qed.

(** Adding an update to the thread [abc], made on the spot. *)
Lemma stub_thread_action_no_fetch_witness :
  log (snd (stub_thread_action remove_dups (fun v => ret v) "abc" (Add (VStr "news"))
              example_world))
  = [Post (mkPath "live_add_update" (VStr "abc")) (Some [("body", VStr "news")])].
Proof.
  assert (HX : "abc" <> "") by discriminate.
  destruct (stub_thread_action_no_fetch remove_dups (fun v => ret v) "abc"
              (Add (VStr "news")) example_world HX eq_refl) as [Hok _].
  rewrite (Hok eq_refl). reflexivity.
Defined.

(** ** The permission encoding determines the permissions *)

Lemma append_nil_l s : "" +:+ s = s.
Proof. reflexivity. Qed.

Lemma append_cons_l c x s : String c x +:+ s = String c (x +:+ s).
Proof. reflexivity. Qed.

Lemma has_comma_app x r : has_comma (x +:+ "," +:+ r) = true.
Proof.
  induction x as [| c x IH].
  - reflexivity.
  - rewrite append_cons_l. cbn [has_comma]. rewrite IH. apply orb_true_r.
Qed.

(** Two comma-free prefixes that are each followed by a comma are the
    same prefix. *)
Lemma comma_split_unique x y r1 r2 :
  has_comma x = false -> has_comma y = false ->
  x +:+ "," +:+ r1 = y +:+ "," +:+ r2 -> x = y /\ r1 = r2.
Proof.
  revert y. induction x as [| c x IH]; intros [| c' y] Hx Hy Heq;
    rewrite ?append_cons_l, ?append_nil_l in Heq; cbn [has_comma] in Hx, Hy.
  - by injection Heq as ->.
  - injection Heq as <- _. discriminate.
  - injection Heq as -> _. discriminate.
  - injection Heq as <- Heq.
    apply orb_false_elim in Hx as [_ Hx]. apply orb_false_elim in Hy as [_ Hy].
    destruct (IH y Hx Hy Heq) as [-> ->]. done.
Qed.

Lemma plus_prefix_inj a b : "+" +:+ a = "+" +:+ b -> a = b.
Proof. intros H. by injection H. Qed.

Lemma join_tokens_cons x x2 l :
  String.concat "," (map (fun x => "+" +:+ x) (x :: x2 :: l))
  = "+" +:+ x +:+ "," +:+ String.concat "," (map (fun x => "+" +:+ x) (x2 :: l)).
Proof. reflexivity. Qed.

Lemma join_tokens_one x :
  String.concat "," (map (fun x => "+" +:+ x) [x]) = "+" +:+ x.
Proof. reflexivity. Qed.

(** Joined [+name] tokens of comma-free names can be read back. *)
Lemma join_tokens_inj l1 l2 :
  Forall (fun x => has_comma x = false) l1 ->
  Forall (fun x => has_comma x = false) l2 ->
  String.concat "," (map (fun x => "+" +:+ x) l1)
  = String.concat "," (map (fun x => "+" +:+ x) l2) ->
  l1 = l2.
Proof.
  intros H1. revert l2. induction H1 as [| x l1 Hx H1 IH]; intros l2 H2 Heq.
  - destruct H2 as [| y [| y2 l2] Hy H2]; [done | |].
    + rewrite join_tokens_one, append_cons_l in Heq. discriminate.
    + rewrite join_tokens_cons, append_cons_l in Heq. discriminate.
  - destruct H2 as [| y l2 Hy H2].
    + destruct l1; [rewrite join_tokens_one in Heq | rewrite join_tokens_cons in Heq];
        rewrite append_cons_l in Heq; discriminate.
    + destruct l1 as [| x2 l1], l2 as [| y2 l2];
        rewrite ?join_tokens_one, ?join_tokens_cons in Heq;
        apply plus_prefix_inj in Heq.
      * by subst.
      * subst x. by rewrite has_comma_app in Hx.
      * subst y. by rewrite has_comma_app in Hy.
      * destruct (comma_split_unique _ _ _ _ Hx Hy Heq) as [-> Hrest].
        f_equal. by apply IH.
Qed.

Section PermissionsInjective.

Variable set_iter : list string -> list string.
Hypothesis set_iter_perm : forall l, set_iter l ≡ₚ remove_dups l.

Lemma set_iter_elem l x : x ∈ set_iter l <-> x ∈ l.
Proof. by rewrite set_iter_perm, elem_of_remove_dups. Qed.

(** X3: as long as no permission name contains a comma, the encoding
    tells the granted set: two lists with the same encoding name the same
    permissions, and a list is encoded like [None] only if it names
    [all] and nothing else. *)
Theorem handle_permissions_injective (l1 l2 : list string) :
  Forall (fun x => has_comma x = false) l1 ->
  Forall (fun x => has_comma x = false) l2 ->
  (_handle_permissions set_iter (Some l1) = _handle_permissions set_iter (Some l2) ->
   forall x, x ∈ l1 <-> x ∈ l2)
  /\ (_handle_permissions set_iter (Some l1) = _handle_permissions set_iter None ->
      forall x, x ∈ l1 <-> x = "all").
Proof.
  intros H1 H2.
  assert (Hc : forall l, Forall (fun x => has_comma x = false) l ->
                         Forall (fun x => has_comma x = false) (set_iter l)).
  { intros l Hl. rewrite Forall_forall in *. intros x Hx. apply Hl.
    by apply set_iter_elem. }
  split; intros Heq x; unfold _handle_permissions in Heq.
  - apply join_tokens_inj in Heq; [| by apply Hc | by apply Hc].
    by rewrite <- (set_iter_elem l1), Heq, set_iter_elem.
  - apply join_tokens_inj in Heq; [| by apply Hc |].
    + rewrite <- (set_iter_elem l1), Heq, set_iter_elem. apply list_elem_of_singleton.
    + apply Hc. by repeat constructor.
Qed.

End PermissionsInjective.

(** A list with a repeated name and the list without the repetition. *)
Lemma handle_permissions_injective_witness :
  _handle_permissions remove_dups (Some ["manage"; "manage"; "settings"])
  = _handle_permissions remove_dups (Some ["manage"; "settings"])
  /\ ("settings" ∈ ["manage"; "manage"; "settings"]
      <-> "settings" ∈ ["manage"; "settings"]).
Proof.
  assert (Heq : _handle_permissions remove_dups (Some ["manage"; "manage"; "settings"])
                = _handle_permissions remove_dups (Some ["manage"; "settings"]))
    by (vm_compute; reflexivity).
  split; [exact Heq |].
  apply (handle_permissions_injective remove_dups (fun l => reflexivity _)
           ["manage"; "manage"; "settings"] ["manage"; "settings"]).
  - by repeat constructor.
  - by repeat constructor.
  - exact Heq.
Defined.

(** ** The helper of an update *)

Lemma getattr_private_world w self a :
  starts_with_underscore a = true -> snd (getattr self a w) = w.
Proof.
  intros Ha. unfold getattr, bind, load.
  destruct (heap w !! self) as [[k d | | |] |]; try reflexivity.
  cbn [snd]. destruct (d !! a); [reflexivity |]. by rewrite Ha.
Qed.

Lemma full_update_dict_no_contrib reddit data :
  last_binding "_contrib" data = None ->
  full_update_dict reddit data !! "_contrib" = None.
Proof.
  intros Hc. unfold full_update_dict, base_dict.
  rewrite !lookup_insert_ne by done.
  change (default [] (Some data)) with data.
  rewrite overlay_lookup, Hc. rewrite lookup_insert_ne by done. apply lookup_empty.
Qed.

(** The [contrib] property of an update on a resource whose private slot
    holds [c]. *)
Lemma LiveUpdate_contrib_run self k d c w :
  heap w !! self = Some (Resource k d) ->
  d !! "_contrib" = Some c ->
  LiveUpdate_contrib self w
  = if is_none c
    then (OK (VRef (length (heap w))),
          set_heap (<[self := Resource k (<["_contrib" := VRef (length (heap w))]> d)]>
                      (heap w ++ [LiveUpdateContribution self])) w)
    else (OK c, w).
Proof.
  intros H Hc. unfold LiveUpdate_contrib.
  step ltac:(eapply getattr_present; eassumption).
  destruct (is_none c).
  - erewrite bind_OK.
    2:{ step ltac:(apply alloc_run).
        eapply setattr_plain_run;
          [wsimpl; apply lookup_old; eassumption | done | private_name]. }
    wsimpl. eapply getattr_present.
    + wsimpl. apply list_lookup_insert_eq. rewrite length_app.
      apply lookup_lt_Some in H. lia.
    + apply lookup_insert_eq.
  - step ltac:(reflexivity). eapply getattr_present; eassumption.
Qed.

(** X4: the [contrib] helper of an update exists only for updates made
    from ids.  On an update built from a payload, and on every item that
    [thread.updates()] yields, [update.contrib] raises [AttributeError]
    (the payload path never creates the slot), so [remove] and [strike]
    cannot be reached from a listing; on an update made by item access it
    returns a helper bound to the update and returns the same helper the
    next time. *)
Theorem LiveUpdate_contrib_by_construction (reddit thread_id update_id : Value)
    (data : Payload) (tl : loc) (w : World) :
  last_binding "_contrib" data = None ->
  truthy thread_id = true ->
  truthy update_id = true ->
  LiveUpdate_contrib (length (heap w))
    (snd (LiveUpdate_init reddit thread_id update_id (Some data) w))
  = (Raise AttributeError, snd (LiveUpdate_init reddit thread_id update_id (Some data) w))
  /\ (forall l, heap w !! l = Some (listed_update reddit tl data) ->
                LiveUpdate_contrib l w = (Raise AttributeError, w))
  /\ (exists w2,
        LiveUpdate_contrib (length (heap w))
          (snd (LiveUpdate_init reddit thread_id update_id None w))
        = (OK (VRef (S (S (length (heap w))))), w2)
        /\ LiveUpdate_contrib (length (heap w)) w2
           = (OK (VRef (S (S (length (heap w))))), w2)
        /\ heap w2 !! S (S (length (heap w)))
           = Some (LiveUpdateContribution (length (heap w)))
        /\ log w2 = log w).
Proof.
  intros Hc Ht Hu. split; [| split].
  - destruct (assignable_keys KUpdate data) eqn:Hk.
    + rewrite LiveUpdate_init_full_run by exact Hk. cbn [snd].
      unfold LiveUpdate_contrib.
      apply bind_Raise. eapply getattr_absent.
      * wsimpl. reflexivity.
      * by apply full_update_dict_no_contrib.
      * reflexivity.
    + destruct (LiveUpdate_init_full_raise reddit thread_id update_id data w Hk)
        as (e & _ & ->).
      cbn [snd]. unfold LiveUpdate_contrib.
      apply bind_Raise. eapply getattr_absent.
      * wsimpl. reflexivity.
      * rewrite lookup_insert_ne by done. apply lookup_empty.
      * reflexivity.
  - intros l Hl. unfold LiveUpdate_contrib. apply bind_Raise.
    eapply getattr_absent; [exact Hl | | reflexivity].
    rewrite lookup_insert_ne by done. by apply full_update_dict_no_contrib.
  - rewrite LiveUpdate_init_stub_run by done. cbn [snd].
    set (h := heap w).
    set (U := stub_update_dict reddit update_id (S (length h))).
    set (T := Resource KThread (thread_dict reddit thread_id None)).
    assert (HU : U !! "_contrib" = Some VNone) by apply lookup_insert_eq.
    eexists. split; [| split; [| split]].
    + erewrite (LiveUpdate_contrib_run _ KUpdate U VNone);
        [| cbn [heap set_heap]; apply lookup_fresh | exact HU].
      cbn [is_none heap set_heap]. rewrite length_app. cbn [length].
      replace (length h + 2) with (S (S (length h))) by lia.
      rewrite <- app_assoc. cbn [app]. rewrite insert_fresh. reflexivity.
    + erewrite (LiveUpdate_contrib_run _ KUpdate
                  (<["_contrib" := VRef (S (S (length h)))]> U)
                  (VRef (S (S (length h)))));
        [reflexivity | cbn [heap set_heap]; apply lookup_fresh | apply lookup_insert_eq].
    + cbn [heap set_heap].
      rewrite (lookup_app_r h) by lia.
      replace (S (S (length h)) - length h) with 2 by lia. reflexivity.
    + reflexivity.
Qed.

(** A payload with a body, and the update [u1] of the thread [abc]. *)
Lemma LiveUpdate_contrib_by_construction_witness :
  fst (LiveUpdate_contrib 0
         (snd (LiveUpdate_init VReddit (VStr "abc") (VStr "u1")
                 (Some [("body", VStr "hello")]) example_world)))
  = Raise AttributeError
  /\ fst (LiveUpdate_contrib 0
            (snd (LiveUpdate_init VReddit (VStr "abc") (VStr "u1") None example_world)))
     = OK (VRef 2).
Proof.
  destruct (LiveUpdate_contrib_by_construction VReddit (VStr "abc") (VStr "u1")
              [("body", VStr "hello")] 0 example_world)
    as (Ha & _ & (w2 & Hb & _)); try reflexivity.
  split; [exact (f_equal fst Ha) | exact (f_equal fst Hb)].
Defined.

(** ** Updates never fetch *)

Lemma getattr_fetched_world w u a : fetched u w -> snd (getattr u a w) = w.
Proof.
  intros (k & d & Hl & Hf). unfold getattr, bind, load. rewrite Hl. cbn [snd].
  destruct (d !! a); [reflexivity |]. rewrite Hf. cbn [truthy].
  by rewrite orb_true_r.
Qed.

Lemma set_heap_same w : set_heap (heap w) w = w.
Proof. by destruct w. Qed.

(** The [contrib] property of an update changes the heap at most. *)
Lemma LiveUpdate_contrib_world u w :
  exists h', snd (LiveUpdate_contrib u w) = set_heap h' w.
Proof.
  destruct (getattr u "_contrib" w) as [[c | e] w0] eqn:Hg.
  - apply getattr_private_inv in Hg as (-> & k & d & Hl & Hc); [| done].
    rewrite (LiveUpdate_contrib_run u k d c w Hl Hc).
    destruct (is_none c); cbn [snd]; [eauto |].
    exists (heap w). by rewrite set_heap_same.
  - pose proof (getattr_private_world w u "_contrib" eq_refl) as Hw.
    rewrite Hg in Hw. cbn [snd] in Hw. subst w0.
    unfold LiveUpdate_contrib. erewrite bind_Raise by exact Hg.
    exists (heap w). by rewrite set_heap_same.
Qed.

Lemma LiveUpdate_contrib_log u w :
  log (snd (LiveUpdate_contrib u w)) = log w /\ srv (snd (LiveUpdate_contrib u w)) = srv w.
Proof. destruct (LiveUpdate_contrib_world u w) as [h' ->]. done. Qed.

(** Attribute access on a resource marked as fetched makes no request. *)
Lemma fetched_getattr_no_request u w a :
  fetched u w ->
  log (snd (LiveUpdate_getattr u a w)) = log w
  /\ srv (snd (LiveUpdate_getattr u a w)) = srv w.
Proof.
  intros Hf. unfold LiveUpdate_getattr.
  destruct (bool_decide (a = "thread")).
  { unfold LiveUpdate_thread. by rewrite (getattr_private_world w u "_thread" eq_refl). }
  destruct (bool_decide (a = "contrib")); [apply LiveUpdate_contrib_log |].
  destruct (bool_decide (a = "STR_FIELD")).
  { destruct Hf as (k & d & Hl & _). unfold class_attribute.
    erewrite bind_OK; [| apply load_run; exact Hl].
    cbn [snd]. by destruct (d !! a). }
  destruct (bool_decide (a ∈ ["__init__"; "__setattr__"]) || inherited a); [done |].
  by rewrite (getattr_fetched_world w u a Hf).
Qed.

(** X5: an update never fetches.  Both paths of the constructor make no
    request and mark the new update as fetched, and as long as it is so
    marked, for instance after [thread.updates()] has stamped it, no
    attribute access on it makes a request: an attribute is answered from
    the instance dictionary or not at all. *)
Theorem LiveUpdate_never_fetches (reddit thread_id update_id : Value)
    (_data : option Payload) (w w' : World) (u : loc) :
  LiveUpdate_init reddit thread_id update_id _data w = (OK u, w') ->
  log w' = log w
  /\ fetched u w'
  /\ (forall w2 a,
        fetched u w2 ->
        log (snd (LiveUpdate_getattr u a w2)) = log w2
        /\ srv (snd (LiveUpdate_getattr u a w2)) = srv w2)
  /\ (forall tl, fetched u (snd (setattr u "_thread" (VRef tl) w'))).
Proof.
  intros Hinit.
  assert (Hobj : exists d, heap w' !! u = Some (Resource KUpdate d)
                           /\ d !! "_fetched" = Some (VBool true)
                           /\ is_Some (d !! "_reddit")
                           /\ log w' = log w).
  { destruct _data as [data |].
    - destruct (assignable_keys KUpdate data) eqn:Hk.
      2:{ destruct (LiveUpdate_init_full_raise reddit thread_id update_id data w Hk)
            as (e & _ & He).
          rewrite He in Hinit. discriminate. }
      rewrite LiveUpdate_init_full_run in Hinit by exact Hk. injection Hinit as <- <-.
      exists (full_update_dict reddit data). wsimpl.
      split; [reflexivity |]. split; [apply lookup_insert_eq |].
      split; [apply full_update_dict_reddit | reflexivity].
    - destruct (truthy thread_id) eqn:Ht, (truthy update_id) eqn:Hu;
        try (unfold LiveUpdate_init in Hinit; rewrite Ht, Hu in Hinit; discriminate).
      rewrite LiveUpdate_init_stub_run in Hinit by done. injection Hinit as <- <-.
      exists (stub_update_dict reddit update_id (S (length (heap w)))). wsimpl.
      split; [reflexivity |]. split; [apply stub_update_dict_fetched |].
      split; [| reflexivity].
      unfold stub_update_dict. rewrite !lookup_insert_ne by done.
      apply base_dict_reddit. }
  destruct Hobj as (d & Hl & Hf & Hr & Hlog).
  split; [exact Hlog |]. split; [by exists KUpdate, d |]. split.
  - intros w2 a Hf2. by apply fetched_getattr_no_request.
  - intros tl.
    rewrite (setattr_run w' u KUpdate d "_thread" (VRef tl) Hl Hr eq_refl).
    exists KUpdate, (<["_thread" := stored_value KUpdate "_thread" (VRef tl)]> d).
    cbn [snd heap set_heap]. split.
    + apply list_lookup_insert_eq. eapply lookup_lt_Some. eassumption.
    + by rewrite lookup_insert_ne.
Qed.

(** The update built from a payload in the example session asks nothing
    of the server when a missing attribute is read. *)
Lemma LiveUpdate_never_fetches_witness :
  let w' := snd (LiveUpdate_init VReddit VNone VNone
                   (Some [("body", VStr "hello")]) example_world) in
  log w' = [] /\ log (snd (LiveUpdate_getattr 0 "stricken" w')) = log w'.
Proof.
  intros w'.
  destruct (LiveUpdate_never_fetches VReddit VNone VNone (Some [("body", VStr "hello")])
              example_world w' 0)
    as (Hlog & Hf & Hget & _); [vm_compute; reflexivity |].
  split; [exact Hlog | apply (Hget w' "stricken" Hf)].
Defined.

(** ** Item access is not cached *)

(** X6: item access makes a new update and a new thread stub each time.
    Two accesses with the same id give two different update objects; the
    thread an update refers to compares equal to the thread it was taken
    from but is another object, whose helper slots are empty whatever
    helpers the original thread already holds. *)
Theorem getitem_not_cached (self : loc) (d : gmap string Value) (r update_id : Value)
    (s : string) (w : World) :
  heap w !! self = Some (Resource KThread d) ->
  d !! "_reddit" = Some r ->
  d !! "id" = Some (VStr s) ->
  s <> "" ->
  truthy update_id = true ->
  exists w1 w2,
    LiveThread_getitem self update_id w = (OK (length (heap w)), w1)
    /\ LiveThread_getitem self update_id w1 = (OK (length (heap w) + 2), w2)
    /\ LiveUpdate_thread (length (heap w)) w2 = (OK (VRef (S (length (heap w)))), w2)
    /\ S (length (heap w)) <> self
    /\ LiveThread_eq self (VRef (S (length (heap w)))) w2 = (OK true, w2)
    /\ cached w2 (S (length (heap w))) "_contrib" = Some VNone
    /\ cached w2 (S (length (heap w))) "_contributor" = Some VNone
    /\ cached w2 self "_contrib" = d !! "_contrib"
    /\ log w2 = log w.
Proof.
  intros Hl Hr Hi Hs Hu.
  assert (Hti : truthy (VStr s) = true)
    by (cbn [truthy]; by rewrite bool_decide_eq_false_2).
  assert (Hlt : self < length (heap w)) by (eapply lookup_lt_Some; eassumption).
  set (h := heap w) in *.
  set (U := Resource KUpdate (stub_update_dict r update_id (S (length h)))).
  set (T := Resource KThread (thread_dict r (VStr s) None)).
  set (U2 := Resource KUpdate (stub_update_dict r update_id (S (length h + 2)))).
  exists (set_heap (h ++ [U; T]) w), (set_heap (h ++ [U; T; U2; T]) w).
  assert (Hself : forall rest, (h ++ rest) !! self = Some (Resource KThread d))
    by (intros rest; by apply lookup_old).
  assert (HT : (h ++ [U; T; U2; T]) !! S (length h) = Some T) by apply lookup_fresh_S.
  split; [by apply (LiveThread_getitem_run self KThread d r (VStr s)) |].
  split.
  { erewrite (LiveThread_getitem_run self KThread d r (VStr s));
      [| cbn [heap set_heap]; apply Hself | done..].
    cbn [heap set_heap]. rewrite length_app. cbn [length].
    rewrite <- app_assoc. reflexivity. }
  split.
  { unfold LiveUpdate_thread. eapply getattr_present.
    - cbn [heap set_heap]. apply lookup_fresh.
    - unfold stub_update_dict. rewrite !lookup_insert_ne by done. apply lookup_insert_eq. }
  split; [lia |]. split.
  { eapply (LiveThread_eq_ref_run _ self (S (length h)) KThread d _ s).
    - cbn [heap set_heap]. apply Hself.
    - exact Hi.
    - cbn [heap set_heap]. exact HT.
    - by apply thread_dict_id. }
  unfold cached. cbn [heap set_heap]. rewrite HT, Hself. cbn [T].
  split; [| split; [| split]]; try reflexivity.
  - unfold thread_dict. rewrite lookup_insert_ne by done. apply lookup_insert_eq.
  - apply lookup_insert_eq.
Qed.

(** The thread [abc] of the example session, which holds a [contrib]
    helper already. *)
Lemma getitem_not_cached_witness :
  exists w1 w2,
    LiveThread_getitem 0 (VStr "u1") example_thread_world = (OK 2, w1)
    /\ LiveThread_getitem 0 (VStr "u1") w1 = (OK 4, w2)
    /\ LiveThread_eq 0 (VRef 3) w2 = (OK true, w2)
    /\ cached w2 3 "_contrib" = Some VNone
    /\ cached w2 0 "_contrib" = Some (VRef 1).
Proof.
  set (d := <["_contrib" := VRef 1]>
              (<["description" := VStr "cached"]>
                 (thread_dict VReddit (VStr "abc") None))).
  assert (Hl : heap example_thread_world !! 0 = Some (Resource KThread d))
    by (vm_compute; reflexivity).
  assert (Hr : d !! "_reddit" = Some VReddit) by (vm_compute; reflexivity).
  assert (Hi : d !! "id" = Some (VStr "abc")) by (vm_compute; reflexivity).
  assert (Hs : "abc" <> "") by discriminate.
  destruct (getitem_not_cached 0 d VReddit (VStr "u1") "abc" example_thread_world
              Hl Hr Hi Hs eq_refl)
    as (w1 & w2 & H1 & H2 & _ & _ & H5 & H6 & _ & H8 & _).
  exists w1, w2.
  split; [exact H1 |]. split; [exact H2 |]. split; [exact H5 |].
  split; [exact H6 |]. rewrite H8. vm_compute. reflexivity.
Defined.

(** ** Settings update in general *)

Lemma read_effect_refl n ok w : read_effect n ok w w.
Proof. unfold read_effect. repeat split; auto. Qed.

Lemma read_effect_weaken n ok w w' : read_effect n ok w w' -> read_effect n false w w'.
Proof.
  intros (H1 & H2 & H3 & H4 & H5 & H6). repeat split; try done; try (by apply H5).
  destruct H6 as [? | (p & ? & _)]; [by left | right]. exists p. by split.
Qed.

Lemma read_effect_trans n ok w w1 w2 :
  read_effect n true w w1 -> read_effect n ok w1 w2 -> read_effect n ok w w2.
Proof.
  intros (A1 & A2 & A3 & A4 & A5 & A6) (B1 & B2 & B3 & B4 & B5 & B6).
  unfold read_effect. split; [congruence |]. split; [congruence |].
  split; [lia |]. split; [intros l Hl; by rewrite B4, A4 |]. split.
  - intros Hf. destruct (A5 Hf) as [Hlog Hf1]. destruct (B5 Hf1) as [Hlog2 Hf2].
    split; [congruence | done].
  - destruct A6 as [Ha | (p & Ha & Hf1)].
    + destruct B6 as [Hb | (q & Hb & Hf2)]; [left; congruence | right].
      exists q. split; [congruence | done].
    + destruct (B5 (Hf1 eq_refl)) as [Hlog2 Hf2]. right. exists p.
      split; [congruence | done].
Qed.

(** One attribute read, with the fetch it may trigger. *)
Lemma getattr_effect n a w :
  read_effect n (is_OK (fst (getattr n a w))) w (snd (getattr n a w)).
Proof.
  unfold getattr, bind, load.
  destruct (heap w !! n) as [[k d | | |] |] eqn:Hl; try apply read_effect_refl.
  cbn [snd fst]. destruct (d !! a) as [v |] eqn:Ha; [apply read_effect_refl |].
  destruct (starts_with_underscore a
            || match d !! "_fetched" with Some f => truthy f | None => true end) eqn:Hflag;
    [apply read_effect_refl |].
  apply orb_false_elim in Hflag as [_ Hflag].
  assert (Hnf : ~ fetched n w).
  { intros (k' & d' & Hl' & Hf'). rewrite Hl in Hl'. injection Hl' as <- <-.
    by rewrite Hf' in Hflag. }
  assert (Hlt : n < length (heap w)) by (eapply lookup_lt_Some; eassumption).
  unfold _fetch, bind, load. rewrite Hl. cbn [fst snd].
  destruct (_info_path k d) as [p | e]; [| apply read_effect_refl].
  destruct (d !! "_reddit") as [reddit |]; [| apply read_effect_refl].
  destruct reddit; try apply read_effect_refl.
  unfold reddit_get. destruct (srv_get (srv w) p) as [payload |].
  - destruct (setattr_items k d payload) as [d' | e].
    + unfold store. cbn [heap set_heap add_log].
      rewrite list_lookup_insert_eq by exact Hlt. cbn [fst snd].
      assert (Hfd : fetched n (set_heap (<[n := Resource k (<["_fetched" := VBool true]> d')]>
                                           (heap w)) (add_log (Get p []) w))).
      { exists k, (<["_fetched" := VBool true]> d'). cbn [heap set_heap add_log].
        split; [by apply list_lookup_insert_eq | apply lookup_insert_eq]. }
      assert (Hbase : forall ok r,
        read_effect n ok w
          (snd ((r : Res Value),
                set_heap (<[n := Resource k (<["_fetched" := VBool true]> d')]> (heap w))
                  (add_log (Get p []) w)))).
      { intros ok r. unfold read_effect. cbn [snd heap log srv srv_post set_heap add_log].
        split; [done |]. split; [done |]. split; [by rewrite length_insert |].
        split; [intros l Hl'; apply list_lookup_insert_ne; lia |].
        split; [done |]. right. exists p. split; [done |]. intros _. exact Hfd. }
      destruct (<["_fetched" := VBool true]> d' !! a); apply Hbase.
    + unfold read_effect. cbn [snd fst heap log srv srv_post add_log is_OK].
      repeat split; try done. right. exists p. split; [done | discriminate].
  - unfold read_effect. cbn [snd fst heap log srv srv_post add_log is_OK].
    repeat split; try done. right. exists p. split; [done | discriminate].
Qed.

Lemma getattr_effect_of n a w r w' :
  getattr n a w = (r, w') -> read_effect n (is_OK r) w w'.
Proof. intros H. pose proof (getattr_effect n a w) as He. by rewrite H in He. Qed.

(** Taking a helper of the thread: the helper may be appended to the heap
    and the slot filled, without any request. *)
Lemma LiveThread_helper_effect p n w r w' :
  LiveThread_helper p n w = (r, w') -> read_effect n (is_OK r) w w'.
Proof.
  intros H.
  destruct (getattr n (helper_slot p) w) as [[c | e] w0] eqn:Hg.
  - apply getattr_private_inv in Hg as (-> & k & d & Hl & Hc); [| by destruct p].
    assert (Hlt : n < length (heap w)) by (eapply lookup_lt_Some; eassumption).
    rewrite (LiveThread_helper_run p n k d c w Hl Hc) in H.
    destruct (is_none c); injection H as <- <-; [| apply read_effect_refl].
    unfold read_effect. cbn [heap log srv srv_post set_heap].
    split; [done |]. split; [done |].
    split; [rewrite length_insert, length_app; lia |].
    split; [intros l Hl'; rewrite list_lookup_insert_ne by lia;
            apply lookup_app_l; lia |].
    split; [| by left]. intros (k' & d' & Hl' & Hf). split; [done |].
    rewrite Hl in Hl'. injection Hl' as <- <-.
    exists k, (<[helper_slot p := VRef (length (heap w))]> d). cbn [heap]. split.
    + apply list_lookup_insert_eq. rewrite length_app. lia.
    + rewrite lookup_insert_ne by (by destruct p). exact Hf.
  - assert (Hp : starts_with_underscore (helper_slot p) = true) by (by destruct p).
    pose proof (getattr_private_world w n (helper_slot p) Hp) as Hw.
    rewrite Hg in Hw. cbn [snd] in Hw. subst w0.
    rewrite LiveThread_helper_unfold in H. rewrite (bind_Raise _ _ _ _ _ Hg) in H.
    injection H as <- <-. apply read_effect_refl.
Qed.

(** A class attribute is read without any effect. *)
Lemma class_attribute_world self key (from_class : M Value) w :
  snd (from_class w) = w -> snd (class_attribute self key from_class w) = w.
Proof.
  intros Hc. unfold class_attribute, bind, load.
  destruct (heap w !! self) as [[k d | | |] |]; try reflexivity.
  cbn [snd]. by destruct (d !! key).
Qed.

Lemma LiveThread_getattr_effect n key w r w' :
  LiveThread_getattr n key w = (r, w') -> read_effect n (is_OK r) w w'.
Proof.
  unfold LiveThread_getattr.
  destruct (bool_decide (key = "contrib"));
    [apply (LiveThread_helper_effect Contrib) |].
  destruct (bool_decide (key = "contributor"));
    [apply (LiveThread_helper_effect Contributor) |].
  assert (Hclass : forall c : M Value,
            (forall w0, snd (c w0) = w0) ->
            class_attribute n key c w = (r, w') -> read_effect n (is_OK r) w w').
  { intros c Hc H. pose proof (class_attribute_world n key c w (Hc w)) as Hw.
    rewrite H in Hw. cbn [snd] in Hw. subst w'. apply read_effect_refl. }
  destruct (bool_decide (key = "STR_FIELD")); [by apply Hclass |].
  destruct (bool_decide (key = "updates") || bool_decide (key = "_info_path"));
    [by apply Hclass |].
  destruct (_ || inherited key);
    [intros [= <- <-]; apply read_effect_refl | apply getattr_effect_of].
Qed.

(** Filling the [None] settings from the fresh thread. *)
Lemma merge_settings_effect n settings :
  forall w r w', merge_settings n settings w = (r, w') -> read_effect n (is_OK r) w w'.
Proof.
  induction settings as [| [key value] settings IH]; intros w r w' H.
  - injection H as <- <-. apply read_effect_refl.
  - rewrite merge_settings_cons in H. unfold bind at 1 in H.
    destruct ((if is_none value then LiveThread_getattr n key else ret value) w)
      as [[v | e] w1] eqn:Hv.
    + assert (E1 : read_effect n true w w1).
      { destruct (is_none value).
        - by apply (LiveThread_getattr_effect n key w (OK v) w1).
        - injection Hv as <- <-. apply read_effect_refl. }
      unfold bind at 1 in H.
      destruct (merge_settings n settings w1) as [[data | e] w2] eqn:Hm.
      * injection H as <- <-. apply (read_effect_trans n _ w w1 w2 E1).
        by apply (IH w1 (OK data) w2).
      * injection H as <- <-. apply (read_effect_trans n _ w w1 w2 E1).
        by apply (IH w1 (Raise e) w2).
    + injection H as <- <-. destruct (is_none value).
      * by apply (LiveThread_getattr_effect n key w (Raise e) w1).
      * discriminate.
Qed.

(** The merged dictionary has the keys of the settings, in their order,
    and every value that was given is in it as given. *)
Lemma merge_settings_keys n settings :
  forall w data w',
    merge_settings n settings w = (OK data, w') ->
    map fst data = map fst settings
    /\ Forall2 (fun kv kv' => is_none (snd kv) = false -> snd kv' = snd kv) settings data.
Proof.
  induction settings as [| [key value] settings IH]; intros w data w' H.
  - injection H as <- <-. split; [done | constructor].
  - rewrite merge_settings_cons in H. unfold bind at 1 in H.
    destruct ((if is_none value then LiveThread_getattr n key else ret value) w)
      as [[v | e] w1] eqn:Hv; [| discriminate].
    unfold bind at 1 in H.
    destruct (merge_settings n settings w1) as [[data1 | e] w2] eqn:Hm; [| discriminate].
    injection H as <- <-. destruct (IH w1 data1 w2 Hm) as [Hk Hv2].
    cbn [map fst]. split; [by rewrite Hk |]. constructor; [| done].
    cbn [snd]. intros Hn. rewrite Hn in Hv. by injection Hv as <- _.
Qed.

Lemma helper_thread_inv w self r w0 :
  helper_thread self w = (r, w0) ->
  w0 = w
  /\ (forall t, r = OK t ->
        heap w !! self = Some (LiveThreadContribution t)
        \/ heap w !! self = Some (LiveContributorRelationship t)).
Proof.
  unfold helper_thread.
  destruct (heap w !! self) as [[k d | t0 | t0 | u] |]; intros [= <- <-];
    (split; [done |]); intros t [=]; subst; auto.
Qed.

Lemma getattr_id_world w self : snd (getattr self "id" w) = w.
Proof.
  unfold getattr, bind, load.
  destruct (heap w !! self) as [[k d | | |] |] eqn:Hl; try reflexivity.
  cbn [snd]. destruct (d !! "id") eqn:Hid; [reflexivity |].
  destruct (_ || _); [reflexivity |].
  unfold _fetch, bind, load. rewrite Hl. cbn [fst snd].
  unfold _info_path. by rewrite Hid.
Qed.

Lemma update_unfold self title description nsfw resources other_settings :
  forallb is_none (map snd (update_settings title description nsfw resources
                              other_settings)) = false ->
  LiveThreadContribution_update self title description nsfw resources other_settings
  = (t <- helper_thread self ;;
     r <- getattr t "_reddit" ;;
     i <- getattr t "id" ;;
     thread <- LiveThread_init r i None ;;
     data <- merge_settings thread
               (update_settings title description nsfw resources other_settings) ;;
     i' <- getattr t "id" ;;
     r' <- getattr t "_reddit" ;;
     reddit_post r' (mkPath "live_update_thread" i') (Some data) ;;
     _reset_attributes t (map fst data)).
Proof.
  intros Hnot. unfold LiveThreadContribution_update.
  fold (update_settings title description nsfw resources other_settings).
  by rewrite Hnot.
Qed.

(** Every way a settings update with something to send can end. *)
Lemma update_outcome self title description nsfw resources other_settings w res w' :
  forallb is_none (map snd (update_settings title description nsfw resources
                              other_settings)) = false ->
  LiveThreadContribution_update self title description nsfw resources other_settings w
  = (res, w') ->
  match res with
  | Raise e =>
      srv w' = srv w
      /\ (forall l, l < length (heap w) -> heap w' !! l = heap w !! l)
      /\ exists fetches posts,
           log w' = log w ++ fetches ++ posts
           /\ (fetches = [] \/ exists p, fetches = [Get p []])
           /\ (posts = []
               \/ exists i data,
                    posts = [Post (mkPath "live_update_thread" i) (Some data)]
                    /\ srv_refuses (srv w) (mkPath "live_update_thread" i) (Some data)
                       = Some e)
  | OK _ =>
      exists t k d i data,
        helper_thread self w = (OK t, w)
        /\ heap w !! t = Some (Resource k d)
        /\ d !! "id" = Some i
        /\ map fst data
           = map fst (update_settings title description nsfw resources other_settings)
        /\ Forall2 (fun kv kv' => is_none (snd kv) = false -> snd kv' = snd kv)
             (update_settings title description nsfw resources other_settings) data
        /\ (log w' = log w ++ [Post (mkPath "live_update_thread" i) (Some data)]
            \/ exists p,
                 log w' = log w ++ [Get p [];
                                    Post (mkPath "live_update_thread" i) (Some data)])
        /\ heap w' !! t
           = Some (Resource k
                     (reset_dict d
                        (map fst (update_settings title description nsfw resources
                                    other_settings))))
        /\ (forall l, l < length (heap w) -> l <> t -> heap w' !! l = heap w !! l)
        /\ srv w' = srv_post w (mkPath "live_update_thread" i) (Some data) (srv w)
  end.
Proof.
  intros Hnot H. rewrite (update_unfold _ _ _ _ _ _ Hnot) in H.
  set (settings := update_settings title description nsfw resources other_settings) in *.
  assert (Hsame : forall e : Exc,
            srv w = srv w
            /\ (forall l, l < length (heap w) -> heap w !! l = heap w !! l)
            /\ exists fetches posts,
                 log w = log w ++ fetches ++ posts
                 /\ (fetches = [] \/ exists p, fetches = [Get p []])
                 /\ (posts = []
                     \/ exists i data,
                          posts = [Post (mkPath "live_update_thread" i) (Some data)]
                          /\ srv_refuses (srv w) (mkPath "live_update_thread" i) (Some data)
                             = Some e)).
  { intros e. split; [done |]. split; [done |]. exists [], [].
    rewrite !app_nil_r. split; [reflexivity |]. split; by left. }
  (* self.thread *)
  unfold bind at 1 in H.
  destruct (helper_thread self w) as [[t | e] w0] eqn:Hh;
    destruct (helper_thread_inv _ _ _ _ Hh) as [-> Hobj];
    [| injection H as <- <-; exact (Hsame e)].
  (* self.thread._reddit *)
  unfold bind at 1 in H.
  destruct (getattr t "_reddit" w) as [[r | e] w0] eqn:Hr.
  2:{ pose proof (getattr_private_world w t "_reddit" eq_refl) as Hw.
      rewrite Hr in Hw. cbn [snd] in Hw. subst w0. injection H as <- <-.
      exact (Hsame e). }
  apply getattr_private_inv in Hr as (-> & k & d & Hl & Hdr); [| done].
  (* self.thread.id *)
  unfold bind at 1 in H.
  destruct (getattr t "id" w) as [[i | e] w0] eqn:Hi.
  2:{ pose proof (getattr_id_world w t) as Hw.
      rewrite Hi in Hw. cbn [snd] in Hw. subst w0. injection H as <- <-.
      exact (Hsame e). }
  apply getattr_id_inv in Hi as (-> & k' & d' & Hl' & Hdi).
  rewrite Hl in Hl'. injection Hl' as <- <-.
  assert (Htl : t < length (heap w)) by (eapply lookup_lt_Some; eassumption).
  (* the fresh thread *)
  destruct (truthy i) eqn:Hti.
  2:{ rewrite (bind_Raise _ _ _ _ _ (LiveThread_init_raise r i None w
                                        ltac:(by rewrite Hti))) in H.
      injection H as <- <-. exact (Hsame TypeError). }
  rewrite (bind_OK _ _ _ _ _ (LiveThread_init_id_run r i w Hti)) in H.
  set (n := length (heap w)) in *.
  set (w1 := set_heap (heap w ++ [Resource KThread (thread_dict r i None)]) w) in *.
  (* the merge *)
  unfold bind at 1 in H.
  destruct (merge_settings n settings w1) as [[data | e] w2] eqn:Hm;
    pose proof (merge_settings_effect n settings w1 _ w2 Hm)
      as (E1 & E2 & E3 & E4 & _ & E6).
  2:{ injection H as <- <-. split; [exact E1 |]. split.
      - intros l Hlt. rewrite E4 by exact Hlt. by apply lookup_app_l.
      - destruct E6 as [-> | (p & -> & _)].
        + exists [], []. rewrite !app_nil_r.
          split; [reflexivity |]. split; by left.
        + exists [Get p []], []. rewrite app_nil_r.
          split; [reflexivity |]. split; [right; by exists p | by left]. }
  assert (Hold : forall l, l < n -> heap w2 !! l = heap w !! l).
  { intros l Hlt. rewrite E4 by exact Hlt. by apply lookup_app_l. }
  assert (Hl2 : heap w2 !! t = Some (Resource k d)) by (by rewrite Hold).
  assert (Ht2 : t < length (heap w2)) by (eapply lookup_lt_Some; eassumption).
  rewrite (bind_OK _ _ _ _ _ (getattr_present w2 t k d "id" i Hl2 Hdi)) in H.
  rewrite (bind_OK _ _ _ _ _ (getattr_present w2 t k d "_reddit" r Hl2 Hdr)) in H.
  (* the post *)
  destruct (decide (r = VReddit)) as [-> | Hnr].
  2:{ assert (Hp : forall p dat, reddit_post r p dat w2 = (Raise AttributeError, w2))
        by (intros p dat; by destruct r).
      rewrite (bind_Raise _ _ _ _ _ (Hp _ _)) in H. injection H as <- <-.
      split; [exact E1 |]. split; [exact Hold |].
      destruct E6 as [-> | (p & -> & _)].
      - exists [], []. rewrite !app_nil_r.
        split; [reflexivity |]. split; by left.
      - exists [Get p []], []. rewrite app_nil_r.
        split; [reflexivity |]. split; [right; by exists p | by left]. }
  destruct (srv_refuses (srv w2) (mkPath "live_update_thread" i) (Some data))
    as [e |] eqn:Hre.
  { rewrite (bind_Raise _ _ _ _ _ (reddit_post_refused _ _ e w2 Hre)) in H.
    injection H as <- <-. cbn [heap log srv add_log].
    split; [exact E1 |]. split; [exact Hold |].
    change (srv w1) with (srv w) in E1. rewrite E1 in Hre.
    destruct E6 as [-> | (p & -> & _)].
    - exists [], [Post (mkPath "live_update_thread" i) (Some data)].
      split; [reflexivity |]. split; [by left | right; by exists i, data].
    - exists [Get p []], [Post (mkPath "live_update_thread" i) (Some data)].
      split; [cbn [w1 log set_heap]; by rewrite <- app_assoc |].
      split; [right; by exists p | right; by exists i, data]. }
  rewrite (bind_OK _ _ _ _ _ (reddit_post_run _ _ w2 Hre)) in H.
  (* the reset *)
  unfold _reset_attributes in H.
  erewrite bind_OK in H; [| apply load_run; cbn [heap set_srv add_log]; exact Hl2].
  cbn [fst snd] in H. rewrite store_run in H. injection H as <- <-.
  destruct (merge_settings_keys n settings w1 data w2 Hm) as [Hkeys Hvals].
  exists t, k, d, i, data. cbn [heap log srv srv_post set_heap set_srv add_log].
  split; [reflexivity |]. split; [exact Hl |]. split; [exact Hdi |].
  split; [exact Hkeys |]. split; [exact Hvals |]. split.
  { destruct E6 as [-> | (p & -> & _)]; [by left | right]. exists p.
    cbn [w1 log set_heap]. by rewrite <- app_assoc. }
  split; [rewrite Hkeys; by apply list_lookup_insert_eq |].
  split; [intros l Hlt Hne; rewrite list_lookup_insert_ne by done; by apply Hold |].
  by rewrite E1, E2.
Qed.

(** X7: a settings update that raises has changed nothing.  Whatever the
    arguments and whatever the reason (no usable thread, a failed fetch, a
    setting the server does not report, a post the server refuses), the
    server is as it was and every object that was in the heap, the
    in-memory thread with its cache included, is unchanged: the reset
    comes only after a post that was accepted.  The log has gained at
    most the one fetch and at most one post; when a post was made it is
    the last request, and the exception is the one its refusal raised.
    Runs that leave the embedding, by reading or assigning a name of the
    missing base classes, are not covered. *)
Theorem update_failure_is_atomic (self : loc)
    (title description nsfw resources : Value) (other_settings : Payload)
    (w w' : World) (e : Exc) :
  LiveThreadContribution_update self title description nsfw resources other_settings w
  = (Raise e, w') ->
  e <> NotModelled ->
  srv w' = srv w
  /\ (forall l, l < length (heap w) -> heap w' !! l = heap w !! l)
  /\ exists fetches posts,
       log w' = log w ++ fetches ++ posts
       /\ (fetches = [] \/ exists p, fetches = [Get p []])
       /\ (posts = []
           \/ exists i data,
                posts = [Post (mkPath "live_update_thread" i) (Some data)]
                /\ srv_refuses (srv w) (mkPath "live_update_thread" i) (Some data)
                   = Some e).
Proof.
  intros H _.
  destruct (forallb is_none
              (map snd (update_settings title description nsfw resources other_settings)))
    eqn:Hnot.
  - unfold LiveThreadContribution_update in H.
    fold (update_settings title description nsfw resources other_settings) in H.
    rewrite Hnot in H. discriminate.
  - apply (update_outcome self title description nsfw resources other_settings
             w (Raise e) w' Hnot H).
Qed.

(** A server that refuses the post of the new title: the update raises
    what the server reported, after its fetch and its post, and the
    description cached on the thread is still there. *)
Lemma update_failure_is_atomic_witness :
  let w0 := mkWorld (heap example_thread_world) []
              (mkServer (srv_get example_server) (fun _ _ => None)
                        (fun _ _ => Some APIException))
              (fun _ _ s => s) in
  let r := LiveThreadContribution_update 1 (VStr "T") VNone VNone VNone [] w0 in
  fst r = Raise APIException
  /\ length (log (snd r)) = 2
  /\ cached (snd r) 0 "description" = Some (VStr "cached")
  /\ srv (snd r) = srv w0.
Proof.
  intros w0 r.
  assert (Hr : r = (Raise APIException, snd r)) by (vm_compute; reflexivity).
  assert (He : APIException <> NotModelled) by discriminate.
  destruct (update_failure_is_atomic 1 (VStr "T") VNone VNone VNone [] w0 (snd r)
              APIException Hr He) as (Hsrv & Hheap & _).
  split; [by rewrite Hr |]. split; [vm_compute; reflexivity |].
  split; [| exact Hsrv].
  unfold cached. rewrite Hheap by (vm_compute; lia). vm_compute. reflexivity.
Defined.

(** X8: a settings update that returns, with at least one setting given,
    has made one post and at most one fetch before it.  The posted
    dictionary has exactly the keys of the settings, the four standard
    ones first and then the extra ones, and every value that was given is
    sent as given.  Afterwards the in-memory thread has lost every one of
    these keys from its cache and is marked as not fetched, and every
    other object that was in the heap is unchanged. *)
Theorem update_success_shape (self : loc)
    (title description nsfw resources : Value) (other_settings : Payload)
    (w w' : World) :
  forallb is_none (map snd (update_settings title description nsfw resources
                              other_settings)) = false ->
  LiveThreadContribution_update self title description nsfw resources other_settings w
  = (OK tt, w') ->
  exists t k d i data,
    helper_thread self w = (OK t, w)
    /\ heap w !! t = Some (Resource k d)
    /\ d !! "id" = Some i
    /\ map fst data
       = map fst (update_settings title description nsfw resources other_settings)
    /\ Forall2 (fun kv kv' => is_none (snd kv) = false -> snd kv' = snd kv)
         (update_settings title description nsfw resources other_settings) data
    /\ (log w' = log w ++ [Post (mkPath "live_update_thread" i) (Some data)]
        \/ exists p,
             log w' = log w ++ [Get p [];
                                Post (mkPath "live_update_thread" i) (Some data)])
    /\ heap w' !! t
       = Some (Resource k
                 (reset_dict d
                    (map fst (update_settings title description nsfw resources
                                other_settings))))
    /\ (forall l, l < length (heap w) -> l <> t -> heap w' !! l = heap w !! l)
    /\ srv w' = srv_post w (mkPath "live_update_thread" i) (Some data) (srv w).
Proof.
  intros Hnot H.
  apply (update_outcome self title description nsfw resources other_settings
           w (OK tt) w' Hnot H).
Qed.

(** A new description for the thread [abc] of the example session. *)
Lemma update_success_shape_witness :
  let r := LiveThreadContribution_update 1 VNone (VStr "new") VNone VNone []
             example_thread_world in
  exists data,
    map fst data = ["title"; "description"; "nsfw"; "resources"]
    /\ exists p, log (snd r)
                 = [Get p []; Post (mkPath "live_update_thread" (VStr "abc")) (Some data)].
Proof.
  intros r.
  assert (Hr : r = (OK tt, snd r)) by (vm_compute; reflexivity).
  destruct (update_success_shape 1 VNone (VStr "new") VNone VNone []
              example_thread_world (snd r) eq_refl Hr)
    as (t & k & d & i & data & Hh & Hl & Hi & Hkeys & _ & Hlog & _).
  assert (Ht : t = 0) by (vm_compute in Hh; by injection Hh).
  subst t. assert (Hd : d !! "id" = Some (VStr "abc")).
  { vm_compute in Hl. injection Hl as <- <-. vm_compute. reflexivity. }
  rewrite Hi in Hd. injection Hd as ->.
  exists data. split; [exact Hkeys |].
  destruct Hlog as [Hlog | (p & Hlog)].
  - exfalso. assert (Hlen : length (log (snd r)) = 2) by (vm_compute; reflexivity).
    apply (f_equal length) in Hlog. rewrite length_app, Hlen in Hlog.
    assert (H0 : length (log example_thread_world) = 0) by (vm_compute; reflexivity).
    rewrite H0 in Hlog. cbn [length] in Hlog. lia.
  - exists p. exact Hlog.
Defined.

(** A setting that is given is not read from the thread. *)
Lemma merge_settings_given thread settings w :
  Forall (fun kv => is_none (snd kv) = false) settings ->
  merge_settings thread settings w = (OK settings, w).
Proof.
  induction 1 as [| [key value] settings Hv _ IH]; [reflexivity |].
  rewrite merge_settings_cons. cbn [snd] in Hv. rewrite Hv.
  step ltac:(reflexivity). step ltac:(exact IH). reflexivity.
Qed.

Lemma dict_set_nonempty d k v : dict_set d k v <> [].
Proof. destruct d as [| [k' v'] d]; cbn [dict_set]; [done | by case_bool_decide]. Qed.

Lemma dict_update_nonempty d other : d <> [] -> dict_update d other <> [].
Proof.
  unfold dict_update. revert d.
  induction other as [| kv other IH]; intros d Hne; [done |].
  cbn [foldl]. apply IH. apply dict_set_nonempty.
Qed.

Lemma update_settings_nonempty title description nsfw resources other_settings :
  update_settings title description nsfw resources other_settings <> [].
Proof. unfold update_settings. by apply dict_update_nonempty. Qed.

(** X9: when every setting of the call has a value, the update reads
    nothing: its only request is the post, the posted dictionary is the
    settings dictionary itself, and the thread object that the method
    creates for reading the current values is left unfetched.  This is so
    when the server accepts the post, after which the thread is reset,
    and when the server refuses it, after which the update raises and the
    thread is as it was. *)
Theorem update_all_given_no_fetch (self t : loc) (k : Kind) (d : gmap string Value)
    (i title description nsfw resources : Value) (other_settings : Payload) (w : World) :
  heap w !! self = Some (LiveThreadContribution t) ->
  heap w !! t = Some (Resource k d) ->
  d !! "_reddit" = Some VReddit ->
  d !! "id" = Some i ->
  truthy i = true ->
  Forall (fun kv => is_none (snd kv) = false)
    (update_settings title description nsfw resources other_settings) ->
  (srv_refuses (srv w) (mkPath "live_update_thread" i)
     (Some (update_settings title description nsfw resources other_settings)) = None ->
   exists w',
     LiveThreadContribution_update self title description nsfw resources other_settings w
     = (OK tt, w')
     /\ log w'
        = log w ++ [Post (mkPath "live_update_thread" i)
                      (Some (update_settings title description nsfw resources
                               other_settings))]
     /\ heap w' !! t
        = Some (Resource k
                  (reset_dict d
                     (map fst (update_settings title description nsfw resources
                                 other_settings))))
     /\ heap w' !! length (heap w)
        = Some (Resource KThread (thread_dict VReddit i None))
     /\ (forall l, l < length (heap w) -> l <> t -> heap w' !! l = heap w !! l))
  /\ (forall e,
        srv_refuses (srv w) (mkPath "live_update_thread" i)
          (Some (update_settings title description nsfw resources other_settings))
        = Some e ->
        exists w',
          LiveThreadContribution_update self title description nsfw resources
            other_settings w
          = (Raise e, w')
          /\ log w'
             = log w ++ [Post (mkPath "live_update_thread" i)
                           (Some (update_settings title description nsfw resources
                                    other_settings))]
          /\ heap w' !! t = Some (Resource k d)
          /\ heap w' !! length (heap w)
             = Some (Resource KThread (thread_dict VReddit i None))
          /\ srv w' = srv w).
Proof.
  intros Hs Ht Hr Hi Hti Hall.
  assert (Htl : t < length (heap w)) by (eapply lookup_lt_Some; eassumption).
  assert (Hnot : forallb is_none
                   (map snd (update_settings title description nsfw resources
                               other_settings)) = false).
  { pose proof (update_settings_nonempty title description nsfw resources
                  other_settings) as Hne.
    destruct Hall as [| [key value] rest Hv _]; [done |].
    cbn [map snd forallb] in *. by rewrite Hv. }
  set (settings := update_settings title description nsfw resources other_settings) in *.
  set (w1 := set_heap (heap w ++ [Resource KThread (thread_dict VReddit i None)]) w).
  assert (Hrun : LiveThreadContribution_update self title description nsfw resources
                   other_settings w
                 = (reddit_post VReddit (mkPath "live_update_thread" i) (Some settings) ;;
                    _reset_attributes t (map fst settings)) w1).
  { rewrite update_unfold by exact Hnot. fold settings.
    step ltac:(unfold helper_thread; rewrite Hs; reflexivity).
    step ltac:(eapply getattr_present; eassumption).
    step ltac:(eapply getattr_present; eassumption).
    step ltac:(apply LiveThread_init_id_run; exact Hti).
    step ltac:(apply merge_settings_given; exact Hall).
    step ltac:(eapply getattr_present; [wsimpl; apply lookup_old; eassumption | eassumption]).
    step ltac:(eapply getattr_present; [wsimpl; apply lookup_old; eassumption | eassumption]).
    reflexivity. }
  rewrite Hrun. unfold w1. split.
  - intros Hacc. eexists. split.
    + step ltac:(apply reddit_post_run; exact Hacc).
      unfold _reset_attributes.
      step ltac:(apply load_run; wsimpl; apply lookup_old; eassumption).
      apply store_run.
    + wsimpl. rewrite insert_old by done.
      split; [reflexivity |]. split; [| split].
      * apply lookup_old. by apply list_lookup_insert_eq.
      * rewrite lookup_app_r by (rewrite length_insert; lia).
        rewrite length_insert. by rewrite Nat.sub_diag.
      * intros l Hl Hne. rewrite lookup_app_l by (rewrite length_insert; lia).
        by rewrite list_lookup_insert_ne.
  - intros e Hre. eexists. split.
    + apply bind_Raise. apply reddit_post_refused. exact Hre.
    + wsimpl. split; [reflexivity |]. split; [| split].
      * by apply lookup_old.
      * reflexivity.
      * reflexivity.
Qed.

(** All four settings given for the thread [abc] of the example session. *)
Lemma update_all_given_no_fetch_witness :
  exists w',
    LiveThreadContribution_update 1 (VStr "T") (VStr "D") (VBool true) (VStr "R") []
      example_thread_world = (OK tt, w')
    /\ log w'
       = [Post (mkPath "live_update_thread" (VStr "abc"))
            (Some [("title", VStr "T"); ("description", VStr "D");
                   ("nsfw", VBool true); ("resources", VStr "R")])].
Proof.
  assert (H1 : heap example_thread_world !! 1 = Some (LiveThreadContribution 0))
    by (vm_compute; reflexivity).
  assert (H2 : heap example_thread_world !! 0
               = Some (Resource KThread
                         (<["_contrib" := VRef 1]>
                            (<["description" := VStr "cached"]>
                               (thread_dict VReddit (VStr "abc") None)))))
    by (vm_compute; reflexivity).
  assert (H3 : Forall (fun kv : string * Value => is_none (snd kv) = false)
                 (update_settings (VStr "T") (VStr "D") (VBool true) (VStr "R") []))
    by (repeat constructor).
  destruct (update_all_given_no_fetch 1 0 KThread _ (VStr "abc")
              (VStr "T") (VStr "D") (VBool true) (VStr "R") [] example_thread_world
              H1 H2 eq_refl eq_refl eq_refl H3) as [Hok _].
  destruct (Hok eq_refl) as (w' & Hrun & Hlog & _).
  exists w'. split; [exact Hrun | exact Hlog].
Defined.



(** ** Comparison has no effect *)

Lemma RedditBase_str_world self w : snd (RedditBase_str self w) = w.
Proof.
  unfold RedditBase_str, bind, load.
  destruct (heap w !! self) as [[k d | | |] |]; try reflexivity.
  cbn [fst]. unfold STR_FIELD.
  pose proof (getattr_id_world w self) as Hw.
  destruct (getattr self "id" w) as [[v | e] w1]; cbn [snd] in Hw; subst w1;
    [| reflexivity].
  by destruct v.
Qed.

Lemma py_str_world v w : snd (py_str v w) = w.
Proof.
  destruct v as [| [|] | s | | v | l]; try reflexivity.
  - by destruct v.
  - apply RedditBase_str_world.
Qed.

(** X11: comparing a thread with anything, and hashing it, has no effect:
    whatever the operands and whether the operation returns or raises, no
    request is sent and no object changes.  The string form of an object
    is its id, and an id is never fetched. *)
Theorem comparison_has_no_effect (py_hash : string -> Z) (self : loc) (other : Value)
    (w : World) :
  snd (LiveThread_eq self other w) = w
  /\ snd (LiveThread_hash py_hash self w) = w.
Proof.
  assert (Hstr : forall l (B : Type) (f : string -> M B),
            (forall s, snd (f s w) = w) -> snd (bind (RedditBase_str l) f w) = w).
  { intros l B f Hf. unfold bind.
    pose proof (RedditBase_str_world l w) as Hw.
    destruct (RedditBase_str l w) as [[s | e] w1]; cbn [snd] in Hw; subst w1;
      [apply Hf | reflexivity]. }
  split.
  - assert (Hobj : snd ((x <- load self ;;
                         b <- isinstance other (fst x) ;;
                         if b then
                           a <- RedditBase_str self ;;
                           c <- py_str other ;;
                           ret (bool_decide (a = c))
                         else ret false) w) = w).
    { unfold bind at 1. unfold load.
      destruct (heap w !! self) as [[k d | | |] |]; try reflexivity.
      cbn [fst].
      assert (Hi : exists b, isinstance other k w = (OK b, w)).
      { destruct other as [| b | s | | v | l]; try (by eexists).
        unfold isinstance. destruct (heap w !! l) as [[k' d' | | |] |]; by eexists. }
      destruct Hi as [b Hi]. rewrite (bind_OK _ _ _ _ _ Hi).
      destruct b; [| reflexivity].
      apply Hstr. intros a. unfold bind.
      pose proof (py_str_world other w) as Hw.
      destruct (py_str other w) as [[c | e] w1]; cbn [snd] in Hw; by subst w1. }
    destruct other; try exact Hobj.
    unfold LiveThread_eq. apply Hstr. reflexivity.
  - unfold LiveThread_hash. unfold bind at 1. unfold load.
    destruct (heap w !! self) as [[k d | | |] |]; try reflexivity.
    apply Hstr. reflexivity.
Qed.

(** ** Removing and striking an update *)

Section UpdateActions.

Variable RedditBase_fullname : loc -> M Value.

Lemma LiveUpdateContribution_post_run key self u t du dt i f w :
  heap w !! self = Some (LiveUpdateContribution u) ->
  heap w !! u = Some (Resource KUpdate du) ->
  du !! "_thread" = Some (VRef t) ->
  heap w !! t = Some (Resource KThread dt) ->
  dt !! "id" = Some i ->
  dt !! "_reddit" = Some VReddit ->
  RedditBase_fullname u w = (OK f, w) ->
  LiveUpdateContribution_post RedditBase_fullname key self w
  = reddit_post VReddit (mkPath key i) (Some [("id", f)]) w.
Proof.
  intros Hs Hu Hth Ht Hi Hr Hf. unfold LiveUpdateContribution_post.
  step ltac:(unfold helper_update; rewrite Hs; reflexivity).
  step ltac:(unfold LiveUpdate_thread; eapply getattr_present; eassumption).
  step ltac:(cbn [value_getattr]; eapply getattr_present; eassumption).
  step ltac:(exact Hf).
  step ltac:(unfold LiveUpdate_thread; eapply getattr_present; eassumption).
  step ltac:(cbn [value_getattr]; eapply getattr_present; eassumption).
  reflexivity.
Qed.

End UpdateActions.

(** X12: an update taken from a thread by item access can be removed and
    struck through its [contrib] helper without any fetch: each of the two
    methods sends one post, to its own endpoint under the id of the
    thread the update was taken from, with the fullname of the update as
    the only field.  When the server accepts the post the method returns;
    when the server refuses it the method raises what the server reported,
    the post having been sent.  The fullname property is a parameter
    here; it is assumed to return without effect. *)
Theorem item_update_actions (RedditBase_fullname : loc -> M Value) (self : loc)
    (d : gmap string Value) (i update_id f : Value) (w : World) :
  heap w !! self = Some (Resource KThread d) ->
  d !! "_reddit" = Some VReddit ->
  d !! "id" = Some i ->
  truthy i = true ->
  truthy update_id = true ->
  (forall w0, RedditBase_fullname (length (heap w)) w0 = (OK f, w0)) ->
  exists w1 c w2,
    LiveThread_getitem self update_id w = (OK (length (heap w)), w1)
    /\ LiveUpdate_contrib (length (heap w)) w1 = (OK (VRef c), w2)
    /\ (srv_refuses (srv w) (mkPath "live_remove_update" i) (Some [("id", f)]) = None ->
        exists w3,
          LiveUpdateContribution_remove RedditBase_fullname c w2 = (OK tt, w3)
          /\ log w3 = log w ++ [Post (mkPath "live_remove_update" i) (Some [("id", f)])])
    /\ (srv_refuses (srv w) (mkPath "live_strike" i) (Some [("id", f)]) = None ->
        exists w3,
          LiveUpdateContribution_strike RedditBase_fullname c w2 = (OK tt, w3)
          /\ log w3 = log w ++ [Post (mkPath "live_strike" i) (Some [("id", f)])])
    /\ (forall e,
          srv_refuses (srv w) (mkPath "live_remove_update" i) (Some [("id", f)])
          = Some e ->
          exists w3,
            LiveUpdateContribution_remove RedditBase_fullname c w2 = (Raise e, w3)
            /\ log w3
               = log w ++ [Post (mkPath "live_remove_update" i) (Some [("id", f)])]
            /\ heap w3 = heap w2 /\ srv w3 = srv w)
    /\ (forall e,
          srv_refuses (srv w) (mkPath "live_strike" i) (Some [("id", f)]) = Some e ->
          exists w3,
            LiveUpdateContribution_strike RedditBase_fullname c w2 = (Raise e, w3)
            /\ log w3 = log w ++ [Post (mkPath "live_strike" i) (Some [("id", f)])]
            /\ heap w3 = heap w2 /\ srv w3 = srv w).
Proof.
  intros Hl Hr Hi Hti Hu Hf.
  set (h := heap w) in *.
  set (U := stub_update_dict VReddit update_id (S (length h))).
  set (T := Resource KThread (thread_dict VReddit i None)).
  set (U' := <["_contrib" := VRef (S (S (length h)))]> U).
  exists (set_heap (h ++ [Resource KUpdate U; T]) w), (S (S (length h))),
    (set_heap (h ++ [Resource KUpdate U'; T; LiveUpdateContribution (length h)]) w).
  assert (Hpost : forall key,
            LiveUpdateContribution_post RedditBase_fullname key (S (S (length h)))
              (set_heap (h ++ [Resource KUpdate U'; T;
                               LiveUpdateContribution (length h)]) w)
            = reddit_post VReddit (mkPath key i) (Some [("id", f)])
                (set_heap (h ++ [Resource KUpdate U'; T;
                                 LiveUpdateContribution (length h)]) w)).
  { intros key.
    apply (LiveUpdateContribution_post_run RedditBase_fullname key _ (length h)
             (S (length h)) U' (thread_dict VReddit i None) i f).
    - cbn [heap set_heap]. rewrite lookup_app_r by lia.
      by replace (S (S (length h)) - length h) with 2 by lia.
    - cbn [heap set_heap]. apply lookup_fresh.
    - unfold U', U, stub_update_dict. rewrite !lookup_insert_ne by done.
      apply lookup_insert_eq.
    - cbn [heap set_heap]. apply lookup_fresh_S.
    - by apply thread_dict_id.
    - apply thread_dict_stub_reddit.
    - apply Hf. }
  assert (Hok : forall key,
            srv_refuses (srv w) (mkPath key i) (Some [("id", f)]) = None ->
            exists w3,
              LiveUpdateContribution_post RedditBase_fullname key (S (S (length h)))
                (set_heap (h ++ [Resource KUpdate U'; T;
                                 LiveUpdateContribution (length h)]) w)
              = (OK tt, w3)
              /\ log w3 = log w ++ [Post (mkPath key i) (Some [("id", f)])]).
  { intros key Hacc. eexists. split.
    - rewrite Hpost. apply reddit_post_run. exact Hacc.
    - reflexivity. }
  assert (Hno : forall key e,
            srv_refuses (srv w) (mkPath key i) (Some [("id", f)]) = Some e ->
            exists w3,
              LiveUpdateContribution_post RedditBase_fullname key (S (S (length h)))
                (set_heap (h ++ [Resource KUpdate U'; T;
                                 LiveUpdateContribution (length h)]) w)
              = (Raise e, w3)
              /\ log w3 = log w ++ [Post (mkPath key i) (Some [("id", f)])]
              /\ heap w3 = h ++ [Resource KUpdate U'; T;
                                 LiveUpdateContribution (length h)]
              /\ srv w3 = srv w).
  { intros key e Hre. eexists. split.
    - rewrite Hpost. apply reddit_post_refused. exact Hre.
    - repeat split. }
  split; [by apply (LiveThread_getitem_run self KThread d VReddit i) |].
  split.
  { erewrite (LiveUpdate_contrib_run _ KUpdate U VNone);
      [| cbn [heap set_heap]; apply lookup_fresh | apply lookup_insert_eq].
    cbn [is_none heap set_heap]. rewrite length_app. cbn [length].
    replace (length h + 2) with (S (S (length h))) by lia.
    rewrite <- app_assoc. cbn [app]. rewrite insert_fresh. reflexivity. }
  split; [apply (Hok "live_remove_update") |].
  split; [apply (Hok "live_strike") |].
  split; [apply (Hno "live_remove_update") | apply (Hno "live_strike")].
Qed.

(** The update [u1] of the thread [abc] of the example session, with a
    constant fullname. *)
Lemma item_update_actions_witness :
  let fullname : loc -> M Value := fun _ => ret (VStr "LiveUpdate_u1") in
  exists w1 c w2 w3,
    LiveThread_getitem 0 (VStr "u1") example_thread_world = (OK 2, w1)
    /\ LiveUpdate_contrib 2 w1 = (OK (VRef c), w2)
    /\ LiveUpdateContribution_strike fullname c w2 = (OK tt, w3)
    /\ log w3 = [Post (mkPath "live_strike" (VStr "abc"))
                   (Some [("id", VStr "LiveUpdate_u1")])].
Proof.
  intros fullname.
  assert (H2 : heap example_thread_world !! 0
               = Some (Resource KThread
                         (<["_contrib" := VRef 1]>
                            (<["description" := VStr "cached"]>
                               (thread_dict VReddit (VStr "abc") None)))))
    by (vm_compute; reflexivity).
  destruct (item_update_actions fullname 0 _ (VStr "abc") (VStr "u1")
              (VStr "LiveUpdate_u1") example_thread_world
              H2 eq_refl eq_refl eq_refl eq_refl (fun w0 => eq_refl))
    as (w1 & c & w2 & Hget & Hc & _ & Hstrike & _).
  destruct (Hstrike eq_refl) as (w3 & Hs & Hlog).
  exists w1, c, w2, w3. repeat split; assumption.
Defined.

(** ** Every outcome of an action *)

(** The part all the actions share: the thread of the helper, its id, its
    session, one post. *)
Lemma thread_post_outcome self key data w res w' :
  (t <- helper_thread self ;;
   i <- getattr t "id" ;;
   r <- getattr t "_reddit" ;;
   reddit_post r (mkPath key i) data) w = (res, w') ->
  match res with
  | Raise e =>
      w' = w
      \/ exists i,
           srv_refuses (srv w) (mkPath key i) data = Some e
           /\ w' = mkWorld (heap w) (log w ++ [Post (mkPath key i) data])
                     (srv w) (srv_post w)
  | OK _ =>
      exists i,
        srv_refuses (srv w) (mkPath key i) data = None
        /\ w' = mkWorld (heap w) (log w ++ [Post (mkPath key i) data])
                  (srv_post w (mkPath key i) data (srv w)) (srv_post w)
  end.
Proof.
  unfold bind at 1. unfold helper_thread.
  destruct (heap w !! self) as [[k d | t | t | u] |];
    try (intros [= <- <-]; by left).
  all: unfold bind at 1;
    pose proof (getattr_id_world w t) as Hw1;
    destruct (getattr t "id" w) as [[i | e] w1]; cbn [snd] in Hw1; subst w1;
    [| intros [= <- <-]; by left];
    unfold bind;
    pose proof (getattr_private_world w t "_reddit" eq_refl) as Hw2;
    destruct (getattr t "_reddit" w) as [[r | e] w2]; cbn [snd] in Hw2; subst w2;
    [| intros [= <- <-]; by left];
    destruct r; cbn [reddit_post]; unfold raise;
    try (intros [= <- <-]; by left);
    destruct (srv_refuses (srv w) (mkPath key i) data) as [e |] eqn:Hre;
    intros [= <- <-]; [right |]; by exists i.
Qed.

(** X13: every way an action of a thread's helpers can end.  Whatever the
    helper and the state of its thread, no action ever fetches and no
    action changes an object.  An action that returns has sent its one
    post, which the server accepted.  An action that raises has either
    sent nothing and changed nothing, or has sent its one post, which the
    server refused with the exception raised, and left the server as it
    was.  The redditor given to [remove] and [remove_invite] is a raw
    value here, not a [Redditor] instance. *)
Theorem action_outcome (set_iter : list string -> list string)
    (Redditor_fullname : Value -> M Value) (a : ThreadAction) (self : loc)
    (w w' : World) (res : Res unit) :
  raw_argument a = true ->
  run_action set_iter Redditor_fullname a self w = (res, w') ->
  match res with
  | Raise e =>
      w' = w
      \/ exists i,
           srv_refuses (srv w) (mkPath (action_endpoint a) i) (action_data set_iter a)
           = Some e
           /\ w' = mkWorld (heap w)
                     (log w ++ [Post (mkPath (action_endpoint a) i)
                                  (action_data set_iter a)])
                     (srv w) (srv_post w)
  | OK _ =>
      exists i,
        srv_refuses (srv w) (mkPath (action_endpoint a) i) (action_data set_iter a)
        = None
        /\ w' = mkWorld (heap w)
                  (log w ++ [Post (mkPath (action_endpoint a) i) (action_data set_iter a)])
                  (srv_post w (mkPath (action_endpoint a) i) (action_data set_iter a)
                     (srv w))
                  (srv_post w)
  end.
Proof.
  intros Hraw H.
  destruct a as [| | name perms | name perms | f | f | body |];
    cbn [run_action action_endpoint action_data raw_argument] in *.
  - exact (thread_post_outcome self _ _ w res w' H).
  - exact (thread_post_outcome self _ _ w res w' H).
  - exact (thread_post_outcome self _ _ w res w' H).
  - exact (thread_post_outcome self _ _ w res w' H).
  - unfold LiveContributorRelationship_remove in H.
    apply negb_true_iff in Hraw. rewrite Hraw in H.
    exact (thread_post_outcome self _ _ w res w' H).
  - unfold LiveContributorRelationship_remove_invite in H.
    apply negb_true_iff in Hraw. rewrite Hraw in H.
    exact (thread_post_outcome self _ _ w res w' H).
  - exact (thread_post_outcome self _ _ w res w' H).
  - exact (thread_post_outcome self _ _ w res w' H).
Qed.

(** A server that has the invitation already and reports the conflict:
    the invitation was posted, and nothing else has happened. *)
Lemma action_outcome_witness :
  let w0 := mkWorld (heap example_thread_world) [] 
              (mkServer (fun _ => None) (fun _ _ => None)
                        (fun _ _ => Some APIException))
              (fun _ _ s => s) in
  let w1 := snd (LiveThread_contributor 0 w0) in
  exists w',
    run_action remove_dups (fun v => ret v) (Invite "spez" None) 2 w1
    = (Raise APIException, w')
    /\ heap w' = heap w1
    /\ srv w' = srv w1
    /\ length (log w') = 1.
Proof.
  intros w0 w1.
  set (r := run_action remove_dups (fun v => ret v) (Invite "spez" None) 2 w1).
  assert (Hr : r = (Raise APIException, snd r)) by (vm_compute; reflexivity).
  exists (snd r). split; [exact Hr |].
  destruct (action_outcome remove_dups (fun v => ret v) (Invite "spez" None) 2 w1
              (snd r) (Raise APIException) eq_refl Hr) as [Hw | (i & _ & Hw)].
  - exfalso. assert (Hlen : length (log (snd r)) = 1) by (vm_compute; reflexivity).
    rewrite Hw in Hlen. vm_compute in Hlen. discriminate.
  - rewrite Hw. cbn [heap srv log]. split; [reflexivity |]. split; [reflexivity |].
    rewrite length_app. vm_compute. reflexivity.
Defined.
